(** * LinkNode tracking engine: a shallow embedding of the tracking and
      analytics pipeline, and the properties its specification states.

    The embedding follows the JavaScript sources function by function:

    - [Validator]                 backend/middleware/validator.js and the
                                  location schema of validators/shipmentValidators.js
    - [Auth]                      authenticate of middleware/auth.js
    - [ShipmentModel], [TrackingLocationModel]
                                  models/Shipment.js, backend/models/TrackingLocation.js
    - [TrackingController]        backend/controllers/trackingController.js behind
                                  backend/routes/trackingRoutes.js
    - [SocketHandler]             backend/socket/index.js
    - [ETAService]                services/etaService.js
    - [RecommendationService]     services/recommendationService.js
    - [RouteAnalysisService]      backend/services/routeAnalysisService.js
    - [Double]                    the same three services in the arithmetic of the
                                  engine, with [new Date] and [Math.round]
    - [SmartTrackingController]   backend/controllers/smartTrackingController.js
                                  behind routes/smartTrackingRoutes.js
    - [Schema]                    backend/middleware/validator.js with all its rules,
                                  and every schema of validators/shipmentValidators.js
    - [ShipmentController]        the confirmation of a delivery of
                                  controllers/shipmentController.js behind
                                  routes/shipmentRoutes.js
    - [Reads]                     the reading handlers of the tracking and shipment
                                  routes

    Conventions.  Numbers of a request body are JSON literals and are kept as
    rationals ([Q]).  The analytics services compute with trigonometry and
    are modelled twice: over the reals ([R]), with NaN written out as [None]
    where the code can produce it (a missing coordinate, an empty average),
    for what holds of the formulas computed exactly, a time kept exact
    where [new Date] cuts it to whole milliseconds; and over binary64
    ([Double], on the primitive floats), with that cut, for what the
    rounding of the engine decides.  There [Math.sin], [Math.cos] and
    [Math.atan2], which the language leaves to the implementation, are
    parameters, and the examples read them from a table of correctly
    rounded values.  A nullable column is an [option].  Exceptions are the
    [Throw] case of [outcome].  Every [await] on the store is one atomic
    step. *)

From Stdlib Require Floats.
Import PrimFloat.
From Stdlib Require Import ZArith QArith Qreals Reals Lra Lia List String Bool.
From stdpp Require Import gmap strings.
Import ListNotations.

Local Open Scope Z_scope.
Local Open Scope string_scope.

(** ** JavaScript runtime: exceptions and values *)

(** What can be thrown: the application's [AppError(message, statusCode,
    code)] (middleware/errorHandler.js), a runtime error of the engine, an
    error of the database driver, which carries a [code] and no
    [statusCode], or an error of another library, which carries a [name]
    and neither of them. *)
Inductive error : Type :=
| AppError (statusCode : Z) (code : string)
| TypeError (what : string)
| DriverError (code : string)
| LibraryError (name : string).

(** What a JavaScript call can do: return a value or raise. *)
Inductive outcome (A : Type) : Type :=
| Ret (a : A)
| Throw (e : error).
Arguments Ret {A} a.
Arguments Throw {A} e.

(** Sequencing, written [x ← m; k]: a raised error skips what follows. *)
#[global] Instance outcome_ret : MRet outcome := @Ret.
#[global] Instance outcome_bind : MBind outcome :=
  fun A B k m =>
    match m with
    | Ret a => k a
    | Throw e => Throw e
    end.

(** [try { body } catch (error) { handler }] *)
Definition try_catch {A : Type} (body : outcome A) (handler : error -> A) : A :=
  match body with
  | Ret a => a
  | Throw e => handler e
  end.

(** A value of a JSON request body.  [JStr] and [JBool] stand for the
    non-numeric values a client can send. *)
Inductive jsval : Type :=
| JUndefined
| JNull
| JNum (q : Q)
| JStr (s : string)
| JBool (b : bool).

(** A request body is a JavaScript object read by field name; a field that
    is not there reads as [undefined]. *)
Definition field (obj : gmap string jsval) (name : string) : jsval :=
  default JUndefined (obj !! name).

(** [!v] is [negb (truthy v)]. *)
Definition truthy (v : jsval) : bool :=
  match v with
  | JUndefined | JNull => false
  | JNum q => negb (Qeq_bool q 0)
  | JStr s => negb (String.eqb s "")
  | JBool b => b
  end.

(** [typeof v === 'number'] (a JSON body holds no NaN). *)
Definition is_number (v : jsval) : bool :=
  match v with
  | JNum _ => true
  | _ => false
  end.

Definition Qltb (x y : Q) : bool := negb (Qle_bool y x).

(** The integer a numeric value denotes, when it denotes one: what an [INT]
    key column can be equal to. *)
Definition as_integer (v : jsval) : option Z :=
  match v with
  | JNum q =>
      if Z.eqb (Qnum q mod Zpos (Qden q)) 0 then Some (Qnum q / Zpos (Qden q)) else None
  | _ => None
  end.

(** An advisory as the recommendation engine builds it: [{type, message,
    severity, data}].  The message is text interpolated from [data] and is
    not kept; [data] keeps the numeric fields (unrounded). *)
Record Recommendation : Type := mkRecommendation {
  type : string;
  severity : string;
  data : list (string * R)
}.

(** ** controllers/smartTrackingController.js: calculateRiskScore *)

Module RiskScore.

(** One turn of the [forEach]: the [switch] on [rec.severity]. *)
Definition add_severity (riskScore : Z) (rec : Recommendation) : Z :=
  if String.eqb (severity rec) "high" then riskScore + 30
  else if String.eqb (severity rec) "medium" then riskScore + 15
  else if String.eqb (severity rec) "low" then riskScore + 5
  else riskScore.

(** [recommendations] is [None] for a null or undefined argument. *)
Definition calculateRiskScore (recommendations : option (list Recommendation)) : Z :=
  match recommendations with
  | None => 0
  | Some [] => 0
  | Some recs => Z.min (fold_left add_severity recs 0) 100
  end.

(** The specification's reading: the weight of a severity, summed and capped. *)
Definition severity_weight (s : string) : Z :=
  if String.eqb s "low" then 5
  else if String.eqb s "medium" then 15
  else if String.eqb s "high" then 30
  else 0.

Definition risk_score_spec (advisories : list Recommendation) : Z :=
  Z.min 100 (fold_right Z.add 0 (map (fun a => severity_weight (severity a)) advisories)).

End RiskScore.

(** ** middleware/validator.js and validators/shipmentValidators.js *)

Module Validator.

Inductive jstype : Type := TString | TNumber | TBoolean.

(** The rules a field of the location schema can carry ([required], [type],
    [min], [max]); the schema sets no length, pattern or enum rule. *)
Record Rules : Type := mkRules {
  required : bool;
  rtype : jstype;
  min : option Q;
  max : option Q
}.

(** One entry of the [errors] array, kept structured: the field and what
    is wrong with it. *)
Inductive Problem : Type :=
| IsRequired
| MustBeString
| MustBeNumber
| MustBeBoolean
| MustBeAtLeast (bound : Q)
| MustBeAtMost (bound : Q).

Section Coercion.

(** [Number(s)] of the engine on a string; [None] is NaN. *)
Variable parseNumber : string -> option Q.

Definition Number (v : jsval) : option Q :=
  match v with
  | JNum q => Some q
  | JStr s => parseNumber s
  | JBool b => Some (if b then 1%Q else 0%Q)
  | JNull => Some 0%Q
  | JUndefined => None
  end.

Definition type_problems (rules : Rules) (value : jsval) : list Problem :=
  match rtype rules, value with
  | TString, JStr _ => []
  | TString, _ => [MustBeString]
  | TNumber, JNum _ => []
  | TNumber, _ => [MustBeNumber]
  | TBoolean, JBool _ => []
  | TBoolean, _ => [MustBeBoolean]
  end.

Definition min_problems (rules : Rules) (value : jsval) : list Problem :=
  match min rules, Number value with
  | Some bound, Some n => if Qltb n bound then [MustBeAtLeast bound] else []
  | _, _ => []
  end.

Definition max_problems (rules : Rules) (value : jsval) : list Problem :=
  match max rules, Number value with
  | Some bound, Some n => if Qltb bound n then [MustBeAtMost bound] else []
  | _, _ => []
  end.

(** The body of the [for] loop of [validateObject] for one schema entry. *)
Definition validateField (data : gmap string jsval) (entry : string * Rules)
  : list (string * Problem) :=
  let name := fst entry in
  let rules := snd entry in
  let value := field data name in
  let missing :=
    match value with
    | JUndefined | JNull => true
    | JStr s => String.eqb s ""
    | _ => false
    end in
  if required rules && missing then [(name, IsRequired)]
  else
    match value with
    | JUndefined | JNull => []
    | _ =>
        map (pair name)
          (type_problems rules value ++ min_problems rules value
           ++ max_problems rules value)%list
    end.

Definition validateObject (data : gmap string jsval) (schema : list (string * Rules))
  : list (string * Problem) :=
  flat_map (validateField data) schema.

(** [validate(schema)] as a middleware over a schema with a [body] part
    only: it passes the request on or hands an [AppError] to [next]. *)
Definition validate (schema : list (string * Rules)) (body : gmap string jsval)
  : outcome unit :=
  match validateObject body schema with
  | [] => Ret tt
  | _ :: _ => Throw (AppError 400 "VALIDATION_ERROR")
  end.

End Coercion.

Definition updateLocationSchema : list (string * Rules) :=
  [ ("shipment_id", mkRules true TNumber (Some 1%Q) None);
    ("latitude", mkRules true TNumber (Some (-90)%Q) (Some 90%Q));
    ("longitude", mkRules true TNumber (Some (-180)%Q) (Some 180%Q));
    ("accuracy", mkRules false TNumber (Some 0%Q) (Some 1000%Q));
    ("speed", mkRules false TNumber (Some 0%Q) (Some 500%Q)) ].

End Validator.

(** ** The caller identity the authentication middleware attaches *)

Record User : Type := mkUser {
  user_id : Z;
  role : string;
  organizationId : option Z
}.

(** Truthiness of an optional numeric id: [null], [undefined] and 0 are falsy. *)
Definition truthy_id (o : option Z) : bool :=
  match o with
  | Some z => negb (Z.eqb z 0)
  | None => false
  end.

(** [a !== b] on two ids that may be null. *)
Definition id_differs (a b : option Z) : bool :=
  match a, b with
  | Some x, Some y => negb (Z.eqb x y)
  | None, None => false
  | _, _ => true
  end.

(** ** middleware/auth.js: authenticate *)

Module Auth.

(** What [jwt.verify(token, secret)] does with a token: it returns the
    payload, read here as the caller identity [req.user] is made of, or it
    raises an error of one of the three names of jsonwebtoken. *)
Inductive Verdict : Type :=
| Decoded (user : User)
| JsonWebTokenError
| TokenExpiredError
| NotBeforeError.

(** [authenticate]: [authorization] is the header of that name, [None]
    when the request has none.  An error that is neither a
    [JsonWebTokenError] nor a [TokenExpiredError] by its name goes to
    [next] as it is. *)
Definition authenticate (verify : string -> Verdict) (authorization : option string)
  : outcome User :=
  match authorization with
  | None => Throw (AppError 401 "UNAUTHORIZED")
  | Some authHeader =>
      if negb (String.prefix "Bearer " authHeader)
      then Throw (AppError 401 "UNAUTHORIZED")
      else
        let token := String.substring 7 (String.length authHeader - 7) authHeader in
        if String.eqb token "" then Throw (AppError 401 "UNAUTHORIZED")
        else
          match verify token with
          | Decoded user => Ret user
          | JsonWebTokenError => Throw (AppError 401 "UNAUTHORIZED")
          | TokenExpiredError => Throw (AppError 401 "TOKEN_EXPIRED")
          | NotBeforeError => Throw (LibraryError "NotBeforeError")
          end
  end.

End Auth.

(** ** models/Shipment.js *)

Module ShipmentModel.

Record Shipment : Type := mkShipment {
  id : Z;
  driver_id : Z;
  organization_id : option Z;
  status : string
}.

(** [n.toString(36)] of a non-negative integer: the digits [0] to [9] and
    [a] to [z], the most significant first. *)
Definition base36_digit (d : N) : Ascii.ascii :=
  Ascii.ascii_of_N (if (d <? 10)%N then 48 + d else 87 + d)%N.

Fixpoint toString36_from (fuel : nat) (n : N) (acc : string) : string :=
  match fuel with
  | O => acc
  | S fuel' =>
      let acc' := String (base36_digit (n mod 36)) acc in
      if (n / 36 =? 0)%N then acc' else toString36_from fuel' (n / 36) acc'
  end.

Definition toString36 (n : N) : string :=
  toString36_from (S (N.to_nat (N.log2 n))) n "".

(** [toUpperCase] on a text of digits and of the letters [a] to [z]. *)
Definition upper_char (c : Ascii.ascii) : Ascii.ascii :=
  let k := Ascii.nat_of_ascii c in
  if (97 <=? k)%nat && (k <=? 122)%nat then Ascii.ascii_of_nat (k - 32) else c.

Fixpoint toUpperCase (s : string) : string :=
  match s with
  | EmptyString => EmptyString
  | String c rest => String (upper_char c) (toUpperCase rest)
  end.

(** [generateTrackingNumber]: [now] is [Date.now()] and [random] is the
    text [Math.random().toString(36)]. *)
Definition generateTrackingNumber (now : N) (random : string) : string :=
  "LN" ++ toUpperCase (toString36 now) ++ toUpperCase (String.substring 2 5 random).

(** [findById(id, userRole, userId)]: [WHERE s.id = ?], and for a driver
    [AND s.driver_id = ?]. *)
Definition findById (shipments : gmap Z Shipment) (shipment_id : jsval)
    (userRole : option string) (userId : option Z) : option Shipment :=
  match as_integer shipment_id with
  | None => None
  | Some key =>
      match shipments !! key with
      | None => None
      | Some s =>
          match userRole with
          | Some r =>
              if String.eqb r "driver"
              then (if id_differs (Some (driver_id s)) userId then None else Some s)
              else Some s
          | None => Some s
          end
      end
  end.

(** The statement of [updateStatus]: [UPDATE shipments SET status = ?]. *)
Definition set_status (shipments : gmap Z Shipment) (key : Z) (new_status : string)
  : gmap Z Shipment :=
  match shipments !! key with
  | Some s => <[ key := mkShipment (id s) (driver_id s) (organization_id s) new_status ]> shipments
  | None => shipments
  end.

(** [confirmDelivery(shipmentId, driverId, deliveryData)], run alone.
    [shipmentId] is the [:id] parameter of the route, and [key] the row id
    the store compares it with, if it denotes one.  The checks of the
    function, then [UPDATE shipments SET status = 'delivered', ... WHERE
    id = ?], which finds the row the first [findById] found, and the row
    read again. *)
Definition confirmDelivery (shipments : gmap Z Shipment) (key : option Z) (driverId : Z)
  : outcome (gmap Z Shipment * option Shipment) :=
  match key with
  | None => Throw (AppError 404 "SHIPMENT_NOT_FOUND")
  | Some k =>
      match shipments !! k with
      | None => Throw (AppError 404 "SHIPMENT_NOT_FOUND")
      | Some shipment =>
          if negb (Z.eqb (driver_id shipment) driverId)
          then Throw (AppError 403 "SHIPMENT_ACCESS_DENIED")
          else if String.eqb (status shipment) "delivered"
          then Throw (AppError 400 "ALREADY_DELIVERED")
          else if negb (String.eqb (status shipment) "in_transit")
          then Throw (AppError 400 "INVALID_STATUS")
          else
            let shipments' := set_status shipments k "delivered" in
            Ret (shipments', shipments' !! k)
      end
  end.

End ShipmentModel.

(** ** models/TrackingLocation.js *)

Module TrackingLocationModel.

Record Location : Type := mkLocation {
  id : Z;
  shipment_id : Z;
  latitude : jsval;
  longitude : jsval;
  accuracy : jsval;
  speed : jsval;
  recorded_at : Z
}.

Definition isValidLatitude (lat : jsval) : bool :=
  match lat with
  | JNum q => Qle_bool (-90) q && Qle_bool q 90
  | _ => false
  end.

Definition isValidLongitude (lng : jsval) : bool :=
  match lng with
  | JNum q => Qle_bool (-180) q && Qle_bool q 180
  | _ => false
  end.

Definition of_shipment (key : Z) (rows : list Location) : list Location :=
  List.filter (fun l => Z.eqb (shipment_id l) key) rows.

(** What [ORDER BY recorded_at DESC LIMIT 1] may answer on the rows of one
    shipment: a row whose [recorded_at] no other row exceeds, and nothing
    only when there is no row.  The order among rows recorded in the same
    second is the store's business. *)
Definition latest_of (pick : list Location -> option Location) : Prop :=
  forall rows,
    match pick rows with
    | None => rows = []
    | Some l => In l rows /\ Forall (fun l' => (recorded_at l' <= recorded_at l)%Z) rows
    end.

(** One such answer: among the rows with the greatest [recorded_at] the one
    inserted last. *)
Definition keep_later (best : option Location) (l : Location) : option Location :=
  match best with
  | None => Some l
  | Some b => if (recorded_at b <=? recorded_at l)%Z then Some l else Some b
  end.

Definition latest_inserted (rows : list Location) : option Location :=
  fold_left keep_later rows None.

End TrackingLocationModel.

(** ** controllers/trackingController.js behind routes/trackingRoutes.js *)

Module TrackingController.

Import ShipmentModel TrackingLocationModel.

(** What an observer can see happen, in order. *)
Inductive Event : Type :=
| StatusWritten (shipment : Z) (new_status : string)
| TimestampTouched (shipment : Z)
| Emitted (room : Z) (event : string).

(** The store with its two tables, and the journal of what was written to
    [shipments] and emitted to the rooms (latest first). *)
Record World : Type := mkWorld {
  shipments : gmap Z Shipment;
  tracking_locations : list Location;
  next_insert_id : Z;
  journal : list Event
}.

(** One call of [POST /update]: the authenticated caller, the body, the
    second at which its [INSERT] reads [NOW()], and whether the application
    holds a socket handler. *)
Record Request : Type := mkRequest {
  user : User;
  body : gmap string jsval;
  at_time : Z;
  socketHandler : bool
}.

Inductive Response : Type :=
| Created (location : Location) (status_updated : string)
| Failed (statusCode : Z) (code : string).

(** [errorHandler]: [err.statusCode || 500] and [err.code || 'INTERNAL_ERROR']. *)
Definition errorHandler (e : error) : Response :=
  match e with
  | AppError statusCode code => Failed statusCode code
  | DriverError code => Failed 500 code
  | TypeError _ | LibraryError _ => Failed 500 "INTERNAL_ERROR"
  end.

(** Where a call stands: at each [await] of [updateLocation], with the
    locals the rest of the function reads. *)
Inductive Pc : Type :=
| Received
| AwaitFindById
| AwaitInsert (shipment : Shipment)
| AwaitLatest (shipment : Shipment) (location : Location)
| AwaitUpdateStatus (shipment : Shipment) (location : Location) (isFirstUpdate : bool)
| AwaitUpdateTimestamp (shipment : Shipment) (location : Location) (isFirstUpdate : bool)
| Responded (r : Response).

Section Steps.

Variable parseNumber : string -> option Q.
Variable pick_latest : list Location -> option Location.

(** The [shipment_id] of the body as the key of the row it names. *)
Definition shipment_key (req : Request) : Z :=
  default 0 (as_integer (field (body req) "shipment_id")).

(** [authorize('driver')] then [updateLocationValidation]. *)
Definition middleware (req : Request) : outcome unit :=
  if String.eqb (role (user req)) "driver"
  then Validator.validate parseNumber Validator.updateLocationSchema (body req)
  else Throw (AppError 403 "FORBIDDEN").

(** After [findById]: the two access checks, then the coordinate check
    that [TrackingLocationModel.create] makes before its [INSERT]. *)
Definition after_findById (req : Request) (found : option Shipment) : Pc :=
  match found with
  | None => Responded (Failed 404 "SHIPMENT_NOT_FOUND")
  | Some shipment =>
      if String.eqb (role (user req)) "driver"
         && negb (Z.eqb (driver_id shipment) (user_id (user req)))
      then Responded (Failed 403 "SHIPMENT_ACCESS_DENIED")
      else if String.eqb (role (user req)) "admin"
              && truthy_id (organizationId (user req))
              && truthy_id (organization_id shipment)
              && id_differs (organization_id shipment) (organizationId (user req))
      then Responded (Failed 403 "ORGANIZATION_ACCESS_DENIED")
      else
        if isValidLatitude (field (body req) "latitude")
           && isValidLongitude (field (body req) "longitude")
        then AwaitInsert shipment
        else Responded (Failed 400 "INVALID_COORDINATES")
  end.

(** [accuracy = null] and [speed = null] when the body leaves them out. *)
Definition or_null (v : jsval) : jsval :=
  match v with
  | JUndefined => JNull
  | _ => v
  end.

Definition getLatestByShipment (w : World) (key : Z) : option Location :=
  pick_latest (of_shipment key (tracking_locations w)).

(** After [getLatestByShipment]: [isFirstUpdate], and which call comes next. *)
Definition after_latest (shipment : Shipment) (location : Location)
    (firstUpdate : option Location) : Pc :=
  let isFirstUpdate :=
    match firstUpdate with
    | Some l => Z.eqb (TrackingLocationModel.id l) (TrackingLocationModel.id location)
    | None => false
    end in
  if isFirstUpdate && String.eqb (status shipment) "pending"
  then AwaitUpdateStatus shipment location isFirstUpdate
  else AwaitUpdateTimestamp shipment location isFirstUpdate.

(** The tail of the function once [updateTimestamp] has returned: what
    it emits (latest first), then the 201 response. *)
Definition emissions (req : Request) (shipment : Shipment) (isFirstUpdate : bool)
  : list Event :=
  if socketHandler req
  then ((if isFirstUpdate && String.eqb (status shipment) "pending"
         then [Emitted (shipment_key req) "shipment_status_update"] else [])
        ++ [Emitted (shipment_key req) "location_update"])%list
  else [].

Definition created (shipment : Shipment) (location : Location) (isFirstUpdate : bool)
  : Response :=
  Created location
    (if isFirstUpdate && String.eqb (status shipment) "pending"
     then "in_transit" else status shipment).

(** One atomic step of a call: the store operation it is waiting on, then
    the synchronous code up to the next [await]. *)
Definition step (req : Request) (w : World) (pc : Pc) : World * Pc :=
  match pc with
  | Received =>
      match middleware req with
      | Ret _ => (w, AwaitFindById)
      | Throw e => (w, Responded (errorHandler e))
      end
  | AwaitFindById =>
      (w, after_findById req
            (findById (shipments w) (field (body req) "shipment_id") None None))
  | AwaitInsert shipment =>
      let location :=
        mkLocation (next_insert_id w) (shipment_key req)
          (field (body req) "latitude") (field (body req) "longitude")
          (or_null (field (body req) "accuracy")) (or_null (field (body req) "speed"))
          (at_time req) in
      (mkWorld (shipments w) (tracking_locations w ++ [location])%list (next_insert_id w + 1)
         (journal w),
       AwaitLatest shipment location)
  | AwaitLatest shipment location =>
      (w, after_latest shipment location (getLatestByShipment w (shipment_key req)))
  | AwaitUpdateStatus shipment location isFirstUpdate =>
      (* [updateStatus] runs its UPDATE; [db.query] hands back the result
         header of the statement, which [const [result] = ...] cannot
         destructure: the call raises, and the error handler answers. *)
      (mkWorld (set_status (shipments w) (shipment_key req) "in_transit")
         (tracking_locations w) (next_insert_id w)
         (StatusWritten (shipment_key req) "in_transit" :: journal w),
       Responded (errorHandler (TypeError "result header is not iterable")))
  | AwaitUpdateTimestamp shipment location isFirstUpdate =>
      (mkWorld (shipments w) (tracking_locations w) (next_insert_id w)
         (emissions req shipment isFirstUpdate
          ++ TimestampTouched (shipment_key req) :: journal w)%list,
       Responded (created shipment location isFirstUpdate))
  | Responded r => (w, Responded r)
  end.

Fixpoint steps (n : nat) (req : Request) (w : World) (pc : Pc) : World * Pc :=
  match n with
  | O => (w, pc)
  | S n' => let '(w', pc') := step req w pc in steps n' req w' pc'
  end.

(** A call run alone from its arrival to its response: it has at most
    five [await]s. *)
Definition updateLocation (req : Request) (w : World) : World * Pc :=
  steps 6 req w Received.

(** A request as it reaches [POST /update], before [authenticate] has
    attached the caller: its [Authorization] header, its body, the second
    at which its [INSERT] reads [NOW()], and whether the application holds
    a socket handler. *)
Record Arrival : Type := mkArrival {
  authorization : option string;
  sent : gmap string jsval;
  arrived_at : Z;
  with_socketHandler : bool
}.

(** [router.post('/update', authenticate, authorize('driver'),
    updateLocationValidation, asyncHandler(updateLocation))], run alone. *)
Definition post_update (verify : string -> Auth.Verdict) (a : Arrival) (w : World)
  : World * Pc :=
  match Auth.authenticate verify (authorization a) with
  | Throw e => (w, Responded (errorHandler e))
  | Ret caller =>
      updateLocation (mkRequest caller (sent a) (arrived_at a) (with_socketHandler a)) w
  end.

(** Calls served one after the other. *)
Definition serve_in_turn (reqs : list Request) (w : World) : World :=
  fold_left (fun w' req => fst (updateLocation req w')) reqs w.

(** Calls in flight together: the scheduler names, step after step, the
    call that makes the next step. *)
Definition Calls : Type := list (Request * Pc).

Definition advance (i : nat) (w : World) (calls : Calls) : World * Calls :=
  match calls !! i with
  | Some (req, pc) =>
      let '(w', pc') := step req w pc in (w', <[ i := (req, pc') ]> calls)
  | None => (w, calls)
  end.

Definition interleave (schedule : list nat) (w : World) (calls : Calls) : World * Calls :=
  fold_left (fun st i => advance i (fst st) (snd st)) schedule (w, calls).

End Steps.

(** How often the journal shows the status of a shipment written to
    [in_transit], and how often the status update went out to its room. *)
Definition is_transition (key : Z) (e : Event) : bool :=
  match e with
  | StatusWritten k s => Z.eqb k key && String.eqb s "in_transit"
  | _ => false
  end.

Definition is_status_broadcast (key : Z) (e : Event) : bool :=
  match e with
  | Emitted k ev => Z.eqb k key && String.eqb ev "shipment_status_update"
  | _ => false
  end.

Definition transitions (key : Z) (w : World) : nat :=
  length (List.filter (is_transition key) (journal w)).

Definition status_broadcasts (key : Z) (w : World) : nat :=
  length (List.filter (is_status_broadcast key) (journal w)).

End TrackingController.

(** ** socket/index.js *)

Module SocketHandler.

Import ShipmentModel.

Record Socket : Type := mkSocket {
  socket_id : string;
  socket_user : User
}.

(** Room membership: [(s, k)] is in the set when socket [s] has joined the
    room [shipment_k]. *)
Definition Rooms : Type := gset (string * Z).

(** What the handler sends back on the socket. *)
Inductive Reply : Type :=
| ErrorReply (message : string)
| JoinedShipment (shipment_id : Z)
| LeftShipment (shipment_id : jsval).

(** The body of the [try] of [handleJoinShipment].  [db] is the shipments
    table as [db.query] reaches it, or the error the query raises. *)
Definition join_body (db : outcome (gmap Z Shipment)) (rooms : Rooms) (socket : Socket)
    (data : gmap string jsval) : outcome (Rooms * Reply) :=
  let shipment_id := field data "shipment_id" in
  let user := socket_user socket in
  if negb (truthy shipment_id) || negb (is_number shipment_id)
  then Ret (rooms, ErrorReply "Invalid shipment_id")
  else
    table ← db;
    match findById table shipment_id (Some (role user)) (Some (user_id user)) with
    | None => Ret (rooms, ErrorReply "Shipment not found")
    | Some shipment =>
        if String.eqb (role user) "admin"
           && truthy_id (organizationId user)
           && truthy_id (organization_id shipment)
           && id_differs (organization_id shipment) (organizationId user)
        then Ret (rooms, ErrorReply "Access denied to this shipment")
        else
          let room := default 0 (as_integer shipment_id) in
          Ret ({[ (socket_id socket, room) ]} ∪ rooms, JoinedShipment room)
    end.

(** [handleJoinShipment] on a payload that is an object. *)
Definition handleJoinShipment (db : outcome (gmap Z Shipment)) (rooms : Rooms)
    (socket : Socket) (data : gmap string jsval) : Rooms * Reply :=
  try_catch (join_body db rooms socket data)
    (fun _ => (rooms, ErrorReply "Failed to join shipment")).

(** What a client sends with an event: an object, or nothing ([undefined]
    or [null]).  A number, a text or a boolean has no [shipment_id] and
    reads as the object without fields. *)
Definition Payload : Type := option (gmap string jsval).

(** [const { shipment_id } = data] and [data.shipment_id]: both raise on a
    payload that is not there. *)
Definition fields_of (data : Payload) : outcome (gmap string jsval) :=
  match data with
  | Some fields => Ret fields
  | None => Throw (TypeError "Cannot read properties of undefined (reading 'shipment_id')")
  end.

(** The listener of [join_shipment], which hands [handleJoinShipment] what
    the client sent, with the whole of that function: the [try] starts by
    destructuring [data], and the [catch] reads [data.shipment_id] for its
    log entry before it emits.  The answer is the message emitted, or the
    error the handler itself ends with, when nothing was emitted. *)
Definition on_join_shipment (db : outcome (gmap Z Shipment)) (rooms : Rooms)
    (socket : Socket) (data : Payload) : Rooms * outcome Reply :=
  match (fields ← fields_of data; join_body db rooms socket fields) with
  | Ret (rooms', reply) => (rooms', Ret reply)
  | Throw _ =>
      (rooms, _ ← fields_of data; Ret (ErrorReply "Failed to join shipment"))
  end.

(** [socket.leave('shipment_' + shipment_id)]: the rooms of the model are
    those of the integer keys, so a number that is no integer names a room
    nobody has joined. *)
Definition handleLeaveShipment (rooms : Rooms) (socket : Socket) (data : gmap string jsval)
  : Rooms * Reply :=
  let shipment_id := field data "shipment_id" in
  if negb (truthy shipment_id) || negb (is_number shipment_id)
  then (rooms, ErrorReply "Invalid shipment_id")
  else
    (match as_integer shipment_id with
     | Some k => rooms ∖ {[ (socket_id socket, k) ]}
     | None => rooms
     end,
     LeftShipment shipment_id).

(** [io.to(roomName).emit(...)] of [emitLocationUpdate],
    [emitShipmentStatusUpdate] and [emitShipmentDelivered]: the sockets the
    event is delivered to. *)
Definition recipients (rooms : Rooms) (shipmentId : Z) : gset string :=
  set_map fst (filter (fun member => snd member = shipmentId) rooms).

(** The rule the handler applies to a caller and the shipment found. *)
Definition admitted (user : User) (shipment : Shipment) : bool :=
  negb (String.eqb (role user) "driver" && negb (Z.eqb (driver_id shipment) (user_id user)))
  && negb (String.eqb (role user) "admin"
           && truthy_id (organizationId user)
           && truthy_id (organization_id shipment)
           && id_differs (organization_id shipment) (organizationId user)).

(** The specification's rule for a subscriber: the assigned courier, or an
    administrator of the organization the shipment belongs to. *)
Definition entitled (user : User) (shipment : Shipment) : bool :=
  (String.eqb (role user) "driver" && Z.eqb (driver_id shipment) (user_id user))
  || (String.eqb (role user) "admin"
      && match organizationId user, organization_id shipment with
         | Some a, Some b => Z.eqb a b
         | _, _ => false
         end).

End SocketHandler.

(** ** Numbers of the analytics services *)

Module Num.

Local Open Scope R_scope.

Definition Rltb (x y : R) : bool := if Rlt_dec x y then true else false.
Definition Rleb (x y : R) : bool := if Rle_dec x y then true else false.
Definition Reqb (x y : R) : bool := if Req_dec_T x y then true else false.

(** [x > y] where [x] may be NaN: a comparison with NaN is false. *)
Definition gt (x : option R) (y : R) : bool :=
  match x with
  | Some v => Rltb y v
  | None => false
  end.

(** [a || b] on numbers that may be missing: the first one that is there
    and is not 0. *)
Definition or (a b : option R) : option R :=
  match a with
  | Some v => if Reqb v 0 then b else Some v
  | None => b
  end.

(** [a || d] with a numeric default. *)
Definition or_default (a : option R) (d : R) : R :=
  match a with
  | Some v => if Reqb v 0 then d else v
  | None => d
  end.

(** [Math.atan2(y, x)] as ECMAScript defines it on finite numbers. *)
Definition atan2 (y x : R) : R :=
  if Rlt_dec 0 x then atan (y / x)
  else if Rlt_dec x 0 then
    (if Rle_dec 0 y then atan (y / x) + PI else atan (y / x) - PI)
  else if Rlt_dec 0 y then PI / 2
  else if Rlt_dec y 0 then - (PI / 2)
  else 0.

(** [array.slice(-n)]: the last [n] elements, all of them when there are fewer. *)
Definition slice_last {A : Type} (n : nat) (l : list A) : list A :=
  skipn (length l - n) l.

(** [reduce((a, b) => a + b, 0)] *)
Definition sum (l : list R) : R := fold_left Rplus l 0.

(** A number that can be infinite or NaN, as a quotient or a maximum is. *)
Inductive number : Type :=
| Finite (x : R)
| PlusInfinity
| MinusInfinity
| NaN.

(** [x / y] on finite numbers, where a zero divisor is the [+0] that a
    difference of equal numbers gives. *)
Definition div (x y : R) : number :=
  if Reqb y 0
  then (if Rltb 0 x then PlusInfinity else if Rltb x 0 then MinusInfinity else NaN)
  else Finite (x / y).


(** [a < y], [a > y] and [a >= y] against a finite number; every
    comparison with NaN is false. *)
Definition lt (a : number) (y : R) : bool :=
  match a with
  | Finite x => Rltb x y
  | MinusInfinity => true
  | PlusInfinity | NaN => false
  end.

Definition above (a : number) (y : R) : bool :=
  match a with
  | Finite x => Rltb y x
  | PlusInfinity => true
  | MinusInfinity | NaN => false
  end.

Definition ge (a : number) (y : R) : bool :=
  match a with
  | Finite x => Rleb y x
  | PlusInfinity => true
  | MinusInfinity | NaN => false
  end.

(** [Math.max(...l)]: minus infinity on no argument. *)
Definition max_of (l : list R) : number :=
  match l with
  | [] => MinusInfinity
  | x :: rest => Finite (fold_left Rmax rest x)
  end.

End Num.

(** ** What the analytics services read *)

(** A position sample as the services read it: a row of the tracking
    history, or the location object of the current request.  [speed] and
    [accuracy] may be null; [timestamp] is in milliseconds. *)
Record Sample : Type := mkSample {
  latitude : R;
  longitude : R;
  speed : option R;
  accuracy : option R;
  timestamp : R
}.

(** An object that may carry coordinates under either pair of names. *)
Record Place : Type := mkPlace {
  place_latitude : option R;
  place_lat : option R;
  place_longitude : option R;
  place_lng : option R
}.

(** A shipment as the services read it.  The destination is looked up
    under several field names; [destination_address] is an object or text
    ([Some], a text carrying no coordinate) or null. *)
Record Shipment : Type := mkShipment {
  driver_id : Z;
  destination_latitude : option R;
  destination_lat : option R;
  destination_longitude : option R;
  destination_lng : option R;
  destination : option Place;
  destination_address : option Place;
  planned_delivery_time : option R
}.

(** What the services ask of their surroundings: the clock, the route
    history query of the ETA service, and the two functions the
    recommendation service imports from the controllers.  Each call
    answers or raises. *)
Record Env : Type := mkEnv {
  now : R;
  hours : Z;
  route_history : Shipment -> outcome (list (option R));
  getShipmentById : jsval -> outcome (option Shipment);
  getTrackingData : jsval -> outcome (list Sample)
}.

(** The speeds of the last ten samples that pass [keep]; a null speed
    passes no comparison. *)
Definition recent_speeds (keep : R -> bool) (trackingHistory : list Sample) : list R :=
  List.filter keep (omap speed (Num.slice_last 10 trackingHistory)).

(** [haversineDistance], the same text in the three services. *)
Definition haversineDistance (lat1 lon1 lat2 lon2 : R) : R :=
  let R0 := 6371000%R in
  let phi1 := (lat1 * PI / 180)%R in
  let phi2 := (lat2 * PI / 180)%R in
  let dphi := ((lat2 - lat1) * PI / 180)%R in
  let dlambda := ((lon2 - lon1) * PI / 180)%R in
  let a := (sin (dphi / 2) * sin (dphi / 2)
            + cos phi1 * cos phi2 * sin (dlambda / 2) * sin (dlambda / 2))%R in
  let c := (2 * Num.atan2 (sqrt a) (sqrt (1 - a)))%R in
  (R0 * c)%R.

(** ** services/etaService.js *)

Module ETAService.

Local Open Scope R_scope.

Definition defaultSpeed : R := 10.
Definition RUSH_HOUR : R := 15 / 10.
Definition NORMAL : R := 1.
Definition NIGHT : R := 8 / 10.

(** What [calculateETA] returns: a bare date when the shipment or the
    location is missing, the prediction object, or the object of the
    [catch]. *)
Inductive Prediction : Type :=
| BareDate (eta : R)
| Predicted (eta : option R) (remaining_distance : option R) (estimated_speed : R)
    (confidence : string)
| Fallback (eta : R) (confidence : string).

Definition calculateRemainingDistance (currentLocation : Sample) (shipment : Shipment)
  : option R :=
  let destLat :=
    Num.or (Num.or (destination_latitude shipment) (destination_lat shipment))
      (match destination shipment with Some d => place_latitude d | None => None end) in
  let destLng :=
    Num.or (Num.or (destination_longitude shipment) (destination_lng shipment))
      (match destination shipment with Some d => place_longitude d | None => None end) in
  match destLat, destLng with
  | Some la, Some lo =>
      Some (haversineDistance (latitude currentLocation) (longitude currentLocation) la lo)
  | _, _ => None
  end.

(** The [forEach] of [analyzeCurrentSpeed]: the sums and the running index. *)
Definition weigh (n : nat) (acc : R * R * nat) (speed : R) : R * R * nat :=
  let '(weightedSum, totalWeight, index) := acc in
  let weight := (INR index + 1) / INR n in
  (weightedSum + speed * weight, totalWeight + weight, S index).

Definition analyzeCurrentSpeed (trackingHistory : option (list Sample)) : R :=
  match trackingHistory with
  | None => defaultSpeed
  | Some history =>
      if (length history <? 3)%nat then defaultSpeed
      else
        let validSpeeds :=
          recent_speeds (fun s => Num.Rltb 0 s && Num.Rltb s 50) history in
        match validSpeeds with
        | [] => defaultSpeed
        | _ :: _ =>
            let '(weightedSum, totalWeight, _) :=
              fold_left (weigh (length validSpeeds)) validSpeeds (0, 0, O) in
            weightedSum / totalWeight
        end
  end.

Definition getTrafficFactor (hour : Z) : R :=
  if ((7 <=? hour) && (hour <=? 9) || (17 <=? hour) && (hour <=? 19))%Z then RUSH_HOUR
  else if ((22 <=? hour) || (hour <=? 5))%Z then NIGHT
  else NORMAL.

(** [rows] is what the route history query answers: the [avg_speed] column
    of each row, null when there is no history. *)
Definition getHistoricalFactor (query : outcome (list (option R))) : R :=
  try_catch
    (rows ← query;
     Ret (match rows with
          | Some historicalSpeed :: _ =>
              if Num.Reqb historicalSpeed 0 then 1 else historicalSpeed / defaultSpeed
          | _ => 1
          end))
    (fun _ => 1).

Definition calculateConfidence (dataPoints : nat) : string :=
  if (20 <=? dataPoints)%nat then "high"
  else if (10 <=? dataPoints)%nat then "medium"
  else "low".

(** [trackingHistory.length]: a TypeError on null. *)
Definition length_of (trackingHistory : option (list Sample)) : outcome nat :=
  match trackingHistory with
  | Some history => Ret (length history)
  | None => Throw (TypeError "Cannot read properties of null (reading 'length')")
  end.

(** The body of the [try] of [calculateETA]. *)
Definition calculateETA_try (env : Env) (shipment : option Shipment)
    (currentLocation : option Sample) (trackingHistory : option (list Sample))
  : outcome Prediction :=
  match shipment, currentLocation with
  | Some s, Some location =>
      let remainingDistance := calculateRemainingDistance location s in
      let avgSpeed := analyzeCurrentSpeed trackingHistory in
      let trafficFactor := getTrafficFactor (hours env) in
      let historicalFactor := getHistoricalFactor (route_history env s) in
      let adjustedSpeed := avgSpeed * trafficFactor * historicalFactor in
      let estimatedTime :=
        option_map (fun d => d / Num.or_default (Some adjustedSpeed) defaultSpeed)
          remainingDistance in
      let eta := option_map (fun t => now env + t * 1000) estimatedTime in
      dataPoints ← length_of trackingHistory;
      Ret (Predicted eta remainingDistance adjustedSpeed (calculateConfidence dataPoints))
  | _, _ => Ret (BareDate (now env + 2 * 60 * 60 * 1000))
  end.

Definition calculateETA (env : Env) (shipment : option Shipment)
    (currentLocation : option Sample) (trackingHistory : option (list Sample))
  : Prediction :=
  try_catch (calculateETA_try env shipment currentLocation trackingHistory)
    (fun _ => Fallback (now env + 2 * 60 * 60 * 1000) "low").

(** [etaData.eta] and [etaData.confidence] as a caller reads them. *)
Definition eta_of (p : Prediction) : option R :=
  match p with
  | BareDate _ => None
  | Predicted eta _ _ _ => eta
  | Fallback eta _ => Some eta
  end.

Definition confidence_of (p : Prediction) : option string :=
  match p with
  | BareDate _ => None
  | Predicted _ _ _ c => Some c
  | Fallback _ c => Some c
  end.

End ETAService.

(** ** services/recommendationService.js *)

Module RecommendationService.

Local Open Scope R_scope.

(** [this.recommendationTypes] and [this.severityLevels] *)
Definition ROUTE_DEVIATION : string := "route_change".
Definition DELAY_ALERT : string := "delay_alert".
Definition RISK_ALERT : string := "risk_alert".
Definition PERFORMANCE : string := "performance".
Definition GPS_WARNING : string := "gps_warning".
Definition IDLE_ALERT : string := "idle_alert".

Definition LOW : string := "low".
Definition MEDIUM : string := "medium".
Definition HIGH : string := "high".

(** [calculateDeviation(start, destination, current)]; reading a
    coordinate of a null destination raises. *)
Definition calculateDeviation (start : Sample) (destination : option Place)
    (current : Sample) : outcome (option R) :=
  match destination with
  | None => Throw (TypeError "Cannot read properties of null (reading 'latitude')")
  | Some dest =>
      let destLat := Num.or (place_latitude dest) (place_lat dest) in
      let destLng := Num.or (place_longitude dest) (place_lng dest) in
      Ret (match destLat, destLng with
           | Some la, Some lo =>
               let distanceToDest :=
                 haversineDistance (latitude current) (longitude current) la lo in
               let totalDistance :=
                 haversineDistance (latitude start) (longitude start) la lo in
               Some (Rabs (totalDistance - distanceToDest))
           | _, _ => None
           end)
  end.

(** [currentLocation] is the location object of the request, never null. *)
Definition analyzeRouteDeviation (shipment : option Shipment) (currentLocation : Sample)
    (trackingHistory : list Sample) : outcome (option Recommendation) :=
  match shipment, trackingHistory with
  | Some s, startLocation :: _ :: _ =>
      deviation ← calculateDeviation startLocation (destination_address s) currentLocation;
      if Num.gt deviation 1000
      then Ret (Some (mkRecommendation ROUTE_DEVIATION
                        (if Num.gt deviation 5000 then HIGH else MEDIUM)
                        [("deviation_meters", default 0 deviation)]))
      else Ret None
  | _, _ => Ret None
  end.

(** [calculateDynamicETA]: the date it returns in milliseconds, [None] for
    an invalid date. *)
Definition calculateDynamicETA (env : Env) (shipment : option Shipment)
    (trackingHistory : list Sample) : option R :=
  match shipment with
  | None => Some (now env + 2 * 60 * 60 * 1000)
  | Some s =>
      if (length trackingHistory <? 5)%nat then Some (now env + 2 * 60 * 60 * 1000)
      else
        let recentSpeeds := recent_speeds (fun v => Num.Rltb 0 v) trackingHistory in
        let avgSpeed :=
          match recentSpeeds with
          | [] => None
          | _ :: _ => Some (Num.sum recentSpeeds / INR (length recentSpeeds))
          end in
        match last trackingHistory with
        | None => None
        | Some currentLocation =>
            let destLat := Num.or (destination_latitude s) (destination_lat s) in
            let destLng := Num.or (destination_longitude s) (destination_lng s) in
            match destLat, destLng with
            | Some la, Some lo =>
                let remainingDistance :=
                  haversineDistance (latitude currentLocation) (longitude currentLocation)
                    la lo in
                let estimatedTime := remainingDistance / Num.or_default avgSpeed 10 in
                Some (now env + estimatedTime * 1000)
            | _, _ => None
            end
        end
  end.

Definition analyzeDelayProbability (env : Env) (shipment : option Shipment)
    (trackingHistory : list Sample) : option Recommendation :=
  match shipment with
  | None => None
  | Some s =>
      if (length trackingHistory <? 5)%nat then None
      else
        let eta := calculateDynamicETA env shipment trackingHistory in
        let plannedETA := planned_delivery_time s in
        let delayMinutes :=
          match eta, plannedETA with
          | Some e, Some p => Some ((e - p) / (1000 * 60))
          | _, _ => None
          end in
        if Num.gt delayMinutes 30
        then Some (mkRecommendation DELAY_ALERT
                     (if Num.gt delayMinutes 60 then HIGH else MEDIUM)
                     [("delay_minutes", default 0 delayMinutes);
                      ("current_eta", default 0 eta);
                      ("planned_eta", default 0 plannedETA)])
        else None
  end.

Definition analyzeSpeedPatterns (currentLocation : Sample) (trackingHistory : list Sample)
  : option Recommendation :=
  if (length trackingHistory <? 10)%nat then None
  else
    let recentSpeeds := recent_speeds (fun v => Num.Rltb 0 v) trackingHistory in
    let avgSpeed :=
      match recentSpeeds with
      | [] => None
      | _ :: _ => Some (Num.sum recentSpeeds / INR (length recentSpeeds))
      end in
    let currentSpeed := Num.or_default (speed currentLocation) 0 in
    match avgSpeed with
    | Some avg =>
        if Num.Rltb currentSpeed (avg * (3 / 10)) && Num.Rltb 0 currentSpeed
        then Some (mkRecommendation PERFORMANCE LOW
                     [("current_speed", currentSpeed); ("average_speed", avg);
                      ("speed_ratio", currentSpeed / avg)])
        else None
    | None => None
    end.

Definition analyzeIdleTime (env : Env) (currentLocation : Sample)
    (trackingHistory : list Sample) : option Recommendation :=
  if (length trackingHistory <? 5)%nat then None
  else
    let tenMinutesAgo := now env - 10 * 60 * 1000 in
    let recentTracking :=
      List.filter (fun t => Num.Rltb tenMinutesAgo (timestamp t)) trackingHistory in
    let hasMovement := existsb (fun t => Num.gt (speed t) 5) recentTracking in
    match recentTracking with
    | first :: _ =>
        if negb hasMovement
        then Some (mkRecommendation IDLE_ALERT MEDIUM
                     [("idle_duration_minutes", 10); ("last_moving_time", timestamp first)])
        else None
    | [] => None
    end.

Definition analyzeGPSAccuracy (locationData : Sample) : option Recommendation :=
  let accuracy := Num.or_default (accuracy locationData) 0 in
  if Num.Rltb 1000 accuracy
  then Some (mkRecommendation GPS_WARNING
               (if Num.Rltb 5000 accuracy then HIGH else MEDIUM)
               [("accuracy_meters", accuracy)])
  else None.

(** [if (x) recommendations.push(x)] *)
Definition push (x : option Recommendation) (recommendations : list Recommendation)
  : list Recommendation :=
  match x with
  | Some r => recommendations ++ [r]
  | None => recommendations
  end.

(** The body of the [try] of [analyzeTrackingData]. *)
Definition analyzeTrackingData_try (env : Env) (shipmentId : jsval) (locationData : Sample)
  : outcome (list Recommendation) :=
  shipment ← getShipmentById env shipmentId;
  trackingHistory ← getTrackingData env shipmentId;
  let recommendations := [] in
  routeDeviation ← analyzeRouteDeviation shipment locationData trackingHistory;
  let recommendations := push routeDeviation recommendations in
  let recommendations :=
    push (analyzeDelayProbability env shipment trackingHistory) recommendations in
  let recommendations :=
    push (analyzeSpeedPatterns locationData trackingHistory) recommendations in
  let recommendations :=
    push (analyzeIdleTime env locationData trackingHistory) recommendations in
  let recommendations := push (analyzeGPSAccuracy locationData) recommendations in
  Ret recommendations.

Definition analyzeTrackingData (env : Env) (shipmentId : jsval) (locationData : Sample)
  : list Recommendation :=
  try_catch (analyzeTrackingData_try env shipmentId locationData) (fun _ => []).

(** The specification's enumerations of an advisory. *)
Definition spec_types : list string :=
  ["route_deviation"; "delay_alert"; "speed_pattern"; "idle_alert"; "gps_warning"].

Definition spec_severities : list string := ["low"; "medium"; "high"].

(** The types the five analyzers write. *)
Definition engine_types : list string :=
  [ROUTE_DEVIATION; DELAY_ALERT; PERFORMANCE; IDLE_ALERT; GPS_WARNING].

End RecommendationService.

(** ** services/routeAnalysisService.js *)

Module RouteAnalysisService.

Local Open Scope R_scope.

Definition distance (a b : Sample) : R :=
  haversineDistance (latitude a) (longitude a) (latitude b) (longitude b).

(** The loop of [calculateTotalDistance] from index [i] on: [prev] is
    [trackingData[i - 1]] and [rest] holds [trackingData[i]] and what follows. *)
Fixpoint total_from (totalDistance : R) (prev : Sample) (rest : list Sample) : R :=
  match rest with
  | [] => totalDistance
  | curr :: rest' => total_from (totalDistance + distance prev curr) curr rest'
  end.

Definition calculateTotalDistance (trackingData : list Sample) : R :=
  match trackingData with
  | [] => 0
  | first :: rest => total_from 0 first rest
  end.

(** [directDistance / actualDistance]; [None] when the division is by 0
    and the result is NaN or infinite. *)
Definition calculateRouteEfficiency (trackingData : list Sample) : option R :=
  match trackingData with
  | start :: _ :: _ =>
      let directDistance := distance start (default start (last trackingData)) in
      let actualDistance := calculateTotalDistance trackingData in
      if Num.Reqb actualDistance 0 then None else Some (directDistance / actualDistance)
  | _ => Some 0
  end.


(** [getMaxSpeed]: a null speed counts as 0. *)
Definition getMaxSpeed (trackingData : list Sample) : Num.number :=
  Num.max_of (map (fun t => Num.or_default (speed t) 0) trackingData).




(** [performanceMetrics], in the order of its entries; the last band has
    no finite maximum. *)
Definition performanceMetrics : list (string * (R * option R)) :=
  [ ("EXCELLENT", (0, Some 15)); ("GOOD", (15, Some 30)); ("AVERAGE", (30, Some 45));
    ("POOR", (45, None)) ].

(** [averageSpeed >= range.min && averageSpeed < range.max] *)
Definition in_range (averageSpeed : Num.number) (range : R * option R) : bool :=
  Num.ge averageSpeed (fst range)
  && match snd range with
     | Some max => Num.lt averageSpeed max
     | None =>
         match averageSpeed with
         | Num.Finite _ | Num.MinusInfinity => true
         | Num.PlusInfinity | Num.NaN => false
         end
     end.

Fixpoint grade_among (entries : list (string * (R * option R))) (averageSpeed : Num.number)
  : string :=
  match entries with
  | [] => "POOR"
  | (grade, range) :: entries' =>
      if in_range averageSpeed range then grade else grade_among entries' averageSpeed
  end.

Definition getPerformanceGrade (averageSpeed : Num.number) : string :=
  grade_among performanceMetrics averageSpeed.





(** An entry of [detectAnomalies]. *)
Inductive Anomaly : Type :=
| speed_spike (index : nat) (value previous_value change : R) (at_timestamp : R)
| gps_jump (index : nat) (distance : R) (implied_speed : Num.number) (at_timestamp : R)
| time_gap (index : nat) (gap_duration : R) (at_timestamp : R).

(** The loop of [detectSpeedAnomalies] from index [i] on. *)
Fixpoint speed_anomalies_from (i : nat) (prev : Sample) (rest : list Sample)
  : list Anomaly :=
  match rest with
  | [] => []
  | curr :: rest' =>
      let value := Num.or_default (speed curr) 0 in
      let previous_value := Num.or_default (speed prev) 0 in
      let speedChange := Rabs (value - previous_value) in
      ((if Num.Rltb 20 speedChange
        then [speed_spike i value previous_value speedChange (timestamp curr)] else [])
       ++ speed_anomalies_from (S i) curr rest')%list
  end.

Definition detectSpeedAnomalies (trackingData : list Sample) : list Anomaly :=
  match trackingData with
  | [] => []
  | first :: rest => speed_anomalies_from 1 first rest
  end.

(** The loop of [detectLocationAnomalies] from index [i] on: [before] is
    [trackingData[i - 2]] and [prev] is [trackingData[i - 1]]. *)
Fixpoint location_anomalies_from (i : nat) (before prev : Sample) (rest : list Sample)
  : list Anomaly :=
  match rest with
  | [] => []
  | curr :: rest' =>
      let d := distance before curr in
      let timeDiff := (timestamp curr - timestamp before) / 1000 in
      let impliedSpeed := Num.div d timeDiff in
      ((if Num.above impliedSpeed 50
        then [gps_jump i d impliedSpeed (timestamp curr)] else [])
       ++ location_anomalies_from (S i) prev curr rest')%list
  end.

Definition detectLocationAnomalies (trackingData : list Sample) : list Anomaly :=
  match trackingData with
  | before :: prev :: rest => location_anomalies_from 2 before prev rest
  | _ => []
  end.

(** The loop of [detectTimeAnomalies] from index [i] on. *)
Fixpoint time_anomalies_from (i : nat) (prev : Sample) (rest : list Sample)
  : list Anomaly :=
  match rest with
  | [] => []
  | curr :: rest' =>
      let timeDiff := (timestamp curr - timestamp prev) / 1000 in
      ((if Num.Rltb 300 timeDiff then [time_gap i timeDiff (timestamp curr)] else [])
       ++ time_anomalies_from (S i) curr rest')%list
  end.

Definition detectTimeAnomalies (trackingData : list Sample) : list Anomaly :=
  match trackingData with
  | [] => []
  | first :: rest => time_anomalies_from 1 first rest
  end.

Definition detectAnomalies (trackingData : list Sample) : list Anomaly :=
  (detectSpeedAnomalies trackingData ++ detectLocationAnomalies trackingData
   ++ detectTimeAnomalies trackingData)%list.

End RouteAnalysisService.


(** ** The analytics in the arithmetic of the engine

    A number of the engine is a binary64 value: a sum, a product or a
    quotient is rounded to the nearest value, and a comparison with NaN is
    false.  The functions of the services whose answer depends on that
    rounding are written here a second time, operation by operation, over
    the binary64 numbers of the kernel. *)

Module Double.

Import PrimFloat SpecFloat FloatOps.
Local Open Scope float_scope.

(** [Math.PI] *)
Definition PI : float := 0x1.921fb54442d18p+1.

(** [Math.sin], [Math.cos] and [Math.atan2]: ECMAScript leaves their
    values to the engine, within an approximation it does not bound.
    [Math.sqrt] and [Math.abs] are the operations of the arithmetic. *)
Record Math : Type := mkMath {
  sin : float -> float;
  cos : float -> float;
  atan2 : float -> float -> float
}.

(** Truthiness of a number: [0], [-0] and NaN are falsy. *)
Definition truthy (x : float) : bool := negb (is_zero x || is_nan x).

(** [a || b] on numbers that may be null or undefined, and [parseFloat] of
    what it gives: NaN for null and undefined. *)
Definition or (a b : option float) : option float :=
  match a with
  | Some x => if truthy x then Some x else b
  | None => b
  end.

Definition parseFloat (v : option float) : float :=
  match v with
  | Some x => if is_zero x then 0 else x
  | None => nan
  end.

(** [x || d] with a numeric default. *)
Definition or_default (x d : float) : float := if truthy x then x else d.

(** The number of an integer below 2^53, as [array.length] and [index + 1]
    are. *)
Definition of_Z (z : Z) : float := SF2Prim (binary_normalize prec emax z 0 false).

Definition of_nat (n : nat) : float := of_Z (Z.of_nat n).

(** The integral part of a number, towards zero. *)
Definition trunc (x : float) : float :=
  match Prim2SF x with
  | S754_finite s m e =>
      if (0 <=? e)%Z then x
      else SF2Prim (binary_normalize prec emax (cond_Zopp s (Z.pos m / 2 ^ (- e))) 0 false)
  | _ => x
  end.

(** [new Date(value)] on a number, as the time value of the date
    ([TimeClip]): the integral part of a finite number of milliseconds
    within 8.64e15 of the epoch, and NaN, the invalid date, otherwise. *)
Definition new_Date (value : float) : float :=
  if is_finite value && (abs value <=? 8.64e15) then trunc value + 0 else nan.

(** [Math.round]: the nearest integer, a half going up. *)
Definition floor (x : float) : float :=
  let t := trunc x in if x <? t then t - 1 else t.

Definition round (x : float) : float :=
  if negb (is_finite x) then x
  else if (x <? 0) && (-0.5 <=? x) then -0
  else let f := floor x in if 0.5 <=? x - f then f + 1 else f.

(** A position sample, a destination object and a shipment as the services
    read them.  A coordinate or a speed that is null or undefined is
    [None].  [planned_delivery_time] is the time value of
    [new Date(shipment.planned_delivery_time)]: NaN when the field is
    undefined or holds no date. *)
Record Sample : Type := mkSample {
  latitude : float;
  longitude : float;
  speed : option float
}.

Record Place : Type := mkPlace {
  place_latitude : option float;
  place_longitude : option float
}.

Record Shipment : Type := mkShipment {
  destination_latitude : option float;
  destination_lat : option float;
  destination_longitude : option float;
  destination_lng : option float;
  destination : option Place;
  planned_delivery_time : float
}.

(** The surroundings: [Date.now()], the hour of [new Date().getHours()],
    and what the route history query answers, row by row the [avg_speed]
    column. *)
Record Env : Type := mkEnv {
  now : float;
  hours : Z;
  route_history : Shipment -> outcome (list (option float))
}.

(** An advisory: [{type, message, severity, data}] with the numeric
    entries of [data]. *)
Record Recommendation : Type := mkRecommendation {
  type : string;
  severity : string;
  data : list (string * float)
}.

(** The speeds of the last ten samples that pass [keep]. *)
Definition recent_speeds (keep : float -> bool) (trackingHistory : list Sample)
  : list float :=
  List.filter keep (omap speed (Num.slice_last 10 trackingHistory)).

(** [haversineDistance], the same text in the three services. *)
Definition haversineDistance (m : Math) (lat1 lon1 lat2 lon2 : float) : float :=
  let R := 6371000 in
  let phi1 := lat1 * PI / 180 in
  let phi2 := lat2 * PI / 180 in
  let dphi := (lat2 - lat1) * PI / 180 in
  let dlambda := (lon2 - lon1) * PI / 180 in
  let a := sin m (dphi / 2) * sin m (dphi / 2)
           + cos m phi1 * cos m phi2 * sin m (dlambda / 2) * sin m (dlambda / 2) in
  let c := 2 * atan2 m (sqrt a) (sqrt (1 - a)) in
  R * c.

(** *** services/etaService.js *)

Module ETAService.

Definition defaultSpeed : float := 10.
Definition RUSH_HOUR : float := 1.5.
Definition NORMAL : float := 1.
(** 0.8 *)
Definition NIGHT : float := 0x1.999999999999ap-1.

Inductive Prediction : Type :=
| BareDate (eta : float)
| Predicted (eta remaining_distance estimated_speed : float) (confidence : string)
| Fallback (eta : float) (confidence : string).

Definition calculateRemainingDistance (m : Math) (currentLocation : Sample)
    (shipment : Shipment) : float :=
  let destLat :=
    parseFloat
      (or (or (destination_latitude shipment) (destination_lat shipment))
         (match destination shipment with Some d => place_latitude d | None => None end)) in
  let destLng :=
    parseFloat
      (or (or (destination_longitude shipment) (destination_lng shipment))
         (match destination shipment with Some d => place_longitude d | None => None end)) in
  haversineDistance m (latitude currentLocation) (longitude currentLocation) destLat destLng.

(** The [forEach] of [analyzeCurrentSpeed]: the sums and the running index. *)
Definition weigh (n : nat) (acc : float * float * nat) (speed : float)
  : float * float * nat :=
  let '(weightedSum, totalWeight, index) := acc in
  let weight := of_nat (index + 1) / of_nat n in
  (weightedSum + speed * weight, totalWeight + weight, S index).

Definition analyzeCurrentSpeed (trackingHistory : option (list Sample)) : float :=
  match trackingHistory with
  | None => defaultSpeed
  | Some history =>
      if (length history <? 3)%nat then defaultSpeed
      else
        let validSpeeds := recent_speeds (fun s => (0 <? s) && (s <? 50)) history in
        match validSpeeds with
        | [] => defaultSpeed
        | _ :: _ =>
            let '(weightedSum, totalWeight, _) :=
              fold_left (weigh (length validSpeeds)) validSpeeds (0, 0, O) in
            weightedSum / totalWeight
        end
  end.

Definition getTrafficFactor (hour : Z) : float :=
  if ((7 <=? hour) && (hour <=? 9) || (17 <=? hour) && (hour <=? 19))%Z then RUSH_HOUR
  else if ((22 <=? hour) || (hour <=? 5))%Z then NIGHT
  else NORMAL.

Definition getHistoricalFactor (query : outcome (list (option float))) : float :=
  try_catch
    (rows ← query;
     Ret (match rows with
          | Some historicalSpeed :: _ =>
              if truthy historicalSpeed then historicalSpeed / defaultSpeed else 1
          | _ => 1
          end))
    (fun _ => 1).

Definition calculateConfidence (dataPoints : nat) : string :=
  if (20 <=? dataPoints)%nat then "high"
  else if (10 <=? dataPoints)%nat then "medium"
  else "low".

(** [trackingHistory.length]: a TypeError on null. *)
Definition length_of (trackingHistory : option (list Sample)) : outcome nat :=
  match trackingHistory with
  | Some history => Ret (length history)
  | None => Throw (TypeError "Cannot read properties of null (reading 'length')")
  end.

(** The body of the [try] of [calculateETA]. *)
Definition calculateETA_try (m : Math) (env : Env) (shipment : option Shipment)
    (currentLocation : option Sample) (trackingHistory : option (list Sample))
  : outcome Prediction :=
  match shipment, currentLocation with
  | Some s, Some location =>
      let remainingDistance := calculateRemainingDistance m location s in
      let avgSpeed := analyzeCurrentSpeed trackingHistory in
      let trafficFactor := getTrafficFactor (hours env) in
      let historicalFactor := getHistoricalFactor (route_history env s) in
      let adjustedSpeed := avgSpeed * trafficFactor * historicalFactor in
      let estimatedTime := remainingDistance / or_default adjustedSpeed defaultSpeed in
      let eta := new_Date (now env + estimatedTime * 1000) in
      dataPoints ← length_of trackingHistory;
      Ret (Predicted eta remainingDistance adjustedSpeed (calculateConfidence dataPoints))
  | _, _ => Ret (BareDate (new_Date (now env + 2 * 60 * 60 * 1000)))
  end.

Definition calculateETA (m : Math) (env : Env) (shipment : option Shipment)
    (currentLocation : option Sample) (trackingHistory : option (list Sample))
  : Prediction :=
  try_catch (calculateETA_try m env shipment currentLocation trackingHistory)
    (fun _ => Fallback (new_Date (now env + 2 * 60 * 60 * 1000)) "low").

(** [etaData.eta] as a caller reads it: undefined, here NaN, on the bare
    date. *)
Definition eta_of (p : Prediction) : float :=
  match p with
  | BareDate _ => nan
  | Predicted eta _ _ _ => eta
  | Fallback eta _ => eta
  end.

End ETAService.

(** *** services/recommendationService.js *)

Module RecommendationService.

(** [calculateDynamicETA]: the time value of the date it returns. *)
Definition calculateDynamicETA (m : Math) (env : Env) (shipment : option Shipment)
    (trackingHistory : list Sample) : float :=
  match shipment with
  | None => new_Date (now env + 2 * 60 * 60 * 1000)
  | Some s =>
      if (length trackingHistory <? 5)%nat then new_Date (now env + 2 * 60 * 60 * 1000)
      else
        let recentSpeeds := recent_speeds (fun v => 0 <? v) trackingHistory in
        let avgSpeed := fold_left add recentSpeeds 0 / of_nat (length recentSpeeds) in
        match last trackingHistory with
        | None => nan
        | Some currentLocation =>
            let destLat := parseFloat (or (destination_latitude s) (destination_lat s)) in
            let destLng := parseFloat (or (destination_longitude s) (destination_lng s)) in
            let remainingDistance :=
              haversineDistance m (latitude currentLocation) (longitude currentLocation)
                destLat destLng in
            let estimatedTime := remainingDistance / or_default avgSpeed 10 in
            new_Date (now env + estimatedTime * 1000)
        end
  end.

Definition analyzeDelayProbability (m : Math) (env : Env) (shipment : option Shipment)
    (trackingHistory : list Sample) : option Recommendation :=
  match shipment with
  | None => None
  | Some s =>
      if (length trackingHistory <? 5)%nat then None
      else
        let eta := calculateDynamicETA m env shipment trackingHistory in
        let plannedETA := planned_delivery_time s in
        let delayMinutes := (eta - plannedETA) / (1000 * 60) in
        if 30 <? delayMinutes
        then Some (mkRecommendation "delay_alert"
                     (if 60 <? delayMinutes then "high" else "medium")
                     [("delay_minutes", round delayMinutes); ("current_eta", eta);
                      ("planned_eta", plannedETA)])
        else None
  end.

End RecommendationService.

(** *** services/routeAnalysisService.js *)

Module RouteAnalysisService.

Definition distance (m : Math) (a b : Sample) : float :=
  haversineDistance m (latitude a) (longitude a) (latitude b) (longitude b).

(** The loop of [calculateTotalDistance] from index [i] on: [prev] is
    [trackingData[i - 1]] and [rest] holds [trackingData[i]] and what follows. *)
Fixpoint total_from (m : Math) (totalDistance : float) (prev : Sample) (rest : list Sample)
  : float :=
  match rest with
  | [] => totalDistance
  | curr :: rest' => total_from m (totalDistance + distance m prev curr) curr rest'
  end.

Definition calculateTotalDistance (m : Math) (trackingData : list Sample) : float :=
  match trackingData with
  | [] => 0
  | first :: rest => total_from m 0 first rest
  end.

(** [directDistance / actualDistance] *)
Definition calculateRouteEfficiency (m : Math) (trackingData : list Sample) : float :=
  match trackingData with
  | start :: _ :: _ =>
      let directDistance := distance m start (default start (last trackingData)) in
      let actualDistance := calculateTotalDistance m trackingData in
      directDistance / actualDistance
  | _ => 0
  end.

End RouteAnalysisService.

End Double.
(** ** controllers/smartTrackingController.js behind routes/smartTrackingRoutes.js *)

Module SmartTrackingController.

(** What the handler does to the outside, in order: the statements it
    hands to the pool and the events it emits to every connection. *)
Inductive Effect : Type :=
| SelectShipment (shipment_id : jsval)
| InsertLocation (params : list jsval)
| SelectHistory (shipment_id : jsval)
| UpdateShipment (latitude longitude : jsval) (predicted_eta : option R)
    (eta_confidence : option string) (risk_score : Z) (shipment_id : jsval)
| SaveRecommendation (shipment_id : jsval) (recommendation : Recommendation)
| IoEmit (event : string) (shipment_id : jsval).

(** How the pool answers each statement: with its result, or by raising. *)
Record Pool : Type := mkPool {
  select_shipment : jsval -> outcome (list Shipment);
  insert_location : list jsval -> outcome Z;
  select_history : jsval -> outcome (list Sample);
  update_shipment : jsval -> outcome unit
}.

Inductive Response : Type :=
| Failure (status : Z) (message : string)
| Success (location_id : Z) (eta : option R) (confidence : option string)
    (recommendations : list Recommendation) (risk_score : Z).

(** A handler in progress: it extends the trace of effects and returns or
    raises. *)
Definition Prog (A : Type) : Type := list Effect -> list Effect * outcome A.

#[global] Instance prog_ret : MRet Prog := fun A a trace => (trace, Ret a).
#[global] Instance prog_bind : MBind Prog :=
  fun A B k m trace =>
    match m trace with
    | (trace', Ret a) => k a trace'
    | (trace', Throw e) => (trace', Throw e)
    end.

(** Hand a statement to the outside and take its answer. *)
Definition perform {A : Type} (e : Effect) (answer : outcome A) : Prog A :=
  fun trace => ((trace ++ [e])%list, answer).

Fixpoint for_each {A : Type} (f : A -> Prog unit) (l : list A) : Prog unit :=
  match l with
  | [] => mret tt
  | x :: l' => _ ← f x; for_each f l'
  end.

Section Handler.

(** [Number(s)] of the engine on a string; [None] is NaN. *)
Variable parseNumber : string -> option Q.
Variable pool : Pool.
Variable env : Env.
(** [req.app.get('io')] is there. *)
Variable io : bool.

(** *** The validators of the route (express-validator) *)

(** The number a value is read as by [isFloat] and [isInt], which work on
    its text. *)
Definition numeric (v : jsval) : option Q :=
  match v with
  | JNum q => Some q
  | JStr s => parseNumber s
  | _ => None
  end.

Definition isFloat (min max : option Q) (v : jsval) : bool :=
  match numeric v with
  | Some q =>
      match min with Some lo => Qle_bool lo q | None => true end
      && match max with Some hi => Qle_bool q hi | None => true end
  | None => false
  end.

(** [isInt] reads the text [String(value)], which writes a number from
    10^21 on with an exponent: such a text is not that of an integer. *)
Definition isInt (min : option Q) (v : jsval) : bool :=
  match numeric v with
  | Some q =>
      Z.eqb (Qnum q mod Zpos (Qden q)) 0
      && match v with
         | JNum _ =>
             Qltb (-1000000000000000000000) q && Qltb q 1000000000000000000000
         | _ => true
         end
      && match min with Some lo => Qle_bool lo q | None => true end
  | None => false
  end.

(** [.optional()]: the check is skipped for a field that is not there. *)
Definition optional (check : jsval -> bool) (v : jsval) : bool :=
  match v with
  | JUndefined => true
  | _ => check v
  end.

Definition validation_passes (body : gmap string jsval) : bool :=
  isInt (Some 1%Q) (field body "shipment_id")
  && isFloat (Some (-90)%Q) (Some 90%Q) (field body "latitude")
  && isFloat (Some (-180)%Q) (Some 180%Q) (field body "longitude")
  && optional (isFloat (Some 0%Q) None) (field body "accuracy")
  && optional (isFloat (Some 0%Q) (Some 200%Q)) (field body "speed")
  && optional (isFloat (Some 0%Q) (Some 360%Q)) (field body "heading").

(** *** The handler *)

(** [a || b] on body values. *)
Definition js_or (a b : jsval) : jsval := if truthy a then a else b.

(** A body value as the analytics read it in arithmetic; what is not a
    number reads as 0 here. *)
Definition to_R (v : jsval) : R :=
  match numeric v with
  | Some q => Q2R q
  | None => 0%R
  end.

Definition to_optional_R (v : jsval) : option R :=
  match v with
  | JUndefined | JNull => None
  | _ => Some (to_R v)
  end.

(** The objects the handler builds from the body: the parameters of its
    INSERT, the location it gives the recommendation service, and the one
    it gives the ETA service. *)
Definition insert_params (body : gmap string jsval) : list jsval :=
  [field body "shipment_id"; field body "latitude"; field body "longitude";
   field body "accuracy"; field body "speed";
   js_or (field body "heading") (field body "timestamp")].

Definition locationData (body : gmap string jsval) : Sample :=
  mkSample (to_R (field body "latitude")) (to_R (field body "longitude"))
    (to_optional_R (field body "speed")) (to_optional_R (field body "accuracy"))
    (to_R (field body "timestamp")).

Definition currentLocation (body : gmap string jsval) : Sample :=
  mkSample (to_R (field body "latitude")) (to_R (field body "longitude")) None None 0%R.

(** The [try] block of [updateLocation]. *)
Definition updateLocation_try (body : gmap string jsval) : Prog Response :=
  let shipment_id := field body "shipment_id" in
  let latitude := field body "latitude" in
  let longitude := field body "longitude" in
  if negb (truthy shipment_id) || negb (truthy latitude) || negb (truthy longitude)
  then mret (Failure 400 "Missing required fields: shipment_id, latitude, longitude")
  else
    shipmentRows ← perform (SelectShipment shipment_id) (select_shipment pool shipment_id);
    match shipmentRows with
    | [] => mret (Failure 404 "Shipment not found")
    | shipment :: _ =>
        insertId ← perform (InsertLocation (insert_params body))
                     (insert_location pool (insert_params body));
        trackingHistory ← perform (SelectHistory shipment_id)
                            (select_history pool shipment_id);
        let recommendations :=
          RecommendationService.analyzeTrackingData env shipment_id (locationData body) in
        let etaData :=
          ETAService.calculateETA env (Some shipment) (Some (currentLocation body))
            (Some trackingHistory) in
        _ ← perform
              (UpdateShipment latitude longitude (ETAService.eta_of etaData)
                 (ETAService.confidence_of etaData)
                 (RiskScore.calculateRiskScore (Some recommendations)) shipment_id)
              (update_shipment pool shipment_id);
        _ ← for_each
              (fun recommendation =>
                 perform (SaveRecommendation shipment_id recommendation) (Ret tt))
              recommendations;
        _ ← (if io
             then
               _ ← perform (IoEmit "location_update" shipment_id) (Ret tt);
               match recommendations with
               | [] => mret tt
               | _ :: _ => perform (IoEmit "recommendation_alert" shipment_id) (Ret tt)
               end
             else mret tt);
        mret (Success insertId (ETAService.eta_of etaData)
                (ETAService.confidence_of etaData) recommendations
                (RiskScore.calculateRiskScore (Some recommendations)))
    end.

(** [updateLocation]: the [try] block and its [catch]. *)
Definition updateLocation (body : gmap string jsval) : list Effect * Response :=
  match updateLocation_try body [] with
  | (trace, Ret response) => (trace, response)
  | (trace, Throw _) => (trace, Failure 500 "Internal server error")
  end.

(** [POST /location/update]: the validators, [handleValidationErrors],
    then the handler. *)
Definition post_location_update (body : gmap string jsval) : list Effect * Response :=
  if validation_passes body then updateLocation body
  else ([], Failure 400 "Validation failed").

End Handler.

(** [const { pool } = require('../config/database')]: the database module
    exports a [DatabasePool] whose [pool] property is [null] until
    [initialize] has made the pool, and the controller reads the property
    once, when the routes are loaded, which the server does before it
    calls [initialize].  Every [pool.execute(...)] of the controller then
    raises; the trace keeps the statement the call was made with. *)
Definition null_pool : Pool :=
  mkPool
    (fun _ => Throw (TypeError "Cannot read properties of null (reading 'execute')"))
    (fun _ => Throw (TypeError "Cannot read properties of null (reading 'execute')"))
    (fun _ => Throw (TypeError "Cannot read properties of null (reading 'execute')"))
    (fun _ => Throw (TypeError "Cannot read properties of null (reading 'execute')")).

(** The INSERT of [updateLocation] as it is written: the columns it names
    and the placeholders of its VALUES list. *)
Definition insert_columns : list string :=
  ["shipment_id"; "latitude"; "longitude"; "accuracy"; "speed"; "heading"; "timestamp"].

Definition insert_placeholders : nat := 6.

(** A pool on which the INSERT of the handler raises whatever its
    parameters: the null pool, and any pool in front of a server, which
    takes an INSERT only when VALUES gives one value for each column
    named. *)
Definition insert_is_refused (pool : Pool) : Prop :=
  length insert_columns <> insert_placeholders ->
  forall params, exists e, insert_location pool params = Throw e.


End SmartTrackingController.


(** ** middleware/validator.js with all its rules, and the schemas of
       validators/shipmentValidators.js *)

Module Schema.

Inductive jstype : Type := TString | TNumber | TBoolean | TArray.

(** The rules of one schema entry.  A text is the sequence of its code
    units, so [pattern] is the test of a regular expression on it. *)
Record Rules : Type := mkRules {
  required : bool;
  rtype : option jstype;
  minLength : option nat;
  maxLength : option nat;
  pattern : option (string -> bool);
  enum : option (list string);
  min : option Q;
  max : option Q
}.

Inductive Problem : Type :=
| IsRequired
| MustBeString
| MustBeNumber
| MustBeBoolean
| MustBeArray
| TooShort (minLength : nat)
| TooLong (maxLength : nat)
| FormatInvalid
| NotOneOf (allowed : list string)
| MustBeAtLeast (bound : Q)
| MustBeAtMost (bound : Q).

(** The part of the request an entry is read from. *)
Inductive Location : Type := Body | Params | Query.

Section Coercion.

(** [Number(s)] and [String(n)] of the engine. *)
Variable parseNumber : string -> option Q.
Variable showNumber : Q -> string.

(** [String(value)] *)
Definition String_of (value : jsval) : string :=
  match value with
  | JStr s => s
  | JNum q => showNumber q
  | JBool true => "true"
  | JBool false => "false"
  | JNull => "null"
  | JUndefined => "undefined"
  end.

(** The four [if (rules.type === ...)] of the loop; a request holds no array. *)
Definition type_problems (rules : Rules) (value : jsval) : list Problem :=
  match rtype rules, value with
  | Some TString, JStr _ => []
  | Some TString, _ => [MustBeString]
  | Some TNumber, JNum _ => []
  | Some TNumber, _ => [MustBeNumber]
  | Some TBoolean, JBool _ => []
  | Some TBoolean, _ => [MustBeBoolean]
  | Some TArray, _ => [MustBeArray]
  | None, _ => []
  end.

(** [rules.minLength && String(value).length < rules.minLength], and the
    same with [maxLength]: a length rule of 0 is falsy and checks nothing. *)
Definition minLength_problems (rules : Rules) (value : jsval) : list Problem :=
  match minLength rules with
  | Some n =>
      if negb (n =? 0)%nat && (String.length (String_of value) <? n)%nat
      then [TooShort n] else []
  | None => []
  end.

Definition maxLength_problems (rules : Rules) (value : jsval) : list Problem :=
  match maxLength rules with
  | Some n =>
      if negb (n =? 0)%nat && (n <? String.length (String_of value))%nat
      then [TooLong n] else []
  | None => []
  end.

Definition pattern_problems (rules : Rules) (value : jsval) : list Problem :=
  match pattern rules with
  | Some test => if test (String_of value) then [] else [FormatInvalid]
  | None => []
  end.

(** [rules.enum.includes(value)] on a list of texts. *)
Definition enum_problems (rules : Rules) (value : jsval) : list Problem :=
  match enum rules with
  | Some allowed =>
      match value with
      | JStr s => if existsb (String.eqb s) allowed then [] else [NotOneOf allowed]
      | _ => [NotOneOf allowed]
      end
  | None => []
  end.

Definition min_problems (rules : Rules) (value : jsval) : list Problem :=
  match min rules, Validator.Number parseNumber value with
  | Some bound, Some n => if Qltb n bound then [MustBeAtLeast bound] else []
  | _, _ => []
  end.

Definition max_problems (rules : Rules) (value : jsval) : list Problem :=
  match max rules, Validator.Number parseNumber value with
  | Some bound, Some n => if Qltb bound n then [MustBeAtMost bound] else []
  | _, _ => []
  end.

(** The body of the [for] loop of [validateObject] for one schema entry. *)
Definition validateField (data : gmap string jsval) (location : Location)
    (entry : string * Rules) : list (Location * string * Problem) :=
  let name := fst entry in
  let rules := snd entry in
  let value := field data name in
  let missing :=
    match value with
    | JUndefined | JNull => true
    | JStr s => String.eqb s ""
    | _ => false
    end in
  if required rules && missing then [(location, name, IsRequired)]
  else
    match value with
    | JUndefined | JNull => []
    | _ =>
        map (pair (location, name))
          (type_problems rules value ++ minLength_problems rules value
           ++ maxLength_problems rules value ++ pattern_problems rules value
           ++ enum_problems rules value ++ min_problems rules value
           ++ max_problems rules value)%list
    end.

Definition validateObject (data : gmap string jsval) (schema : list (string * Rules))
    (location : Location) : list (Location * string * Problem) :=
  flat_map (validateField data location) schema.

(** A schema names the parts of the request it constrains. *)
Record Schema : Type := mkSchema {
  body : option (list (string * Rules));
  params : option (list (string * Rules));
  query : option (list (string * Rules))
}.

Record Request : Type := mkRequest {
  req_body : gmap string jsval;
  req_params : gmap string jsval;
  req_query : gmap string jsval
}.

Definition errors (schema : Schema) (req : Request) : list (Location * string * Problem) :=
  (match body schema with
   | Some entries => validateObject (req_body req) entries Body
   | None => []
   end
   ++ match params schema with
      | Some entries => validateObject (req_params req) entries Params
      | None => []
      end
   ++ match query schema with
      | Some entries => validateObject (req_query req) entries Query
      | None => []
      end)%list.

(** [validate(schema)]: the middleware passes the request on or hands an
    [AppError] to [next]. *)
Definition validate (schema : Schema) (req : Request) : outcome unit :=
  match errors schema req with
  | [] => Ret tt
  | _ :: _ => Throw (AppError 400 "VALIDATION_ERROR")
  end.

End Coercion.

(** *** The regular expressions of the schemas *)

Definition code (c : Ascii.ascii) : nat := Ascii.nat_of_ascii c.

(** [\d], [[A-Z0-9]], and [.], which matches all but a line terminator. *)
Definition is_digit (c : Ascii.ascii) : bool := (48 <=? code c)%nat && (code c <=? 57)%nat.
Definition is_upper (c : Ascii.ascii) : bool := (65 <=? code c)%nat && (code c <=? 90)%nat.
Definition is_upper_or_digit (c : Ascii.ascii) : bool := is_upper c || is_digit c.
Definition is_not_line_end (c : Ascii.ascii) : bool :=
  negb ((code c =? 10)%nat || (code c =? 13)%nat).

Fixpoint all_chars (class : Ascii.ascii -> bool) (s : string) : bool :=
  match s with
  | EmptyString => true
  | String c rest => class c && all_chars class rest
  end.

(** [/^\d+$/] *)
Definition digits (s : string) : bool :=
  negb (String.eqb s "") && all_chars is_digit s.

(** [/^[A-Z0-9]+$/] *)
Definition upper_alnum (s : string) : bool :=
  negb (String.eqb s "") && all_chars is_upper_or_digit s.

(** A run of character classes at the head of a text: what is left of the
    text behind it, when the head matches. *)
Fixpoint strip (classes : list (Ascii.ascii -> bool)) (s : string) : option string :=
  match classes, s with
  | [], _ => Some s
  | class :: classes', String c rest => if class c then strip classes' rest else None
  | _ :: _, EmptyString => None
  end.

(** The class of one character, given as a text of length one. *)
Definition exactly (s : string) : Ascii.ascii -> bool :=
  match s with
  | String c _ => Ascii.eqb c
  | EmptyString => fun _ => false
  end.

(** [/^\d{4}-\d{2}-\d{2}T\d{2}:\d{2}:\d{2}(\.\d{3})?Z?$/] *)
Definition date_time (s : string) : bool :=
  match strip [ is_digit; is_digit; is_digit; is_digit; exactly "-"; is_digit; is_digit;
                exactly "-"; is_digit; is_digit; exactly "T"; is_digit; is_digit;
                exactly ":"; is_digit; is_digit; exactly ":"; is_digit; is_digit ] s with
  | None => false
  | Some rest =>
      let rest' :=
        match strip [ exactly "."; is_digit; is_digit; is_digit ] rest with
        | Some after_fraction => after_fraction
        | None => rest
        end in
      String.eqb rest' "" || String.eqb rest' "Z"
  end.

(** [/^https?:\/\/.+$/] *)
Definition http_url (s : string) : bool :=
  match strip [ exactly "h"; exactly "t"; exactly "t"; exactly "p" ] s with
  | None => false
  | Some rest =>
      let rest' :=
        match strip [ exactly "s" ] rest with
        | Some after_s => after_s
        | None => rest
        end in
      match strip [ exactly ":"; exactly "/"; exactly "/" ] rest' with
      | Some tail => negb (String.eqb tail "") && all_chars is_not_line_end tail
      | None => false
      end
  end.

(** *** validators/shipmentValidators.js *)

Definition text_rules (required : bool) (minLength maxLength : option nat) : Rules :=
  mkRules required (Some TString) minLength maxLength None None None None.

Definition number_rules (required : bool) (min max : option Q) : Rules :=
  mkRules required (Some TNumber) None None None None min max.

Definition pattern_rules (required : bool) (test : string -> bool) : Rules :=
  mkRules required (Some TString) None None (Some test) None None None.

Definition createShipmentSchema : Schema :=
  mkSchema
    (Some [ ("origin_address", text_rules true (Some 5%nat) (Some 1000%nat));
            ("destination_address", text_rules true (Some 5%nat) (Some 1000%nat));
            ("driver_id", number_rules true (Some 1%Q) None);
            ("organization_id", number_rules false (Some 1%Q) None);
            ("estimated_delivery", pattern_rules false date_time);
            ("notes", text_rules false None (Some 2000%nat)) ])
    None None.

Definition querySchema : Schema :=
  mkSchema None None
    (Some [ ("status",
             mkRules false (Some TString) None None None
               (Some ["pending"; "in_transit"; "delivered"; "cancelled"]) None None);
            ("driver_id", number_rules false (Some 1%Q) None) ]).

Definition updateLocationSchema : Schema :=
  mkSchema
    (Some [ ("shipment_id", number_rules true (Some 1%Q) None);
            ("latitude", number_rules true (Some (-90)%Q) (Some 90%Q));
            ("longitude", number_rules true (Some (-180)%Q) (Some 180%Q));
            ("accuracy", number_rules false (Some 0%Q) (Some 1000%Q));
            ("speed", number_rules false (Some 0%Q) (Some 500%Q)) ])
    None None.

Definition trackingHistorySchema : Schema :=
  mkSchema None
    (Some [ ("shipment_id", pattern_rules true digits) ])
    (Some [ ("limit", pattern_rules false digits);
            ("start_date", pattern_rules false date_time);
            ("end_date", pattern_rules false date_time) ]).

Definition shipmentIdSchema : Schema :=
  mkSchema None (Some [ ("id", pattern_rules true digits) ]) None.

Definition trackingNumberSchema : Schema :=
  mkSchema None
    (Some [ ("tracking_number",
             mkRules true (Some TString) (Some 10%nat) (Some 20%nat) (Some upper_alnum)
               None None None) ])
    None.

Definition confirmDeliverySchema : Schema :=
  mkSchema
    (Some [ ("delivery_notes", text_rules false None (Some 2000%nat));
            ("proof_of_delivery_url",
             mkRules false (Some TString) None (Some 255%nat) (Some http_url)
               None None None) ])
    (Some [ ("id", pattern_rules true digits) ])
    None.

(** *** Route parameters as the store reads them *)

(** The integer a text of digits denotes: what the store compares an
    [INT] column with when the parameter of the statement is that text. *)
Definition digit_value (c : Ascii.ascii) : Z := Z.of_nat (code c) - 48.

Fixpoint digits_from (acc : Z) (s : string) : Z :=
  match s with
  | EmptyString => acc
  | String c rest => digits_from (10 * acc + digit_value c) rest
  end.

Definition digits_value (s : string) : option Z :=
  if digits s then Some (digits_from 0 s) else None.

End Schema.

(** ** controllers/shipmentController.js behind routes/shipmentRoutes.js:
       the confirmation of a delivery *)

Module ShipmentController.

Import ShipmentModel.

(** One call of [POST /:id/confirm-delivery]: the authenticated caller,
    the [:id] parameter, the body, and whether the application holds a
    socket handler. *)
Record Request : Type := mkRequest {
  user : User;
  id : string;
  body : gmap string jsval;
  socketHandler : bool
}.

Inductive Response : Type :=
| Confirmed (shipment : Shipment)
| Failed (statusCode : Z) (code : string).

Definition errorHandler (e : error) : Response :=
  match e with
  | AppError statusCode code => Failed statusCode code
  | DriverError code => Failed 500 code
  | TypeError _ | LibraryError _ => Failed 500 "INTERNAL_ERROR"
  end.

Section Handler.

Variable parseNumber : string -> option Q.
Variable showNumber : Q -> string.

(** [authorize('driver')] then [confirmDeliveryValidation]. *)
Definition middleware (req : Request) : outcome unit :=
  if String.eqb (role (user req)) "driver"
  then
    Schema.validate parseNumber showNumber Schema.confirmDeliverySchema
      (Schema.mkRequest (body req) {[ "id" := JStr (id req) ]} ∅)
  else Throw (AppError 403 "FORBIDDEN").

(** The room [shipment_ + id] as the key under which the hub files its
    subscribers: [id] names the room of a key when it is the decimal
    writing of it, as [String] writes a number (below 2^53); written
    otherwise (with zeros in front), the text names a room that nobody has
    joined. *)
Definition room_of (id : string) : option Z :=
  match Schema.digits_value id with
  | Some k =>
      let canonical :=
        match id with
        | String c (String _ _) => negb (Ascii.eqb c (Ascii.ascii_of_nat 48))
        | _ => true
        end in
      if canonical && (k <? 2 ^ 53)%Z then Some k else None
  | None => None
  end.

(** What the handler emits (latest first). *)
Definition emissions (req : Request) : list TrackingController.Event :=
  if socketHandler req
  then
    match room_of (id req) with
    | Some room => [TrackingController.Emitted room "shipment_delivered"]
    | None => []
    end
  else [].

(** The handler behind its middleware, run alone.  The journal records
    the status written and the event emitted. *)
Definition confirmDelivery (req : Request) (w : TrackingController.World)
  : TrackingController.World * Response :=
  match middleware req with
  | Throw e => (w, errorHandler e)
  | Ret _ =>
      match ShipmentModel.confirmDelivery (TrackingController.shipments w)
              (Schema.digits_value (id req)) (user_id (user req)) with
      | Throw e => (w, errorHandler e)
      | Ret (shipments', found) =>
          let written :=
            TrackingController.mkWorld shipments'
              (TrackingController.tracking_locations w)
              (TrackingController.next_insert_id w)
              (TrackingController.StatusWritten
                 (default 0 (Schema.digits_value (id req))) "delivered"
               :: TrackingController.journal w) in
          match found with
          | Some shipment =>
              (TrackingController.mkWorld shipments'
                 (TrackingController.tracking_locations w)
                 (TrackingController.next_insert_id w)
                 (emissions req ++ TrackingController.journal written)%list,
               Confirmed shipment)
          | None =>
              (* [shipment.delivered_at] on null *)
              (written,
               errorHandler (TypeError "Cannot read properties of null"))
          end
      end
  end.

(** A request as it reaches [POST /:id/confirm-delivery], before
    [authenticate] has attached the caller. *)
Record Arrival : Type := mkArrival {
  authorization : option string;
  param_id : string;
  sent : gmap string jsval;
  with_socketHandler : bool
}.

(** [router.post('/:id/confirm-delivery', authenticate, authorize('driver'),
    confirmDeliveryValidation, asyncHandler(confirmDelivery))], run alone. *)
Definition post_confirm_delivery (verify : string -> Auth.Verdict) (a : Arrival)
    (w : TrackingController.World) : TrackingController.World * Response :=
  match Auth.authenticate verify (authorization a) with
  | Throw e => (w, errorHandler e)
  | Ret caller =>
      confirmDelivery (mkRequest caller (param_id a) (sent a) (with_socketHandler a)) w
  end.

End Handler.

End ShipmentController.

(** ** The routes that read: routes/trackingRoutes.js and
       routes/shipmentRoutes.js with their handlers *)

Module Reads.

Import ShipmentModel TrackingLocationModel.

(** [ShipmentModel.findById(id, userRole, userId)] where [id] is a route
    parameter, a text the store reads as the integer it denotes. *)
Definition findById_of_param (shipments : gmap Z Shipment) (id : string)
    (userRole : string) (userId : Z) : option Shipment :=
  match Schema.digits_value id with
  | None => None
  | Some key =>
      match shipments !! key with
      | None => None
      | Some s =>
          if String.eqb userRole "driver" && negb (Z.eqb (driver_id s) userId)
          then None else Some s
      end
  end.

(** The organization check the reading handlers share. *)
Definition other_organization (user : User) (s : Shipment) : bool :=
  String.eqb (role user) "admin"
  && truthy_id (organizationId user)
  && truthy_id (organization_id s)
  && id_differs (organization_id s) (organizationId user).

Inductive Response : Type :=
| TrackingInfo (shipment : Shipment) (latest_location : option Location)
| LocationHistory (shipment_id : option Z) (locations : list Location) (total : nat)
| Shipments (shipments : list Shipment) (total : nat)
| Failed (statusCode : Z) (code : string).

Definition errorHandler (e : error) : Response :=
  match e with
  | AppError statusCode code => Failed statusCode code
  | DriverError code => Failed 500 code
  | TypeError _ | LibraryError _ => Failed 500 "INTERNAL_ERROR"
  end.

Section Handlers.

Variable parseNumber : string -> option Q.
Variable showNumber : Q -> string.

(** The store: how it reads [recorded_at >= ?] and [recorded_at <= ?]
    against the text of a date, and the orders [ORDER BY recorded_at ASC]
    and [ORDER BY s.created_at DESC] in which it hands rows over. *)
Variable not_before : string -> Location -> bool.
Variable not_after : string -> Location -> bool.
Variable by_recorded_at : list Location -> list Location.
Variable by_created_at : list Shipment -> list Shipment.



(** [if (startDate)] and [if (endDate)]: a bound that is there and is not
    the empty text adds its condition to the statement. *)
Definition within (start_date end_date : jsval) (l : Location) : bool :=
  match start_date with
  | JStr s => if String.eqb s "" then true else not_before s l
  | _ => true
  end
  && match end_date with
     | JStr s => if String.eqb s "" then true else not_after s l
     | _ => true
     end.

(** [TrackingLocationModel.getLocationHistory(shipmentId, startDate, endDate)] *)
Definition getLocationHistory_rows (rows : list Location) (key : Z)
    (start_date end_date : jsval) : list Location :=
  by_recorded_at (List.filter (within start_date end_date) (of_shipment key rows)).

(** [GET /:shipment_id/history] behind [trackingHistoryValidation]. *)
Definition getLocationHistory (user : User) (segment : string) (query : gmap string jsval)
    (shipments : gmap Z Shipment) (rows : list Location) : Response :=
  match Schema.validate parseNumber showNumber Schema.trackingHistorySchema
          (Schema.mkRequest ∅ {[ "shipment_id" := JStr segment ]} query) with
  | Throw e => errorHandler e
  | Ret _ =>
      match findById_of_param shipments segment (role user) (user_id user) with
      | None => Failed 404 "SHIPMENT_NOT_FOUND"
      | Some s =>
          if other_organization user s then Failed 403 "ORGANIZATION_ACCESS_DENIED"
          else
            let history :=
              getLocationHistory_rows rows (default 0 (Schema.digits_value segment))
                (field query "start_date") (field query "end_date") in
            LocationHistory (Schema.digits_value segment) history (length history)
      end
  end.

(** [ShipmentModel.findAll(userRole, userId, organizationId)] *)
Definition findAll (shipments : gmap Z Shipment) (userRole : string) (userId : Z)
    (organizationId : option Z) : list Shipment :=
  by_created_at
    (List.filter
       (fun s =>
          (negb (String.eqb userRole "driver") || Z.eqb (driver_id s) userId)
          && (negb (truthy_id organizationId)
              || negb (id_differs (organization_id s) organizationId)))
       (map snd (map_to_list shipments))).

(** [s.driver_id == driver_id] *)
Definition same_driver (driver_id : jsval) (s : Shipment) : bool :=
  match Validator.Number parseNumber driver_id with
  | Some q => Qeq_bool q (inject_Z (ShipmentModel.driver_id s))
  | None => false
  end.

(** [GET /] of the shipments behind [queryValidation]. *)
Definition getShipments (user : User) (query : gmap string jsval)
    (shipments : gmap Z Shipment) : Response :=
  match Schema.validate parseNumber showNumber Schema.querySchema
          (Schema.mkRequest ∅ ∅ query) with
  | Throw e => errorHandler e
  | Ret _ =>
      let all := findAll shipments (role user) (user_id user) (organizationId user) in
      let by_status :=
        match field query "status" with
        | JStr wanted =>
            if String.eqb wanted "" then all
            else List.filter (fun s => String.eqb (status s) wanted) all
        | _ => all
        end in
      let by_driver :=
        if truthy (field query "driver_id") && String.eqb (role user) "admin"
        then List.filter (same_driver (field query "driver_id")) by_status
        else by_status in
      Shipments by_driver (length by_driver)
  end.

End Handlers.

End Reads.
(** ** The vocabulary of the claims *)



(** When the hub turns a subscriber away: the identifier is not a non-zero
    number, the store raises, no shipment has the identifier, or the rule of
    the handler refuses the caller for the shipment found. *)
Inductive Denied (db : outcome (gmap Z ShipmentModel.Shipment)) (user : User)
    (shipment_id : jsval) : Prop :=
| InvalidIdentifier :
    truthy shipment_id = false \/ is_number shipment_id = false ->
    Denied db user shipment_id
| StoreRaises (e : error) :
    db = Throw e -> Denied db user shipment_id
| UnknownShipment (table : gmap Z ShipmentModel.Shipment) :
    db = Ret table ->
    (forall k, as_integer shipment_id = Some k -> table !! k = None) ->
    Denied db user shipment_id
| CallerRefused (table : gmap Z ShipmentModel.Shipment) (k : Z)
    (shipment : ShipmentModel.Shipment) :
    db = Ret table ->
    as_integer shipment_id = Some k ->
    table !! k = Some shipment ->
    SocketHandler.admitted user shipment = false ->
    Denied db user shipment_id.

(** A join event the hub turns away: it carries no payload, or the
    identifier of its payload is denied. *)
Inductive TurnedAway (db : outcome (gmap Z ShipmentModel.Shipment)) (user : User)
  : SocketHandler.Payload -> Prop :=
| NoPayload : TurnedAway db user None
| DeniedPayload (fields : gmap string jsval) :
    Denied db user (field fields "shipment_id") -> TurnedAway db user (Some fields).

(** The two states of a shipment on the tracking route: still pending with
    no sample stored and no transition written, or in transit with a sample
    stored and the transition written once. *)
Definition awaiting_first_sample (key : Z) (w : TrackingController.World) : Prop :=
  (exists s, TrackingController.shipments w !! key = Some s
             /\ ShipmentModel.status s = "pending")
  /\ TrackingLocationModel.of_shipment key (TrackingController.tracking_locations w) = []
  /\ TrackingController.transitions key w = 0%nat.

Definition in_transit_once (key : Z) (w : TrackingController.World) : Prop :=
  (exists s, TrackingController.shipments w !! key = Some s
             /\ ShipmentModel.status s = "in_transit")
  /\ TrackingLocationModel.of_shipment key (TrackingController.tracking_locations w) <> []
  /\ TrackingController.transitions key w = 1%nat.

(** The world a call of the tracking route leaves behind, by the way the
    call ends: turned away with nothing stored; the sample stored and the
    status written; or the sample stored and the status left alone (then a
    pending shipment had a sample already). *)
Inductive Served (req : TrackingController.Request) (w : TrackingController.World)
  : TrackingController.World -> Prop :=
| Turned_away : Served req w w
| Stored_and_moved (s : ShipmentModel.Shipment) (l : TrackingLocationModel.Location) :
    TrackingController.shipments w !! TrackingController.shipment_key req = Some s ->
    ShipmentModel.status s = "pending" ->
    TrackingLocationModel.shipment_id l = TrackingController.shipment_key req ->
    Served req w
      (TrackingController.mkWorld
         (ShipmentModel.set_status (TrackingController.shipments w)
            (TrackingController.shipment_key req) "in_transit")
         (TrackingController.tracking_locations w ++ [l])
         (TrackingController.next_insert_id w + 1)
         (TrackingController.StatusWritten (TrackingController.shipment_key req)
            "in_transit" :: TrackingController.journal w))
| Stored (s : ShipmentModel.Shipment) (l : TrackingLocationModel.Location)
    (w' : TrackingController.World) :
    TrackingController.shipments w !! TrackingController.shipment_key req = Some s ->
    TrackingLocationModel.shipment_id l = TrackingController.shipment_key req ->
    (ShipmentModel.status s = "pending" ->
     TrackingLocationModel.of_shipment (TrackingController.shipment_key req)
       (TrackingController.tracking_locations w) <> []) ->
    TrackingController.shipments w' = TrackingController.shipments w ->
    TrackingController.tracking_locations w'
    = (TrackingController.tracking_locations w ++ [l])%list ->
    (forall key,
        TrackingController.transitions key w' = TrackingController.transitions key w) ->
    Served req w w'.

(** The row a call of the tracking route inserts. *)
Definition inserted_row (req : TrackingController.Request) (w : TrackingController.World)
  : TrackingLocationModel.Location :=
  TrackingLocationModel.mkLocation (TrackingController.next_insert_id w)
    (TrackingController.shipment_key req)
    (field (TrackingController.body req) "latitude")
    (field (TrackingController.body req) "longitude")
    (TrackingController.or_null (field (TrackingController.body req) "accuracy"))
    (TrackingController.or_null (field (TrackingController.body req) "speed"))
    (TrackingController.at_time req).

(** The refusals of the tracking route that a call can meet: the status
    code and the error code of each. *)
Definition refusals : list (Z * string) :=
  [ (403, "FORBIDDEN"); (400, "VALIDATION_ERROR"); (404, "SHIPMENT_NOT_FOUND");
    (403, "SHIPMENT_ACCESS_DENIED") ].

(** The refusals of [authenticate], and with them all the refusals a call
    of [POST /update] can meet. *)
Definition authentication_refusals : list (Z * string) :=
  [ (401, "UNAUTHORIZED"); (401, "TOKEN_EXPIRED") ].

Definition route_refusals : list (Z * string) :=
  (authentication_refusals ++ refusals)%list.

(** What the tracking route checks before it stores a row: the caller is
    the driver the shipment is assigned to and the coordinates are numbers
    in range. *)
Definition may_store (req : TrackingController.Request) (s : ShipmentModel.Shipment)
  : Prop :=
  role (TrackingController.user req) = "driver"
  /\ ShipmentModel.driver_id s = user_id (TrackingController.user req)
  /\ TrackingLocationModel.isValidLatitude
       (field (TrackingController.body req) "latitude") = true
  /\ TrackingLocationModel.isValidLongitude
       (field (TrackingController.body req) "longitude") = true.

(** The three ways a call of the tracking route ends, with the world it
    leaves and its response: refused with the world as it was; the row
    stored and the status of a pending shipment written, answered by the
    error of [updateStatus]; or the row stored, the timestamp touched and
    the location update sent, answered 201 with the status as it was
    read. *)
Inductive Answered (req : TrackingController.Request) (w : TrackingController.World)
  : TrackingController.World -> TrackingController.Response -> Prop :=
| Refused (statusCode : Z) (code : string) :
    In (statusCode, code) refusals ->
    Answered req w w (TrackingController.Failed statusCode code)
| Moved (s : ShipmentModel.Shipment) :
    TrackingController.shipments w !! TrackingController.shipment_key req = Some s ->
    may_store req s ->
    ShipmentModel.status s = "pending" ->
    Answered req w
      (TrackingController.mkWorld
         (ShipmentModel.set_status (TrackingController.shipments w)
            (TrackingController.shipment_key req) "in_transit")
         (TrackingController.tracking_locations w ++ [inserted_row req w])
         (TrackingController.next_insert_id w + 1)
         (TrackingController.StatusWritten (TrackingController.shipment_key req)
            "in_transit" :: TrackingController.journal w))
      (TrackingController.Failed 500 "INTERNAL_ERROR")
| Kept (s : ShipmentModel.Shipment) :
    TrackingController.shipments w !! TrackingController.shipment_key req = Some s ->
    may_store req s ->
    Answered req w
      (TrackingController.mkWorld
         (TrackingController.shipments w)
         (TrackingController.tracking_locations w ++ [inserted_row req w])
         (TrackingController.next_insert_id w + 1)
         ((if TrackingController.socketHandler req
           then [TrackingController.Emitted (TrackingController.shipment_key req)
                   "location_update"]
           else [])
          ++ TrackingController.TimestampTouched (TrackingController.shipment_key req)
             :: TrackingController.journal w))
      (TrackingController.Created (inserted_row req w) (ShipmentModel.status s)).

(** The refusals of the confirmation of a delivery. *)
Definition delivery_refusals : list (Z * string) :=
  [ (403, "FORBIDDEN"); (400, "VALIDATION_ERROR"); (404, "SHIPMENT_NOT_FOUND");
    (403, "SHIPMENT_ACCESS_DENIED"); (400, "ALREADY_DELIVERED"); (400, "INVALID_STATUS") ].

(** All the answers that refuse a call of [POST /:id/confirm-delivery]:
    those of [authenticate], the 500 of a token that is not valid yet, and
    those of the handler behind it. *)
Definition delivery_route_refusals : list (Z * string) :=
  (authentication_refusals ++ (500, "INTERNAL_ERROR") :: delivery_refusals)%list.

(** A shipment with its status written to [delivered]. *)
Definition delivered (s : ShipmentModel.Shipment) : ShipmentModel.Shipment :=
  ShipmentModel.mkShipment (ShipmentModel.id s) (ShipmentModel.driver_id s)
    (ShipmentModel.organization_id s) "delivered".

(** The two ways a confirmation of delivery ends: refused with the world
    as it was, or confirmed for a shipment in transit by the driver it is
    assigned to, with the status written and the event emitted. *)
Inductive Settled (req : ShipmentController.Request) (w : TrackingController.World)
  : TrackingController.World -> ShipmentController.Response -> Prop :=
| NotConfirmed (statusCode : Z) (code : string) :
    In (statusCode, code) delivery_refusals ->
    Settled req w w (ShipmentController.Failed statusCode code)
| NowDelivered (k : Z) (s : ShipmentModel.Shipment) :
    role (ShipmentController.user req) = "driver" ->
    Schema.digits_value (ShipmentController.id req) = Some k ->
    TrackingController.shipments w !! k = Some s ->
    ShipmentModel.driver_id s = user_id (ShipmentController.user req) ->
    ShipmentModel.status s = "in_transit" ->
    Settled req w
      (TrackingController.mkWorld
         (<[ k := delivered s ]> (TrackingController.shipments w))
         (TrackingController.tracking_locations w)
         (TrackingController.next_insert_id w)
         (ShipmentController.emissions req
          ++ TrackingController.StatusWritten k "delivered"
             :: TrackingController.journal w))
      (ShipmentController.Confirmed (delivered s)).

(** The calls of the two routes that write the status of a shipment, and
    a list of them served one after the other. *)
Inductive Call : Type :=
| Track (req : TrackingController.Request)
| Deliver (req : ShipmentController.Request).

Definition serve (parseNumber : string -> option Q) (showNumber : Q -> string)
    (pick_latest : list TrackingLocationModel.Location
                   -> option TrackingLocationModel.Location)
    (w : TrackingController.World) (call : Call) : TrackingController.World :=
  match call with
  | Track req => fst (TrackingController.updateLocation parseNumber pick_latest req w)
  | Deliver req => fst (ShipmentController.confirmDelivery parseNumber showNumber req w)
  end.

(** The life of a shipment: its status stays, or goes from pending to in
    transit, or from there to delivered. *)
Inductive advances : string -> string -> Prop :=
| Stays (status : string) : advances status status
| Departs : advances "pending" "in_transit"
| Arrives : advances "in_transit" "delivered"
| Departs_and_arrives : advances "pending" "delivered".

(** What a call leaves of a shipment: the same row but for its status,
    which has advanced. *)
Definition advanced (s s' : ShipmentModel.Shipment) : Prop :=
  ShipmentModel.id s' = ShipmentModel.id s
  /\ ShipmentModel.driver_id s' = ShipmentModel.driver_id s
  /\ ShipmentModel.organization_id s' = ShipmentModel.organization_id s
  /\ advances (ShipmentModel.status s) (ShipmentModel.status s').

(** A call that waits on [updateTimestamp] came by the branch of the
    first-update test that leaves the status alone. *)
Definition past_first_update_test (pc : TrackingController.Pc) : Prop :=
  match pc with
  | TrackingController.AwaitUpdateTimestamp shipment _ isFirstUpdate =>
      isFirstUpdate && String.eqb (ShipmentModel.status shipment) "pending" = false
  | _ => True
  end.



(** An advisory one of the five analyzers produces on some input. *)
Inductive Produced (r : Recommendation) : Prop :=
| ByRouteDeviation (shipment : option Shipment) (currentLocation : Sample)
    (trackingHistory : list Sample) :
    RecommendationService.analyzeRouteDeviation shipment currentLocation trackingHistory
    = Ret (Some r) ->
    Produced r
| ByDelayProbability (env : Env) (shipment : option Shipment)
    (trackingHistory : list Sample) :
    RecommendationService.analyzeDelayProbability env shipment trackingHistory = Some r ->
    Produced r
| BySpeedPatterns (currentLocation : Sample) (trackingHistory : list Sample) :
    RecommendationService.analyzeSpeedPatterns currentLocation trackingHistory = Some r ->
    Produced r
| ByIdleTime (env : Env) (currentLocation : Sample) (trackingHistory : list Sample) :
    RecommendationService.analyzeIdleTime env currentLocation trackingHistory = Some r ->
    Produced r
| ByGPSAccuracy (locationData : Sample) :
    RecommendationService.analyzeGPSAccuracy locationData = Some r ->
    Produced r.

(** The geometry behind [haversineDistance]: the quantity [a] it computes,
    the half of the central angle it takes of it, and the unit vector of a
    point given in degrees, whose scalar products [a] is made of. *)
Definition haversine_a (lat1 lon1 lat2 lon2 : R) : R :=
  (sin ((lat2 - lat1) * PI / 180 / 2) * sin ((lat2 - lat1) * PI / 180 / 2)
   + cos (lat1 * PI / 180) * cos (lat2 * PI / 180)
     * sin ((lon2 - lon1) * PI / 180 / 2) * sin ((lon2 - lon1) * PI / 180 / 2))%R.

Definition half_angle (a : R) : R := Num.atan2 (sqrt a) (sqrt (1 - a)).

Definition rad (deg : R) : R := (deg * PI / 180)%R.
Definition ux (lat lon : R) : R := (cos (rad lat) * cos (rad lon))%R.
Definition uy (lat lon : R) : R := (cos (rad lat) * sin (rad lon))%R.
Definition uz (lat lon : R) : R := sin (rad lat).
Definition dot (lat1 lon1 lat2 lon2 : R) : R :=
  (ux lat1 lon1 * ux lat2 lon2 + uy lat1 lon1 * uy lat2 lon2
   + uz lat1 lon1 * uz lat2 lon2)%R.

(** The specification's reading of the travelled distance: the sum of the
    great-circle distances of consecutive samples. *)
Fixpoint consecutive_sum (trackingData : list Sample) : R :=
  match trackingData with
  | prev :: (curr :: _) as rest =>
      (RouteAnalysisService.distance prev curr + consecutive_sum rest)%R
  | _ => 0%R
  end.

(** The same reading in the arithmetic of the engine: the distances of
    consecutive samples, and their sum taken in order from 0. *)
Fixpoint segments (m : Double.Math) (trackingData : list Double.Sample)
  : list PrimFloat.float :=
  match trackingData with
  | prev :: (curr :: _) as rest =>
      Double.RouteAnalysisService.distance m prev curr :: segments m rest
  | _ => []
  end.

Definition sum_in_order (l : list PrimFloat.float) : PrimFloat.float :=
  fold_left PrimFloat.add l 0%float.

(** The ETA the delay analyzer makes for itself, in the words of its
    description: now plus the time the distance from the last sample to the
    destination takes at the plain mean of the positive speeds among the
    last ten samples, or at 10 m/s when that mean is no number, in whole
    milliseconds. *)
Definition last_ten {A : Type} (l : list A) : list A := rev (firstn 10 (rev l)).

Fixpoint positive_speeds (l : list Double.Sample) : list PrimFloat.float :=
  match l with
  | [] => []
  | t :: rest =>
      match Double.speed t with
      | Some v => if (0 <? v)%float then v :: positive_speeds rest else positive_speeds rest
      | None => positive_speeds rest
      end
  end.

Definition plain_mean (l : list PrimFloat.float) : PrimFloat.float :=
  (sum_in_order l / Double.of_nat (length l))%float.

Definition plain_mean_eta (m : Double.Math) (now : PrimFloat.float) (s : Double.Shipment)
    (history : list Double.Sample) : PrimFloat.float :=
  match last history with
  | None => PrimFloat.nan
  | Some current =>
      let v := Double.or_default (plain_mean (positive_speeds (last_ten history))) 10 in
      let d :=
        Double.haversineDistance m (Double.latitude current) (Double.longitude current)
          (Double.parseFloat
             (Double.or (Double.destination_latitude s) (Double.destination_lat s)))
          (Double.parseFloat
             (Double.or (Double.destination_longitude s) (Double.destination_lng s))) in
      Double.new_Date (now + d / v * 1000)%float
  end.

(** The delay in minutes of an ETA against the planned time, and the
    advisory of the delay analyzer on it. *)
Definition delay_minutes (eta planned : PrimFloat.float) : PrimFloat.float :=
  ((eta - planned) / 60000)%float.

Definition delay_advisory (severity : string) (eta planned : PrimFloat.float)
  : Double.Recommendation :=
  Double.mkRecommendation "delay_alert" severity
    [ ("delay_minutes", Double.round (delay_minutes eta planned));
      ("current_eta", eta); ("planned_eta", planned) ].




(** A digit of base 36 as [toString(36)] writes it. *)
Definition is_base36 (c : Ascii.ascii) : bool :=
  Schema.is_digit c || ((97 <=? Schema.code c)%nat && (Schema.code c <=? 122)%nat).

(** A store that hands over rows of the result of the statement only. *)
Definition hands_over_rows_of {A : Type} (order : list A -> list A) : Prop :=
  forall (rows : list A) (row : A), In row (order rows) -> In row rows.

(** What a caller may see of the shipments: a driver the shipments
    assigned to them, a caller with an organization those of the
    organization. *)
Definition within_reach (user : User) (s : ShipmentModel.Shipment) : Prop :=
  (role user = "driver" -> ShipmentModel.driver_id s = user_id user)
  /\ (forall org,
        organizationId user = Some org -> org <> 0 ->
        ShipmentModel.organization_id s = Some org).

(** ** Concrete inputs of the examples *)

Module Scenario.

(** No example sends a number as text. *)
Definition no_numeric_text : string -> option Q := fun _ => None.

(** Shipment 1, pending, assigned to driver 7, with no sample yet. *)
Definition fresh_world : TrackingController.World :=
  TrackingController.mkWorld
    {[ 1%Z := ShipmentModel.mkShipment 1 7 None "pending" ]} [] 1 [].

Definition driver7 : User := mkUser 7 "driver" None.

Definition delhi : gmap string jsval :=
  {[ "shipment_id" := JNum 1; "latitude" := JNum 28.6139; "longitude" := JNum 77.2090 ]}.

Definition first_sample : TrackingController.Request :=
  TrackingController.mkRequest driver7 delhi 100 true.

(** The same sample sent a second time, its row recorded a second later. *)
Definition first_sample_again : TrackingController.Request :=
  TrackingController.mkRequest driver7 delhi 101 true.

(** Shipment 1 once delivered, with the row of its first sample. *)
Definition delivered_world : TrackingController.World :=
  TrackingController.mkWorld
    {[ 1%Z := ShipmentModel.mkShipment 1 7 None "delivered" ]}
    [TrackingLocationModel.mkLocation 1 1 (JNum 28.6139) (JNum 77.2090) JNull JNull 100]
    2 [].

(** Shipment 1 in transit, and the confirmation of its delivery by driver 7. *)
Definition in_transit_world : TrackingController.World :=
  TrackingController.mkWorld
    {[ 1%Z := ShipmentModel.mkShipment 1 7 None "in_transit" ]}
    [TrackingLocationModel.mkLocation 1 1 (JNum 28.6139) (JNum 77.2090) JNull JNull 100]
    2 [].

Definition confirm_1 : ShipmentController.Request :=
  ShipmentController.mkRequest driver7 "1" ∅ true.

Definition decimal : Q -> string := fun _ => "0".

Definition latitude_95 : gmap string jsval :=
  {[ "shipment_id" := JNum 1; "latitude" := JNum 95; "longitude" := JNum 77.2090 ]}.

(** A verification of tokens that knows one token, the one of driver 7,
    and one that has expired. *)
Definition verify : string -> Auth.Verdict :=
  fun token =>
    if String.eqb token "token-of-driver-7" then Auth.Decoded driver7
    else if String.eqb token "token-of-last-year" then Auth.TokenExpiredError
    else Auth.JsonWebTokenError.

(** The sample at latitude 95 as driver 7 sends it, and the confirmation
    of the delivery of shipment 1 sent with the expired token. *)
Definition latitude_95_from_driver7 : TrackingController.Arrival :=
  TrackingController.mkArrival (Some "Bearer token-of-driver-7") latitude_95 100 true.

Definition confirm_1_with_expired_token : ShipmentController.Arrival :=
  ShipmentController.mkArrival (Some "Bearer token-of-last-year") "1" ∅ true.


Definition on_the_equator : gmap string jsval :=
  {[ "shipment_id" := JNum 1; "latitude" := JNum 0; "longitude" := JNum 77.2090 ]}.

(** Shipment 1 of organization 7, assigned to driver 2, and two callers:
    an administrator with no organization and a driver it is not assigned to. *)
Definition one_shipment : gmap Z ShipmentModel.Shipment :=
  {[ 1%Z := ShipmentModel.mkShipment 1 2 (Some 7) "pending" ]}.

Definition admin_without_organization : SocketHandler.Socket :=
  SocketHandler.mkSocket "s1" (mkUser 1 "admin" None).

Definition other_driver : SocketHandler.Socket :=
  SocketHandler.mkSocket "s2" (mkUser 9 "driver" None).

Definition join_1 : gmap string jsval := {[ "shipment_id" := JNum 1 ]}.

(** A store that hands rows over in the order it holds them and reads no
    date as a bound. *)
Definition as_held {A : Type} (rows : list A) : list A := rows.

Definition any_date : string -> TrackingLocationModel.Location -> bool := fun _ _ => true.

(** An administrator of organization 7. *)
Definition admin_of_7 : User := mkUser 1 "admin" (Some 7).


Definition by_tracking_number : Schema.Request :=
  Schema.mkRequest ∅
    {[ "tracking_number" :=
         JStr (ShipmentModel.generateTrackingNumber 1700000000000 "0.4fzyo82m") ]} ∅.

(** The driver shipment 1 of [one_shipment] is assigned to. *)
Definition assigned_driver : SocketHandler.Socket :=
  SocketHandler.mkSocket "s3" (mkUser 2 "driver" None).

(** A shipment bound for Mumbai, as the services read it. *)
Definition to_mumbai : Shipment :=
  mkShipment 7 (Some 19.0760%R) None (Some 72.8777%R) None None None None.

(** A pool that answers every statement, and one that refuses the INSERT. *)
Definition accepting_pool : SmartTrackingController.Pool :=
  SmartTrackingController.mkPool
    (fun _ => Ret [to_mumbai]) (fun _ => Ret 1%Z) (fun _ => Ret []) (fun _ => Ret tt).


(** The surroundings of the services at noon, with the two controller
    functions the recommendation service imports answering by an error. *)
Definition at_noon : Env :=
  mkEnv 0%R 12
    (fun _ => Ret [])
    (fun _ => Throw (TypeError "getShipmentById is not a function"))
    (fun _ => Throw (TypeError "getTrackingData is not a function")).

(** Samples at a fixed place, taken 100 seconds before [at_ten_minutes]
    reads its clock. *)
Definition standing (v : R) : Sample := mkSample 0 0 (Some v) None 900000.


(** Ten samples at 10 m/s, and a current sample at 1 m/s. *)
Definition cruising : list Sample := repeat (standing 10) 10.

Definition crawling : Sample := standing 1.

(** A location with an accuracy of 5000. *)
Definition poor_fix : Sample := mkSample 0 0 None (Some 5000%R) 0.

(** Three places a quarter of a great circle apart from one another: two
    on the equator and the north pole. *)
Definition origin : Sample := mkSample 0 0 None None 0.
Definition east : Sample := mkSample 0 90 None None 0.
Definition pole : Sample := mkSample 90 90 None None 0.



(** The sines, cosines and arc tangents the examples need, at the
    arguments they meet: the values rounded correctly, as glibc returns
    them.  A library answers at every argument; the examples read it at
    these. *)
Definition sines : list (PrimFloat.float * PrimFloat.float) :=
  [ (0, 0);
    (0x1.1df46a2529d39p-7, 0x1.1df37c4954c21p-7);
    (0x1.8b6bfac763d69p+0, 0x1.ffd315bbf4275p-1);
    (0x1.8da7e39bae2a4p+0, 0x1.ffec097f5af8ap-1);
    (-0x1.1df46a2529d39p-7, -0x1.1df37c4954c21p-7);
    (0x1.921fb54442d18p-1, 0x1.6a09e667f3bccp-1) ]%float.

Definition cosines : list (PrimFloat.float * PrimFloat.float) :=
  [ (0, 1);
    (0x1.921fb54442d18p+0, 0x1.1a62633145c07p-54) ]%float.

Definition arctangents : list (PrimFloat.float * PrimFloat.float * PrimFloat.float) :=
  [ (0x1.1df37c4954c21p-7, 0x1.fffb02599c9cdp-1, 0x1.1df46a2529d39p-7);
    (0x1.ffd315bbf4275p-1, 0x1.ace214390cc32p-6, 0x1.8b6bfac763d62p+0);
    (0x1.ffec097f5af8ap-1, 0x1.1df0b2b89dacfp-6, 0x1.8da7e39bae2adp+0);
    (0, 1, 0);
    (0x1.6a09e667f3bccp-1, 0x1.6a09e667f3bcdp-1, 0x1.921fb54442d18p-1) ]%float.

Fixpoint value_at (table : list (PrimFloat.float * PrimFloat.float)) (x : PrimFloat.float)
  : PrimFloat.float :=
  match table with
  | [] => PrimFloat.nan
  | (argument, value) :: table' =>
      if (x =? argument)%float then value else value_at table' x
  end.

Fixpoint value_at2 (table : list (PrimFloat.float * PrimFloat.float * PrimFloat.float))
    (y x : PrimFloat.float) : PrimFloat.float :=
  match table with
  | [] => PrimFloat.nan
  | (argument_y, argument_x, value) :: table' =>
      if ((y =? argument_y) && (x =? argument_x))%float then value
      else value_at2 table' y x
  end.

Definition libm : Double.Math :=
  Double.mkMath (value_at sines) (value_at cosines) (value_at2 arctangents).

(** Places on the equator at the longitudes 0, 1, 90 and 178, and the
    north pole. *)
Definition at_0 : Double.Sample := Double.mkSample 0 0 None.
Definition at_1 : Double.Sample := Double.mkSample 0 1 None.
Definition at_90 : Double.Sample := Double.mkSample 0 90 None.
Definition at_178 : Double.Sample := Double.mkSample 0 178 None.
Definition at_pole : Double.Sample := Double.mkSample 90 90 None.

(** The surroundings of the services at noon of a day in November 2023,
    with the route history query raising, as it does in this code base
    ([db.execute] is not a function of the database module). *)
Definition in_november : Double.Env :=
  Double.mkEnv 1700000000000 12 (fun _ => Throw (TypeError "db.execute is not a function")).

(** A shipment bound for the pole and planned for the given time, and
    samples at (0, 0) reporting 10 m/s and 60 m/s. *)
Definition due_at_the_pole (planned : PrimFloat.float) : Double.Shipment :=
  Double.mkShipment (Some 90%float) None (Some 90%float) None None planned.

Definition cruising_at_0 : Double.Sample := Double.mkSample 0 0 (Some 10%float).
Definition racing_at_0 : Double.Sample := Double.mkSample 0 0 (Some 60%float).

End Scenario.

(** * Properties *)

(** ** Risk score *)

Lemma add_severity_weight (acc : Z) (rec : Recommendation) :
  RiskScore.add_severity acc rec = acc + RiskScore.severity_weight (severity rec).
Proof.
  unfold RiskScore.add_severity, RiskScore.severity_weight.
  destruct (String.eqb_spec (severity rec) "high") as [-> | _]; [reflexivity |].
  destruct (String.eqb_spec (severity rec) "medium") as [-> | _]; [reflexivity |].
  destruct (String.eqb (severity rec) "low"); lia.
Qed.

Lemma fold_add_severity (recs : list Recommendation) (acc : Z) :
  fold_left RiskScore.add_severity recs acc =
  acc + fold_right Z.add 0 (map (fun a => RiskScore.severity_weight (severity a)) recs).
Proof.
  revert acc; induction recs as [| r recs IH]; intros acc; simpl.
  - lia.
  - rewrite IH, add_severity_weight. lia.
Qed.

Lemma severity_weight_nonneg (s : string) : 0 <= RiskScore.severity_weight s.
Proof.
  unfold RiskScore.severity_weight.
  repeat match goal with |- context [String.eqb ?a ?b] => destruct (String.eqb a b) end; lia.
Qed.

Lemma weights_sum_nonneg (recs : list Recommendation) :
  0 <= fold_right Z.add 0 (map (fun a => RiskScore.severity_weight (severity a)) recs).
Proof.
  induction recs as [| r recs IH]; simpl; [lia |].
  pose proof (severity_weight_nonneg (severity r)). lia.
Qed.

(** C4.  The risk score of an event is the capped sum of the severity weights
    (low 5, medium 15, high 30) of that event's advisories alone: it is a
    function of the advisory list and of nothing else, the empty list (and a
    missing list) gives 0, and the score lies between 0 and 100. *)
Theorem C4_risk_score_is_capped_weight_sum :
  forall advisories : list Recommendation,
    RiskScore.calculateRiskScore (Some advisories) = RiskScore.risk_score_spec advisories
    /\ 0 <= RiskScore.calculateRiskScore (Some advisories) <= 100
    /\ RiskScore.calculateRiskScore (Some []) = 0
    /\ RiskScore.calculateRiskScore None = 0
    /\ RiskScore.severity_weight "low" = 5
    /\ RiskScore.severity_weight "medium" = 15
    /\ RiskScore.severity_weight "high" = 30.
Proof.
  intros advisories.
  assert (Heq : RiskScore.calculateRiskScore (Some advisories)
                = RiskScore.risk_score_spec advisories).
  { unfold RiskScore.calculateRiskScore, RiskScore.risk_score_spec.
    destruct advisories as [| r recs]; [reflexivity |].
    rewrite fold_add_severity. lia. }
  split; [exact Heq |].
  split.
  - rewrite Heq. unfold RiskScore.risk_score_spec.
    pose proof (weights_sum_nonneg advisories). lia.
  - repeat split; reflexivity.
Qed.

(** ** Validation of a sample *)



Section ValidatorFacts.

Variable parseNumber : string -> option Q.






End ValidatorFacts.




(** C10.  The smart handler tests its three required fields by their
    truth value, and 0 is false: a sample whose latitude or longitude is 0
    is answered as if required fields were missing, with nothing handed to
    the store, and so is it on the route, whose validators accept the
    coordinate 0 as in range. *)
Theorem C10_zero_coordinate_rejected_as_missing :
  forall (parseNumber : string -> option Q) (pool : SmartTrackingController.Pool)
         (env : Env) (io : bool) (body : gmap string jsval) (q : Q),
    (q == 0)%Q ->
    field body "latitude" = JNum q \/ field body "longitude" = JNum q ->
    SmartTrackingController.isFloat parseNumber (Some (-90)%Q) (Some 90%Q) (JNum q) = true
    /\ SmartTrackingController.isFloat parseNumber (Some (-180)%Q) (Some 180%Q) (JNum q)
       = true
    /\ SmartTrackingController.updateLocation parseNumber pool env io body
       = ([], SmartTrackingController.Failure 400
                "Missing required fields: shipment_id, latitude, longitude")
    /\ (SmartTrackingController.validation_passes parseNumber body = true ->
        SmartTrackingController.post_location_update parseNumber pool env io body
        = ([], SmartTrackingController.Failure 400
                 "Missing required fields: shipment_id, latitude, longitude")).
Proof.
  intros parseNumber pool env io body q Hq Hzero.
  assert (Hhandler : SmartTrackingController.updateLocation parseNumber pool env io body
                     = ([], SmartTrackingController.Failure 400
                              "Missing required fields: shipment_id, latitude, longitude")).
  { unfold SmartTrackingController.updateLocation,
      SmartTrackingController.updateLocation_try.
    assert (Hfalsy : truthy (JNum q) = false).
    { cbn. apply negb_false_iff, Qeq_bool_iff, Hq. }
    destruct Hzero as [Hf | Hf]; rewrite Hf, Hfalsy; cbn [negb].
    - rewrite orb_true_r. reflexivity.
    - rewrite orb_true_r. reflexivity. }
  assert (Hrange : forall lo hi : Q,
             (lo <= 0)%Q -> (0 <= hi)%Q ->
             SmartTrackingController.isFloat parseNumber (Some lo) (Some hi) (JNum q) = true).
  { intros lo hi Hlo Hhi. unfold SmartTrackingController.isFloat. cbn.
    apply andb_true_intro. split; apply Qle_bool_iff; rewrite Hq; assumption. }
  split; [apply Hrange; discriminate |].
  split; [apply Hrange; discriminate |].
  split; [exact Hhandler |].
  intros Hvalid. unfold SmartTrackingController.post_location_update.
  rewrite Hvalid. exact Hhandler.
Qed.

(** The point (0, 77.2090) on the equator passes the validators and is
    turned away. *)
Lemma C10_on_the_equator :
  SmartTrackingController.isFloat Scenario.no_numeric_text (Some (-90)%Q) (Some 90%Q)
    (JNum 0) = true
  /\ SmartTrackingController.isFloat Scenario.no_numeric_text (Some (-180)%Q) (Some 180%Q)
       (JNum 0) = true
  /\ SmartTrackingController.updateLocation Scenario.no_numeric_text
       Scenario.accepting_pool Scenario.at_noon true Scenario.on_the_equator
     = ([], SmartTrackingController.Failure 400
              "Missing required fields: shipment_id, latitude, longitude")
  /\ (SmartTrackingController.validation_passes Scenario.no_numeric_text
        Scenario.on_the_equator = true ->
      SmartTrackingController.post_location_update Scenario.no_numeric_text
        Scenario.accepting_pool Scenario.at_noon true Scenario.on_the_equator
      = ([], SmartTrackingController.Failure 400
               "Missing required fields: shipment_id, latitude, longitude")).
Proof.
  apply (C10_zero_coordinate_rejected_as_missing Scenario.no_numeric_text
           Scenario.accepting_pool Scenario.at_noon true Scenario.on_the_equator 0).
  - reflexivity.
  - left. reflexivity.
Defined.

(** ** The broadcast hub *)

Lemma elem_of_recipients (rooms : SocketHandler.Rooms) (k : Z) (s : string) :
  s ∈ SocketHandler.recipients rooms k <-> (s, k) ∈ rooms.
Proof.
  unfold SocketHandler.recipients. rewrite elem_of_map. split.
  - intros [[s' k'] [Hs Hin]]. apply elem_of_filter in Hin as [Hk Hin].
    cbn in Hs, Hk. subst. exact Hin.
  - intros Hin. exists (s, k). split; [reflexivity |].
    apply elem_of_filter. split; [reflexivity | exact Hin].
Qed.

Lemma findById_found (table : gmap Z ShipmentModel.Shipment) (shipment_id : jsval)
    (user : User) (k : Z) (shipment : ShipmentModel.Shipment) :
  as_integer shipment_id = Some k ->
  table !! k = Some shipment ->
  ShipmentModel.findById table shipment_id (Some (role user)) (Some (user_id user))
  = if String.eqb (role user) "driver"
       && negb (Z.eqb (ShipmentModel.driver_id shipment) (user_id user))
    then None else Some shipment.
Proof.
  intros Hk Hs. unfold ShipmentModel.findById. rewrite Hk, Hs. cbn [id_differs].
  destruct (String.eqb (role user) "driver"); [| reflexivity].
  destruct (Z.eqb (ShipmentModel.driver_id shipment) (user_id user)); reflexivity.
Qed.

Lemma findById_unknown (table : gmap Z ShipmentModel.Shipment) (shipment_id : jsval)
    (userRole : option string) (userId : option Z) :
  (forall k, as_integer shipment_id = Some k -> table !! k = None) ->
  ShipmentModel.findById table shipment_id userRole userId = None.
Proof.
  intros Hnone. unfold ShipmentModel.findById.
  destruct (as_integer shipment_id) as [k |]; [| reflexivity].
  rewrite (Hnone k eq_refl). reflexivity.
Qed.

Lemma denied_join_is_answered (db : outcome (gmap Z ShipmentModel.Shipment))
    (rooms : SocketHandler.Rooms) (socket : SocketHandler.Socket)
    (data : gmap string jsval) :
  Denied db (SocketHandler.socket_user socket) (field data "shipment_id") ->
  exists message,
    SocketHandler.handleJoinShipment db rooms socket data
    = (rooms, SocketHandler.ErrorReply message).
Proof.
  intros Hdenied.
  unfold SocketHandler.handleJoinShipment, SocketHandler.join_body.
  destruct (negb (truthy (field data "shipment_id"))
            || negb (is_number (field data "shipment_id"))) eqn:Hid.
  { eexists; reflexivity. }
  destruct Hdenied as [Hbad | e Hdb | table Hdb Hnone | table k shipment Hdb Hk Hs Hno].
  - exfalso. apply orb_false_elim in Hid as [H1 H2].
    apply negb_false_iff in H1, H2. destruct Hbad; congruence.
  - rewrite Hdb. eexists; reflexivity.
  - rewrite Hdb. cbn. rewrite (findById_unknown _ _ _ _ Hnone). eexists; reflexivity.
  - rewrite Hdb. cbn. rewrite (findById_found _ _ _ _ _ Hk Hs).
    unfold SocketHandler.admitted in Hno.
    destruct (String.eqb (role (SocketHandler.socket_user socket)) "driver"
              && negb (Z.eqb (ShipmentModel.driver_id shipment)
                         (user_id (SocketHandler.socket_user socket)))).
    + eexists; reflexivity.
    + cbn in Hno. rewrite negb_false_iff in Hno. rewrite Hno. eexists; reflexivity.
Qed.

(** On a payload that is an object the listener does what
    [handleJoinShipment] does with its fields. *)
Lemma on_join_shipment_object (db : outcome (gmap Z ShipmentModel.Shipment))
    (rooms : SocketHandler.Rooms) (socket : SocketHandler.Socket)
    (fields : gmap string jsval) :
  SocketHandler.on_join_shipment db rooms socket (Some fields)
  = (fst (SocketHandler.handleJoinShipment db rooms socket fields),
     Ret (snd (SocketHandler.handleJoinShipment db rooms socket fields))).
Proof.
  unfold SocketHandler.on_join_shipment, SocketHandler.handleJoinShipment. cbn.
  destruct (SocketHandler.join_body db rooms socket fields) as [[rooms' reply] | e];
    reflexivity.
Qed.

(** C9 (amended).  A join event that the hub turns away leaves the rooms
    as they were, so a connection that was not in the room of a shipment
    receives none of its publishes; that holds of an event without a
    payload too.  When the event carries an object whose identifier is
    denied (it is not a non-zero number, the store raises, the shipment is
    unknown, the caller is a driver other than the assigned one, or an
    administrator whose organization and the shipment's are both set and
    differ) the hub answers by an error message. *)
Theorem C9_denied_subscribe_adds_no_membership :
  forall (db : outcome (gmap Z ShipmentModel.Shipment)) (rooms : SocketHandler.Rooms)
         (socket : SocketHandler.Socket) (data : SocketHandler.Payload),
    TurnedAway db (SocketHandler.socket_user socket) data ->
    fst (SocketHandler.on_join_shipment db rooms socket data) = rooms
    /\ (forall fields,
          data = Some fields ->
          exists message,
            snd (SocketHandler.on_join_shipment db rooms socket data)
            = Ret (SocketHandler.ErrorReply message))
    /\ (forall k,
          (SocketHandler.socket_id socket, k) ∉ rooms ->
          SocketHandler.socket_id socket
          ∉ SocketHandler.recipients
              (fst (SocketHandler.on_join_shipment db rooms socket data)) k).
Proof.
  intros db rooms socket data Haway.
  assert (Hrooms : fst (SocketHandler.on_join_shipment db rooms socket data) = rooms
                   /\ (forall fields,
                         data = Some fields ->
                         exists message,
                           snd (SocketHandler.on_join_shipment db rooms socket data)
                           = Ret (SocketHandler.ErrorReply message))).
  { destruct Haway as [| fields Hdenied].
    - split; [reflexivity |]. intros fields Hfields. discriminate.
    - destruct (denied_join_is_answered db rooms socket fields Hdenied) as [message Herr].
      rewrite on_join_shipment_object, Herr. cbn [fst snd].
      split; [reflexivity |]. intros _ _. exists message. reflexivity. }
  destruct Hrooms as [Hrooms Hreply].
  split; [exact Hrooms |]. split; [exact Hreply |].
  rewrite Hrooms. intros k Hout Hin. apply elem_of_recipients in Hin. exact (Hout Hin).
Qed.

(** A driver asking for a shipment assigned to another driver is turned away. *)
Lemma C9_other_driver_is_denied :
  fst (SocketHandler.on_join_shipment (Ret Scenario.one_shipment) ∅
         Scenario.other_driver (Some Scenario.join_1)) = ∅
  /\ (forall fields,
        Some Scenario.join_1 = Some fields ->
        exists message,
          snd (SocketHandler.on_join_shipment (Ret Scenario.one_shipment) ∅
                 Scenario.other_driver (Some Scenario.join_1))
          = Ret (SocketHandler.ErrorReply message))
  /\ (forall k,
        (SocketHandler.socket_id Scenario.other_driver, k) ∉ (∅ : SocketHandler.Rooms) ->
        SocketHandler.socket_id Scenario.other_driver
        ∉ SocketHandler.recipients
            (fst (SocketHandler.on_join_shipment (Ret Scenario.one_shipment) ∅
                    Scenario.other_driver (Some Scenario.join_1))) k).
Proof.
  apply (C9_denied_subscribe_adds_no_membership (Ret Scenario.one_shipment) ∅
           Scenario.other_driver (Some Scenario.join_1)).
  apply DeniedPayload.
  apply (CallerRefused _ _ _ Scenario.one_shipment 1
           (ShipmentModel.mkShipment 1 2 (Some 7) "pending")); reflexivity.
Defined.

(** C9, as stated, fails: an administrator who belongs to no organization
    is neither the assigned courier nor an administrator of the shipment's
    organization, yet the handler lets the connection into the room and the
    shipment's publishes reach it. *)
Lemma C9_administrator_without_organization_joins :
  SocketHandler.entitled (SocketHandler.socket_user Scenario.admin_without_organization)
    (ShipmentModel.mkShipment 1 2 (Some 7) "pending") = false
  /\ snd (SocketHandler.on_join_shipment (Ret Scenario.one_shipment) ∅
            Scenario.admin_without_organization (Some Scenario.join_1))
     = Ret (SocketHandler.JoinedShipment 1)
  /\ elements (SocketHandler.recipients
                 (fst (SocketHandler.on_join_shipment (Ret Scenario.one_shipment) ∅
                         Scenario.admin_without_organization (Some Scenario.join_1))) 1)
     = ["s1"].
Proof.
  split; [reflexivity |]. split; [reflexivity |]. vm_compute. reflexivity.
Qed.
(** ** The pending to in_transit transition *)

Section LatestInserted.

Import TrackingLocationModel.

Lemma keep_later_from (rows : list Location) (b : Location) :
  exists l,
    fold_left keep_later rows (Some b) = Some l
    /\ (l = b \/ In l rows)
    /\ (recorded_at b <= recorded_at l)%Z
    /\ Forall (fun l' => (recorded_at l' <= recorded_at l)%Z) rows.
Proof.
  revert b. induction rows as [| x rows IH]; intros b; cbn [fold_left].
  - exists b. repeat split; [left; reflexivity | lia | constructor].
  - unfold keep_later at 2. destruct (Z.leb_spec (recorded_at b) (recorded_at x)) as [Hle | Hlt].
    + destruct (IH x) as (l & Hl & Hin & Hx & Hall). exists l.
      split; [exact Hl |]. split; [right; destruct Hin; [left; congruence | right; assumption] |].
      split; [lia |]. constructor; [exact Hx | exact Hall].
    + destruct (IH b) as (l & Hl & Hin & Hb & Hall). exists l.
      split; [exact Hl |]. split; [destruct Hin; [left | right; right]; assumption |].
      split; [exact Hb |]. constructor; [lia | exact Hall].
Qed.

(** The row inserted last among the latest is an answer the store may give. *)
Lemma latest_inserted_is_latest : latest_of latest_inserted.
Proof.
  intros rows. unfold latest_inserted.
  destruct rows as [| x rows]; [reflexivity |]. cbn [fold_left keep_later].
  destruct (keep_later_from rows x) as (l & Hl & Hin & Hx & Hall). rewrite Hl.
  split.
  - destruct Hin; [left; congruence | right; assumption].
  - constructor; assumption.
Qed.

End LatestInserted.

Section OneCallAtATime.

Import ShipmentModel TrackingLocationModel TrackingController.

Variable parseNumber : string -> option Q.
Variable pick_latest : list Location -> option Location.
Hypothesis pick_is_latest : latest_of pick_latest.

Lemma findById_lookup (table : gmap Z Shipment) (req : Request) (s : Shipment) :
  findById table (field (body req) "shipment_id") None None = Some s ->
  table !! shipment_key req = Some s.
Proof.
  unfold findById, shipment_key.
  destruct (as_integer (field (body req) "shipment_id")) as [k |]; [| discriminate].
  cbn. destruct (table !! k); congruence.
Qed.

Lemma of_shipment_app (key : Z) (rows : list Location) (l : Location) :
  of_shipment key (rows ++ [l])
  = (of_shipment key rows ++ if Z.eqb (shipment_id l) key then [l] else [])%list.
Proof.
  unfold of_shipment. rewrite List.filter_app. cbn [List.filter].
  destruct (Z.eqb (shipment_id l) key); reflexivity.
Qed.

Lemma lookup_set_status (table : gmap Z Shipment) (key key' : Z) (new_status : string) :
  set_status table key' new_status !! key
  = if Z.eqb key' key
    then option_map (fun s => mkShipment (ShipmentModel.id s) (driver_id s)
                                (organization_id s) new_status) (table !! key)
    else table !! key.
Proof.
  unfold set_status. destruct (Z.eqb_spec key' key) as [-> | Hne].
  - destruct (table !! key) as [s |] eqn:Hs; cbn [option_map].
    + apply lookup_insert_eq.
    + exact Hs.
  - destruct (table !! key'); [apply lookup_insert_ne; exact Hne | reflexivity].
Qed.

(** What the emissions add to the journal is no write of a status. *)
Lemma transitions_emissions (key : Z) (req : Request) (s : Shipment) (isFirstUpdate : bool)
    (w : World) (rows : list Location) (next : Z) :
  transitions key
    (mkWorld (shipments w) rows next
       (emissions req s isFirstUpdate ++ TimestampTouched (shipment_key req) :: journal w))
  = transitions key w.
Proof.
  unfold transitions, emissions. cbn [journal]. rewrite List.filter_app.
  destruct (socketHandler req); [| reflexivity].
  destruct (isFirstUpdate && String.eqb (status s) "pending"); reflexivity.
Qed.

Lemma steps_S (n : nat) (req : Request) (w : World) (pc : Pc) :
  steps parseNumber pick_latest (S n) req w pc
  = steps parseNumber pick_latest n req
      (fst (step parseNumber pick_latest req w pc))
      (snd (step parseNumber pick_latest req w pc)).
Proof.
  cbn [steps]. destruct (step parseNumber pick_latest req w pc); reflexivity.
Qed.

Lemma steps_responded (n : nat) (req : Request) (w : World) (r : Response) :
  steps parseNumber pick_latest n req w (Responded r) = (w, Responded r).
Proof.
  induction n as [| n IH]; [reflexivity |]. rewrite steps_S. cbn [step fst snd]. exact IH.
Qed.

Lemma updateLocation_served (req : Request) (w : World) :
  Served req w (fst (updateLocation parseNumber pick_latest req w)).
Proof.
  unfold updateLocation. rewrite steps_S. cbn [step].
  destruct (middleware parseNumber req); cbn [fst snd];
    [| rewrite steps_responded; apply Turned_away].
  rewrite steps_S. cbn [step fst snd]. unfold after_findById.
  destruct (findById (shipments w) (field (body req) "shipment_id") None None)
    as [s |] eqn:Hfound; [| rewrite steps_responded; apply Turned_away].
  apply findById_lookup in Hfound.
  destruct (String.eqb (role (user req)) "driver"
            && negb (Z.eqb (driver_id s) (user_id (user req))));
    [rewrite steps_responded; apply Turned_away |].
  destruct (String.eqb (role (user req)) "admin" && truthy_id (organizationId (user req))
            && truthy_id (organization_id s)
            && id_differs (organization_id s) (organizationId (user req)));
    [rewrite steps_responded; apply Turned_away |].
  destruct (isValidLatitude (field (body req) "latitude")
            && isValidLongitude (field (body req) "longitude"));
    [| rewrite steps_responded; apply Turned_away].
  rewrite steps_S. cbn [step fst snd].
  set (l := mkLocation (next_insert_id w) (shipment_key req) (field (body req) "latitude")
              (field (body req) "longitude") (or_null (field (body req) "accuracy"))
              (or_null (field (body req) "speed")) (at_time req)).
  rewrite steps_S. cbn [step fst snd]. unfold after_latest, getLatestByShipment.
  cbn [tracking_locations].
  pose proof (pick_is_latest (of_shipment (shipment_key req) (tracking_locations w ++ [l])))
    as Hpick.
  rewrite of_shipment_app in Hpick |- *.
  replace (Z.eqb (shipment_id l) (shipment_key req)) with true in Hpick |- *
    by (symmetry; apply Z.eqb_refl).
  destruct (String.eqb_spec (status s) "pending") as [Hpending | Hother].
  - destruct (of_shipment (shipment_key req) (tracking_locations w)) as [| l0 rows0] eqn:Hrows.
    + (* the first sample of the shipment: the latest row is the one just inserted *)
      cbn [app] in Hpick |- *.
      destruct (pick_latest [l]) as [l' |]; [| discriminate].
      destruct Hpick as [[<- | []] _]. rewrite Z.eqb_refl. cbn [andb].
      rewrite steps_S. cbn [step fst snd]. rewrite steps_responded. cbn [fst].
      apply (Stored_and_moved req w s l); [exact Hfound | exact Hpending | reflexivity].
    + (* not the first sample *)
      destruct (match pick_latest ((l0 :: rows0) ++ [l]) with
                | Some l' => Z.eqb (TrackingLocationModel.id l') (TrackingLocationModel.id l)
                | None => false
                end); cbn [andb].
      * rewrite steps_S. cbn [step fst snd]. rewrite steps_responded. cbn [fst].
        apply (Stored_and_moved req w s l); [exact Hfound | exact Hpending | reflexivity].
      * rewrite steps_S. cbn [step fst snd]. rewrite steps_responded. cbn [fst].
        apply (Stored req w s l);
          [exact Hfound | reflexivity | intros _; rewrite Hrows; discriminate
          | reflexivity | reflexivity |].
        intros key. apply (transitions_emissions key req s false
                             (mkWorld (shipments w) (tracking_locations w ++ [l])
                                (next_insert_id w + 1) (journal w))).
  - rewrite andb_false_r.
    rewrite steps_S. cbn [step fst snd]. rewrite steps_responded. cbn [fst].
    apply (Stored req w s l);
      [exact Hfound | reflexivity | intros Hp; contradiction | reflexivity | reflexivity |].
    intros key.
    match goal with
    | |- transitions key (mkWorld _ _ _ (emissions _ _ ?f ++ _)) = _ =>
        apply (transitions_emissions key req s f
                 (mkWorld (shipments w) (tracking_locations w ++ [l])
                    (next_insert_id w + 1) (journal w)))
    end.
Qed.


Lemma transitions_status_written (key key' : Z) (w : World) (rows : list Location)
    (next : Z) (table : gmap Z Shipment) :
  transitions key (mkWorld table rows next (StatusWritten key' "in_transit" :: journal w))
  = ((if Z.eqb key' key then 1 else 0) + transitions key w)%nat.
Proof.
  unfold transitions. cbn [journal List.filter is_transition].
  destruct (Z.eqb key' key); reflexivity.
Qed.

(** A call leaves a shipment in one of its two states. *)
Lemma served_keeps_state (key : Z) (req : Request) (w w' : World) :
  Served req w w' ->
  awaiting_first_sample key w \/ in_transit_once key w ->
  awaiting_first_sample key w' \/ in_transit_once key w'.
Proof.
  intros Hserved Hstate.
  destruct Hserved as [| s l Hs Hpending Hl | s l w' Hs Hl Hnot_first Hsame Hrows Htrans];
    [exact Hstate | |].
  - (* the sample is stored and the status is written *)
    destruct (Z.eqb_spec (shipment_key req) key) as [Hkey | Hkey].
    + right. rewrite Hkey in *.
      destruct Hstate as [((s0 & Hs0 & _) & Hnone & Hzero) | ((s0 & Hs0 & Hst) & _)].
      * unfold in_transit_once. cbn [shipments tracking_locations].
        rewrite lookup_set_status, Z.eqb_refl, Hs0, of_shipment_app, Hnone, Hl, Z.eqb_refl.
        rewrite transitions_status_written, Z.eqb_refl, Hzero.
        split; [eexists; split; reflexivity |]. split; [discriminate | reflexivity].
      * rewrite Hs in Hs0. injection Hs0 as <-. rewrite Hpending in Hst. discriminate.
    + assert (Hne : Z.eqb (shipment_key req) key = false) by (apply Z.eqb_neq; exact Hkey).
      unfold awaiting_first_sample, in_transit_once in *.
      cbn [shipments tracking_locations].
      rewrite lookup_set_status, Hne, of_shipment_app, Hl, Hne, app_nil_r.
      rewrite transitions_status_written, Hne. exact Hstate.
  - (* the sample is stored and the status is left alone *)
    unfold awaiting_first_sample, in_transit_once in *.
    rewrite Hsame, Hrows, Htrans, of_shipment_app, Hl.
    destruct (Z.eqb_spec (shipment_key req) key) as [Hkey | Hkey].
    + rewrite Hkey in *. right.
      destruct Hstate as [((s0 & Hs0 & Hst) & Hnone & _) | (Hsome & _ & Hone)].
      * rewrite Hs in Hs0. injection Hs0 as <-. destruct (Hnot_first Hst Hnone).
      * split; [exact Hsome |]. split; [| exact Hone].
        destruct (of_shipment key (tracking_locations w)); discriminate.
    + rewrite app_nil_r. exact Hstate.
Qed.

Lemma serve_in_turn_keeps_state (key : Z) (reqs : list Request) (w : World) :
  awaiting_first_sample key w \/ in_transit_once key w ->
  awaiting_first_sample key (serve_in_turn parseNumber pick_latest reqs w)
  \/ in_transit_once key (serve_in_turn parseNumber pick_latest reqs w).
Proof.
  unfold serve_in_turn. revert w. induction reqs as [| req reqs IH]; intros w Hstate.
  - exact Hstate.
  - cbn [fold_left]. apply IH.
    exact (served_keeps_state key req w _ (updateLocation_served req w) Hstate).
Qed.

End OneCallAtATime.

(** C1 (amended).  When the calls for a shipment are served one after the
    other, starting from a pending shipment with no sample stored, the
    status is written to in_transit at most once: after any number of calls
    the shipment is either still pending with no sample stored and no
    transition written, or in transit with a sample stored and the
    transition written exactly once.  So the transition is written by the
    call that stores the first sample and by no later one.  The check reads
    the status before the insert and the latest row after it. *)
Theorem C1_one_transition_when_served_in_turn :
  forall (parseNumber : string -> option Q)
         (pick_latest : list TrackingLocationModel.Location
                        -> option TrackingLocationModel.Location)
         (key : Z) (w : TrackingController.World)
         (reqs : list TrackingController.Request),
    TrackingLocationModel.latest_of pick_latest ->
    awaiting_first_sample key w ->
    awaiting_first_sample key
      (TrackingController.serve_in_turn parseNumber pick_latest reqs w)
    \/ in_transit_once key
         (TrackingController.serve_in_turn parseNumber pick_latest reqs w).
Proof.
  intros parseNumber pick_latest key w reqs Hpick Hfresh.
  apply serve_in_turn_keeps_state; [exact Hpick | left; exact Hfresh].
Qed.

Lemma fresh_world_awaits : awaiting_first_sample 1 Scenario.fresh_world.
Proof.
  split; [eexists; split; reflexivity |]. split; reflexivity.
Qed.

(** Three calls with the same first sample, served in turn. *)
Lemma C1_three_calls_in_turn :
  awaiting_first_sample 1
    (TrackingController.serve_in_turn Scenario.no_numeric_text
       TrackingLocationModel.latest_inserted
       [Scenario.first_sample; Scenario.first_sample_again; Scenario.first_sample_again]
       Scenario.fresh_world)
  \/ in_transit_once 1
       (TrackingController.serve_in_turn Scenario.no_numeric_text
          TrackingLocationModel.latest_inserted
          [Scenario.first_sample; Scenario.first_sample_again; Scenario.first_sample_again]
          Scenario.fresh_world).
Proof.
  apply (C1_one_transition_when_served_in_turn Scenario.no_numeric_text
           TrackingLocationModel.latest_inserted 1 Scenario.fresh_world
           [Scenario.first_sample; Scenario.first_sample_again; Scenario.first_sample_again]).
  - exact latest_inserted_is_latest.
  - exact fresh_world_awaits.
Defined.

(** C1, as stated, fails when two calls with the first sample are in
    flight together: each reads the shipment as pending, stores its row and
    finds that row to be the latest before the other writes the status, so
    the status is written to in_transit twice.  (The second row is recorded
    a second after the first, so it is the latest whatever the store does
    with rows of the same second.) *)
Lemma C1_two_calls_in_flight_write_twice :
  TrackingController.transitions 1
    (fst (TrackingController.interleave Scenario.no_numeric_text
            TrackingLocationModel.latest_inserted
            [0; 0; 0; 0; 1; 1; 1; 1; 0; 1]%nat Scenario.fresh_world
            [(Scenario.first_sample, TrackingController.Received);
             (Scenario.first_sample_again, TrackingController.Received)])) = 2%nat
  /\ map snd
       (snd (TrackingController.interleave Scenario.no_numeric_text
               TrackingLocationModel.latest_inserted
               [0; 0; 0; 0; 1; 1; 1; 1]%nat Scenario.fresh_world
               [(Scenario.first_sample, TrackingController.Received);
                (Scenario.first_sample_again, TrackingController.Received)]))
     = [TrackingController.AwaitUpdateStatus
          (ShipmentModel.mkShipment 1 7 None "pending")
          (TrackingLocationModel.mkLocation 1 1 (JNum 28.6139) (JNum 77.2090)
             JNull JNull 100) true;
        TrackingController.AwaitUpdateStatus
          (ShipmentModel.mkShipment 1 7 None "pending")
          (TrackingLocationModel.mkLocation 2 1 (JNum 28.6139) (JNum 77.2090)
             JNull JNull 101) true].
Proof.
  split; vm_compute; reflexivity.
Qed.

(** ** The analyzers of the recommendation engine *)



Lemma Reqb_eq (x y : R) : Num.Reqb x y = true <-> x = y.
Proof.
  unfold Num.Reqb. destruct (Req_dec_T x y); split; intros; try reflexivity;
    try assumption; try discriminate; contradiction.
Qed.

(** Decide the comparisons of concrete reals that stand in the goal. *)
Ltac decide_real_comparison :=
  match goal with
  | |- context [Rlt_dec ?a ?b] =>
      first
        [ let H := fresh in
          assert (H : (a < b)%R) by lra;
          destruct (Rlt_dec a b); [clear H | contradiction]
        | let H := fresh in
          assert (H : ~ (a < b)%R) by lra;
          destruct (Rlt_dec a b); [contradiction | clear H] ]
  | |- context [Rle_dec ?a ?b] =>
      first
        [ let H := fresh in
          assert (H : (a <= b)%R) by lra;
          destruct (Rle_dec a b); [clear H | contradiction]
        | let H := fresh in
          assert (H : ~ (a <= b)%R) by lra;
          destruct (Rle_dec a b); [contradiction | clear H] ]
  | |- context [Req_dec_T ?a ?b] =>
      first
        [ let H := fresh in
          assert (H : a = b) by lra;
          destruct (Req_dec_T a b); [clear H | contradiction]
        | let H := fresh in
          assert (H : a <> b) by lra;
          destruct (Req_dec_T a b); [contradiction | clear H] ]
  end.

Ltac decide_reals := repeat decide_real_comparison.








Lemma severity_choice (b : bool) :
  In (if b then RecommendationService.HIGH else RecommendationService.MEDIUM)
    RecommendationService.spec_severities.
Proof.
  destruct b; cbn; tauto.
Qed.

Lemma produced_in_enumerations (r : Recommendation) :
  Produced r ->
  In (type r) RecommendationService.engine_types
  /\ In (severity r) RecommendationService.spec_severities.
Proof.
  intros [shipment current history H | env shipment history H | current history H
         | env current history H | location H].
  - unfold RecommendationService.analyzeRouteDeviation in H.
    destruct shipment as [s |]; [| discriminate].
    destruct history as [| start [| second rest]]; try discriminate.
    destruct (RecommendationService.calculateDeviation start (destination_address s) current)
      as [deviation | e]; [| discriminate].
    cbn in H. destruct (Num.gt deviation 1000); [| discriminate].
    injection H as <-. split; [cbn; tauto | apply severity_choice].
  - unfold RecommendationService.analyzeDelayProbability in H.
    destruct shipment as [s |]; [| discriminate].
    destruct (length history <? 5)%nat; [discriminate |].
    match type of H with
    | (if Num.gt ?d 30 then _ else _) = _ => destruct (Num.gt d 30); [| discriminate]
    end.
    injection H as <-. split; [cbn; tauto | apply severity_choice].
  - unfold RecommendationService.analyzeSpeedPatterns in H.
    destruct (length history <? 10)%nat; [discriminate |].
    destruct (recent_speeds _ history) as [| v vs]; [discriminate |].
    match type of H with
    | (if ?c then _ else _) = _ => destruct c; [| discriminate]
    end.
    injection H as <-. split; cbn; tauto.
  - unfold RecommendationService.analyzeIdleTime in H.
    destruct (length history <? 5)%nat; [discriminate |].
    destruct (List.filter _ history) as [| first rest]; [discriminate |].
    match type of H with
    | (if ?c then _ else _) = _ => destruct c; [| discriminate]
    end.
    injection H as <-. split; cbn; tauto.
  - unfold RecommendationService.analyzeGPSAccuracy in H.
    match type of H with
    | (if ?c then _ else _) = _ => destruct c; [| discriminate]
    end.
    injection H as <-. split; [cbn; tauto | apply severity_choice].
Qed.

Lemma in_push (x : option Recommendation) (l : list Recommendation) (r : Recommendation) :
  In r (RecommendationService.push x l) -> In r l \/ x = Some r.
Proof.
  unfold RecommendationService.push. destruct x as [r' |]; [| tauto].
  intros H. apply in_app_or in H as [H | [-> | []]]; tauto.
Qed.

(** Whatever the engine returns for an event was produced by an analyzer. *)
Lemma engine_advisories_are_produced (env : Env) (shipmentId : jsval) (locationData : Sample)
    (r : Recommendation) :
  In r (RecommendationService.analyzeTrackingData env shipmentId locationData) ->
  Produced r.
Proof.
  unfold RecommendationService.analyzeTrackingData,
    RecommendationService.analyzeTrackingData_try, try_catch.
  destruct (getShipmentById env shipmentId) as [shipment | e]; [| intros []].
  destruct (getTrackingData env shipmentId) as [history | e]; [| intros []]. cbn.
  destruct (RecommendationService.analyzeRouteDeviation shipment locationData history)
    as [deviation | e] eqn:Hdev; [| intros []]. cbn.
  intros H.
  apply in_push in H as [H | H]; [| exact (ByGPSAccuracy r _ H)].
  apply in_push in H as [H | H]; [| exact (ByIdleTime r _ _ _ H)].
  apply in_push in H as [H | H]; [| exact (BySpeedPatterns r _ _ H)].
  apply in_push in H as [H | H]; [| exact (ByDelayProbability r _ _ _ H)].
  apply in_push in H as [[] | H]. subst deviation.
  exact (ByRouteDeviation r _ _ _ Hdev).
Qed.

(** C7 (amended).  Every advisory an analyzer produces, and so every
    advisory the engine returns, has its type among route_change,
    delay_alert, performance, idle_alert and gps_warning, and its severity
    among low, medium and high. *)
Theorem C7_advisory_type_and_severity :
  forall r : Recommendation,
    Produced r
    \/ (exists env shipmentId locationData,
          In r (RecommendationService.analyzeTrackingData env shipmentId locationData)) ->
    In (type r) ["route_change"; "delay_alert"; "performance"; "idle_alert"; "gps_warning"]
    /\ In (severity r) ["low"; "medium"; "high"].
Proof.
  intros r [H | (env & shipmentId & locationData & H)].
  - exact (produced_in_enumerations r H).
  - exact (produced_in_enumerations r (engine_advisories_are_produced _ _ _ r H)).
Qed.

Lemma poor_fix_warning :
  RecommendationService.analyzeGPSAccuracy Scenario.poor_fix
  = Some (mkRecommendation "gps_warning" "medium" [("accuracy_meters", 5000%R)]).
Proof.
  unfold RecommendationService.analyzeGPSAccuracy, Scenario.poor_fix. cbn.
  unfold Num.Rltb, Num.Reqb. decide_reals. reflexivity.
Qed.

(** The advisory for an accuracy of 5000 is a gps_warning of severity medium. *)
Lemma C7_gps_warning_in_enumerations :
  In (type (mkRecommendation "gps_warning" "medium" [("accuracy_meters", 5000%R)]))
    ["route_change"; "delay_alert"; "performance"; "idle_alert"; "gps_warning"]
  /\ In (severity (mkRecommendation "gps_warning" "medium" [("accuracy_meters", 5000%R)]))
       ["low"; "medium"; "high"].
Proof.
  apply C7_advisory_type_and_severity. left.
  exact (ByGPSAccuracy _ Scenario.poor_fix poor_fix_warning).
Defined.

(** C7, as stated, fails: at 1 m/s after ten samples at 10 m/s the speed
    analyzer fires, and the type of its advisory is performance, which is
    none of route_deviation, delay_alert, speed_pattern, idle_alert and
    gps_warning.  (The deviation analyzer writes route_change.) *)
Lemma C7_speed_advisory_type_is_performance :
  (exists details,
      RecommendationService.analyzeSpeedPatterns Scenario.crawling Scenario.cruising
      = Some (mkRecommendation "performance" "low" details))
  /\ ~ In "performance" RecommendationService.spec_types
  /\ ~ In RecommendationService.ROUTE_DEVIATION RecommendationService.spec_types.
Proof.
  split.
  - eexists. unfold RecommendationService.analyzeSpeedPatterns, Scenario.crawling,
      Scenario.cruising, Scenario.standing, recent_speeds. cbn.
    unfold Num.Rltb, Num.Reqb. decide_reals. cbn.
    unfold Num.Rltb, Num.sum. cbn. decide_reals. reflexivity.
  - split; cbn; intros H; repeat destruct H as [H | H]; try discriminate; exact H.
Qed.

(** ** Great-circle distance *)

Section Geometry.

Local Open Scope R_scope.

Lemma half_angle_asin (a : R) : 0 <= a <= 1 -> half_angle a = asin (sqrt a).
Proof.
  intros [H0 H1]. unfold half_angle, Num.atan2.
  destruct (Req_dec a 1) as [-> | Hne].
  - replace (1 - 1) with 0 by lra. rewrite sqrt_0, sqrt_1, asin_1.
    destruct (Rlt_dec 0 0); [lra |]. destruct (Rlt_dec 0 0); [lra |].
    destruct (Rlt_dec 0 1); [reflexivity | lra].
  - assert (Hpos : 0 < 1 - a) by lra.
    assert (Hs : 0 < sqrt (1 - a)) by (apply sqrt_lt_R0; exact Hpos).
    destruct (Rlt_dec 0 (sqrt (1 - a))); [| lra].
    assert (Hlt : sqrt a < 1).
    { rewrite <- sqrt_1. apply sqrt_lt_1; lra. }
    pose proof (sqrt_pos a) as Hge.
    rewrite asin_atan by lra.
    unfold Rsqr. rewrite sqrt_sqrt by exact H0. reflexivity.
Qed.

Lemma half_angle_bounds (a : R) : 0 <= a <= 1 -> 0 <= half_angle a <= PI / 2.
Proof.
  intros Ha. rewrite half_angle_asin by exact Ha.
  assert (Hs : 0 <= sqrt a <= 1).
  { split; [apply sqrt_pos |]. rewrite <- sqrt_1. apply sqrt_le_1; lra. }
  split; [| apply asin_bound].
  destruct (Rle_dec 0 (asin (sqrt a))) as [Hge | Hneg]; [exact Hge | exfalso].
  pose proof (asin_bound (sqrt a)) as [Hlo _]. pose proof PI_RGT_0 as Hpi.
  assert (Hsin : sin (asin (sqrt a)) < 0) by (apply sin_lt_0_var; lra).
  rewrite sin_asin in Hsin by lra. lra.
Qed.

Lemma sin_half_angle (a : R) : 0 <= a <= 1 -> sin (half_angle a) = sqrt a.
Proof.
  intros Ha. rewrite half_angle_asin by exact Ha. apply sin_asin.
  split; [pose proof (sqrt_pos a); lra |]. rewrite <- sqrt_1. apply sqrt_le_1; lra.
Qed.

Lemma cos_half_angle (a : R) : 0 <= a <= 1 -> cos (half_angle a) = sqrt (1 - a).
Proof.
  intros Ha. rewrite half_angle_asin by exact Ha. rewrite cos_asin.
  - unfold Rsqr. rewrite sqrt_sqrt by lra. reflexivity.
  - split; [pose proof (sqrt_pos a); lra |]. rewrite <- sqrt_1. apply sqrt_le_1; lra.
Qed.

Lemma sin_half_sqr (t : R) : sin (t / 2) * sin (t / 2) = (1 - cos t) / 2.
Proof.
  pose proof (cos_2a_sin (t / 2)) as H. replace (2 * (t / 2)) with t in H by lra. lra.
Qed.

Lemma haversine_a_dot (lat1 lon1 lat2 lon2 : R) :
  haversine_a lat1 lon1 lat2 lon2 = (1 - dot lat1 lon1 lat2 lon2) / 2.
Proof.
  unfold haversine_a, dot, ux, uy, uz, rad.
  rewrite Rmult_assoc. rewrite !sin_half_sqr.
  replace ((lat2 - lat1) * PI / 180) with (lat2 * PI / 180 - lat1 * PI / 180) by lra.
  replace ((lon2 - lon1) * PI / 180) with (lon2 * PI / 180 - lon1 * PI / 180) by lra.
  rewrite !cos_minus. lra.
Qed.

Lemma unit_norm (lat lon : R) :
  ux lat lon * ux lat lon + uy lat lon * uy lat lon + uz lat lon * uz lat lon = 1.
Proof.
  unfold ux, uy, uz.
  pose proof (sin2_cos2 (rad lat)) as H1. pose proof (sin2_cos2 (rad lon)) as H2.
  unfold Rsqr in *. nra.
Qed.

(** Gram's determinant of three unit vectors is a square. *)
Lemma gram_nonneg (x1 y1 z1 x2 y2 z2 x3 y3 z3 : R) :
  x1 * x1 + y1 * y1 + z1 * z1 = 1 ->
  x2 * x2 + y2 * y2 + z2 * z2 = 1 ->
  x3 * x3 + y3 * y3 + z3 * z3 = 1 ->
  let d12 := x1 * x2 + y1 * y2 + z1 * z2 in
  let d23 := x2 * x3 + y2 * y3 + z2 * z3 in
  let d13 := x1 * x3 + y1 * y3 + z1 * z3 in
  0 <= 1 - d12 * d12 - d23 * d23 - d13 * d13 + 2 * d12 * d23 * d13.
Proof.
  intros H1 H2 H3 d12 d23 d13.
  set (t := x1 * (y2 * z3 - z2 * y3) - y1 * (x2 * z3 - z2 * x3) + z1 * (x2 * y3 - y2 * x3)).
  assert (Hid : (x1 * x1 + y1 * y1 + z1 * z1) * (x2 * x2 + y2 * y2 + z2 * z2)
                * (x3 * x3 + y3 * y3 + z3 * z3)
                - (x3 * x3 + y3 * y3 + z3 * z3) * (d12 * d12)
                - (x1 * x1 + y1 * y1 + z1 * z1) * (d23 * d23)
                - (x2 * x2 + y2 * y2 + z2 * z2) * (d13 * d13)
                + 2 * d12 * d23 * d13 = t * t).
  { unfold d12, d23, d13, t. ring. }
  rewrite H1, H2, H3 in Hid.
  pose proof (Rle_0_sqr t) as Ht. unfold Rsqr in Ht. lra.
Qed.

Lemma dot_bounds (x1 y1 z1 x2 y2 z2 : R) :
  x1 * x1 + y1 * y1 + z1 * z1 = 1 ->
  x2 * x2 + y2 * y2 + z2 * z2 = 1 ->
  -1 <= x1 * x2 + y1 * y2 + z1 * z2 <= 1.
Proof.
  intros H1 H2.
  pose proof (Rle_0_sqr (x1 - x2)). pose proof (Rle_0_sqr (y1 - y2)).
  pose proof (Rle_0_sqr (z1 - z2)). pose proof (Rle_0_sqr (x1 + x2)).
  pose proof (Rle_0_sqr (y1 + y2)). pose proof (Rle_0_sqr (z1 + z2)).
  unfold Rsqr in *. lra.
Qed.

(** The triangle inequality of the half angles, from the inequality of
    their sines. *)
Lemma half_angle_triangle (a12 a23 a13 : R) :
  0 <= a12 <= 1 -> 0 <= a23 <= 1 -> 0 <= a13 <= 1 ->
  (a13 - a12 - a23 + 2 * a12 * a23) * (a13 - a12 - a23 + 2 * a12 * a23)
  <= 4 * (a12 * (1 - a12) * (a23 * (1 - a23))) ->
  half_angle a13 <= half_angle a12 + half_angle a23.
Proof.
  intros H12 H23 H13 Hgram.
  pose proof (half_angle_bounds a12 H12) as B12.
  pose proof (half_angle_bounds a23 H23) as B23.
  pose proof (half_angle_bounds a13 H13) as B13.
  destruct (Rle_dec (PI / 2) (half_angle a12 + half_angle a23)) as [Hbig | Hsmall];
    [lra |].
  destruct (Rle_dec (half_angle a13) (half_angle a12 + half_angle a23)) as [Hle | Hgt];
    [exact Hle | exfalso].
  assert (Hsin : sin (half_angle a12 + half_angle a23) < sin (half_angle a13)).
  { apply sin_increasing_1; lra. }
  rewrite sin_plus, !sin_half_angle, !cos_half_angle in Hsin by assumption.
  (* sqrt a12 * sqrt (1 - a23) + sqrt (1 - a12) * sqrt a23 < sqrt a13 *)
  set (p := sqrt a12 * sqrt (1 - a23)) in *.
  set (q := sqrt (1 - a12) * sqrt a23) in *.
  assert (Hp : 0 <= p) by (apply Rmult_le_pos; apply sqrt_pos).
  assert (Hq : 0 <= q) by (apply Rmult_le_pos; apply sqrt_pos).
  assert (Hpp : p * p = a12 * (1 - a23)).
  { unfold p. replace (sqrt a12 * sqrt (1 - a23) * (sqrt a12 * sqrt (1 - a23)))
      with ((sqrt a12 * sqrt a12) * (sqrt (1 - a23) * sqrt (1 - a23))) by ring.
    rewrite !sqrt_sqrt by lra. reflexivity. }
  assert (Hqq : q * q = (1 - a12) * a23).
  { unfold q. replace (sqrt (1 - a12) * sqrt a23 * (sqrt (1 - a12) * sqrt a23))
      with ((sqrt (1 - a12) * sqrt (1 - a12)) * (sqrt a23 * sqrt a23)) by ring.
    rewrite !sqrt_sqrt by lra. reflexivity. }
  assert (Hs13 : sqrt a13 * sqrt a13 = a13) by (apply sqrt_sqrt; lra).
  pose proof (sqrt_pos a13) as Hs13pos.
  (* squaring: (p + q)^2 < a13 *)
  assert (Hsq : (p + q) * (p + q) < a13).
  { rewrite <- Hs13. apply Rmult_le_0_lt_compat; lra. }
  (* so 2 p q < a13 - a12 - a23 + 2 a12 a23 =: D, with D > 0 and D^2 > 4 p^2 q^2 *)
  set (D := a13 - a12 - a23 + 2 * a12 * a23) in *.
  assert (HD : 2 * (p * q) < D) by (unfold D; nra).
  assert (Hpq : 0 <= p * q) by (apply Rmult_le_pos; assumption).
  assert (HDD : (2 * (p * q)) * (2 * (p * q)) < D * D).
  { apply Rmult_le_0_lt_compat; lra. }
  assert (H4 : (2 * (p * q)) * (2 * (p * q)) = 4 * (a12 * (1 - a12) * (a23 * (1 - a23)))).
  { replace (2 * (p * q) * (2 * (p * q))) with (4 * ((p * p) * (q * q))) by ring.
    rewrite Hpp, Hqq. ring. }
  lra.
Qed.

Lemma haversine_a_bounds (lat1 lon1 lat2 lon2 : R) :
  0 <= haversine_a lat1 lon1 lat2 lon2 <= 1.
Proof.
  rewrite haversine_a_dot. unfold dot.
  pose proof (dot_bounds _ _ _ _ _ _ (unit_norm lat1 lon1) (unit_norm lat2 lon2)). lra.
Qed.

Lemma haversine_half_angle_triangle (lat1 lon1 lat2 lon2 lat3 lon3 : R) :
  half_angle (haversine_a lat1 lon1 lat3 lon3)
  <= half_angle (haversine_a lat1 lon1 lat2 lon2)
     + half_angle (haversine_a lat2 lon2 lat3 lon3).
Proof.
  apply half_angle_triangle; try apply haversine_a_bounds.
  rewrite !haversine_a_dot. unfold dot.
  pose proof (gram_nonneg _ _ _ _ _ _ _ _ _ (unit_norm lat1 lon1) (unit_norm lat2 lon2)
                (unit_norm lat3 lon3)) as Hg. cbv zeta in Hg.
  set (d12 := ux lat1 lon1 * ux lat2 lon2 + uy lat1 lon1 * uy lat2 lon2
              + uz lat1 lon1 * uz lat2 lon2) in *.
  set (d23 := ux lat2 lon2 * ux lat3 lon3 + uy lat2 lon2 * uy lat3 lon3
              + uz lat2 lon2 * uz lat3 lon3) in *.
  set (d13 := ux lat1 lon1 * ux lat3 lon3 + uy lat1 lon1 * uy lat3 lon3
              + uz lat1 lon1 * uz lat3 lon3) in *.
  nra.
Qed.


Lemma distance_half_angle (p q : Sample) :
  RouteAnalysisService.distance p q
  = 6371000 * (2 * half_angle (haversine_a (latitude p) (longitude p)
                                 (latitude q) (longitude q))).
Proof.
  reflexivity.
Qed.

Lemma distance_nonneg (p q : Sample) : 0 <= RouteAnalysisService.distance p q.
Proof.
  rewrite distance_half_angle.
  pose proof (half_angle_bounds _ (haversine_a_bounds (latitude p) (longitude p)
                                     (latitude q) (longitude q))).
  lra.
Qed.

Lemma distance_triangle (p q r : Sample) :
  RouteAnalysisService.distance p r
  <= RouteAnalysisService.distance p q + RouteAnalysisService.distance q r.
Proof.
  rewrite !distance_half_angle.
  pose proof (haversine_half_angle_triangle (latitude p) (longitude p)
                (latitude q) (longitude q) (latitude r) (longitude r)).
  lra.
Qed.

Lemma distance_sym (p q : Sample) :
  RouteAnalysisService.distance p q = RouteAnalysisService.distance q p.
Proof.
  rewrite !distance_half_angle, !haversine_a_dot.
  replace (dot (latitude q) (longitude q) (latitude p) (longitude p))
    with (dot (latitude p) (longitude p) (latitude q) (longitude q))
    by (unfold dot; ring).
  reflexivity.
Qed.

Lemma half_angle_0 : half_angle 0 = 0.
Proof.
  rewrite half_angle_asin by lra. rewrite sqrt_0. apply asin_0.
Qed.

Lemma distance_self (p : Sample) : RouteAnalysisService.distance p p = 0.
Proof.
  rewrite distance_half_angle.
  assert (Ha : haversine_a (latitude p) (longitude p) (latitude p) (longitude p) = 0).
  { rewrite haversine_a_dot. unfold dot. rewrite unit_norm. lra. }
  rewrite Ha, half_angle_0. lra.
Qed.

(** Two points whose vectors are orthogonal are a quarter of a great
    circle apart. *)
Lemma distance_quarter (p q : Sample) :
  dot (latitude p) (longitude p) (latitude q) (longitude q) = 0 ->
  RouteAnalysisService.distance p q = 6371000 * (PI / 2).
Proof.
  intros Hdot. rewrite distance_half_angle, haversine_a_dot, Hdot.
  replace ((1 - 0) / 2) with (1 / 2) by lra.
  rewrite half_angle_asin by lra.
  replace (sqrt (1 / 2)) with (/ sqrt 2).
  - rewrite asin_inv_sqrt2. lra.
  - rewrite sqrt_div_alt by lra. rewrite sqrt_1. unfold Rdiv. symmetry. apply Rmult_1_l.
Qed.

Lemma rad_0 : rad 0 = 0.
Proof.
  unfold rad. lra.
Qed.

Lemma rad_90 : rad 90 = PI / 2.
Proof.
  unfold rad. lra.
Qed.

Lemma origin_east : RouteAnalysisService.distance Scenario.origin Scenario.east
                    = 6371000 * (PI / 2).
Proof.
  apply distance_quarter. unfold dot, ux, uy, uz. cbn.
  rewrite rad_0, rad_90, cos_0, sin_0, cos_PI2, sin_PI2. lra.
Qed.

Lemma east_pole : RouteAnalysisService.distance Scenario.east Scenario.pole
                  = 6371000 * (PI / 2).
Proof.
  apply distance_quarter. unfold dot, ux, uy, uz. cbn.
  rewrite rad_0, rad_90, cos_0, sin_0, cos_PI2, sin_PI2. lra.
Qed.

Lemma origin_pole : RouteAnalysisService.distance Scenario.origin Scenario.pole
                    = 6371000 * (PI / 2).
Proof.
  apply distance_quarter. unfold dot, ux, uy, uz. cbn.
  rewrite rad_0, rad_90, cos_0, sin_0, cos_PI2, sin_PI2. lra.
Qed.

(** *** The travelled distance of a trip *)

Lemma total_from_acc (acc : R) (prev : Sample) (rest : list Sample) :
  RouteAnalysisService.total_from acc prev rest
  = acc + RouteAnalysisService.total_from 0 prev rest.
Proof.
  revert acc prev. induction rest as [| curr rest IH]; intros acc prev; cbn.
  - lra.
  - rewrite (IH (acc + _)), (IH (0 + _)). lra.
Qed.

Lemma total_is_consecutive_sum (trackingData : list Sample) :
  RouteAnalysisService.calculateTotalDistance trackingData = consecutive_sum trackingData.
Proof.
  destruct trackingData as [| prev rest]; [reflexivity |].
  unfold RouteAnalysisService.calculateTotalDistance.
  revert prev. induction rest as [| curr rest IH]; intros prev; [reflexivity |].
  change (consecutive_sum (prev :: curr :: rest))
    with (RouteAnalysisService.distance prev curr + consecutive_sum (curr :: rest)).
  cbn [RouteAnalysisService.total_from].
  rewrite total_from_acc, IH. lra.
Qed.

Lemma total_nonneg (prev : Sample) (rest : list Sample) :
  0 <= RouteAnalysisService.total_from 0 prev rest.
Proof.
  revert prev. induction rest as [| curr rest IH]; intros prev; cbn; [lra |].
  rewrite total_from_acc. pose proof (distance_nonneg prev curr). pose proof (IH curr). lra.
Qed.

Lemma last_default (prev curr : Sample) (rest : list Sample) :
  default prev (last (prev :: curr :: rest)) = default curr (last (curr :: rest)).
Proof.
  change (last (prev :: curr :: rest)) with (last (curr :: rest)).
  revert curr. induction rest as [| next rest IH]; intros curr; [reflexivity |].
  change (last (curr :: next :: rest)) with (last (next :: rest)).
  destruct (last (next :: rest)) eqn:Hlast; [reflexivity |].
  exfalso. clear IH. revert next Hlast. induction rest as [| x rest IH]; intros next Hlast.
  - discriminate.
  - change (last (next :: x :: rest)) with (last (x :: rest)) in Hlast. exact (IH x Hlast).
Qed.

(** The direct distance from the first to the last sample is at most the
    travelled distance. *)
Lemma direct_le_total (prev : Sample) (rest : list Sample) :
  RouteAnalysisService.distance prev (default prev (last (prev :: rest)))
  <= RouteAnalysisService.total_from 0 prev rest.
Proof.
  revert prev. induction rest as [| curr rest IH]; intros prev.
  - cbn. rewrite distance_self. lra.
  - rewrite last_default. cbn [RouteAnalysisService.total_from].
    rewrite total_from_acc.
    pose proof (distance_triangle prev curr (default curr (last (curr :: rest)))).
    pose proof (IH curr). lra.
Qed.

End Geometry.

(** The loop of [calculateTotalDistance] sums the distances of consecutive
    samples in order, in the arithmetic of the engine too. *)
Lemma total_from_sums_in_order (m : Double.Math) (acc : PrimFloat.float)
    (prev : Double.Sample) (rest : list Double.Sample) :
  Double.RouteAnalysisService.total_from m acc prev rest
  = fold_left PrimFloat.add (segments m (prev :: rest)) acc.
Proof.
  revert acc prev. induction rest as [| curr rest IH]; intros acc prev; [reflexivity |].
  cbn [Double.RouteAnalysisService.total_from]. rewrite IH. reflexivity.
Qed.

(** C6 (amended).  For a trip of at least two samples the route
    efficiency is the great-circle distance from the first to the last
    sample divided by the sum of the distances of consecutive samples; in
    the arithmetic of the engine it is that quotient of the rounded
    distances, summed in order, whatever the sines, cosines and arc
    tangents of the engine are.  Computed exactly, on a trip whose
    travelled distance is not 0, the quotient lies between 0 and 1, both
    included, and for the right-angle path from (0, 0) along the equator to
    (0, 90) and up to the pole it is one half; it is one half for the
    engine too, when its sines, cosines and arc tangents are rounded
    correctly. *)
Theorem C6_route_efficiency_between_0_and_1 :
  forall (start second : Sample) (rest : list Sample),
    RouteAnalysisService.calculateTotalDistance (start :: second :: rest) <> 0%R ->
    (forall (m : Double.Math) (first next : Double.Sample) (others : list Double.Sample),
        Double.RouteAnalysisService.calculateRouteEfficiency m (first :: next :: others)
        = (Double.RouteAnalysisService.distance m first
             (default first (last (first :: next :: others)))
           / sum_in_order (segments m (first :: next :: others)))%float)
    /\ RouteAnalysisService.calculateRouteEfficiency (start :: second :: rest)
       = Some (RouteAnalysisService.distance start
                 (default start (last (start :: second :: rest)))
               / consecutive_sum (start :: second :: rest))%R
    /\ (0 <= RouteAnalysisService.distance start
               (default start (last (start :: second :: rest)))
             / consecutive_sum (start :: second :: rest) <= 1)%R
    /\ RouteAnalysisService.calculateRouteEfficiency
         [Scenario.origin; Scenario.east; Scenario.pole] = Some (1 / 2)%R
    /\ Double.RouteAnalysisService.calculateRouteEfficiency Scenario.libm
         [Scenario.at_0; Scenario.at_90; Scenario.at_pole] = 0.5%float.
Proof.
  intros start second rest Hmoved.
  pose proof (total_is_consecutive_sum (start :: second :: rest)) as Hsum.
  pose proof (direct_le_total start (second :: rest)) as Hdirect.
  pose proof (total_nonneg start (second :: rest)) as Htotal.
  pose proof (distance_nonneg start (default start (last (start :: second :: rest))))
    as Hpos.
  change (RouteAnalysisService.total_from 0 start (second :: rest))
    with (RouteAnalysisService.calculateTotalDistance (start :: second :: rest))
    in Hdirect, Htotal.
  split; [| split; [| split; [| split]]]; [| | | | vm_compute; reflexivity].
  - intros m first next others.
    unfold Double.RouteAnalysisService.calculateRouteEfficiency,
      Double.RouteAnalysisService.calculateTotalDistance, sum_in_order.
    rewrite total_from_sums_in_order. reflexivity.
  - unfold RouteAnalysisService.calculateRouteEfficiency.
    destruct (Num.Reqb _ 0) eqn:Hzero.
    + apply Reqb_eq in Hzero. contradiction.
    + rewrite Hsum. reflexivity.
  - rewrite <- Hsum.
    set (total := RouteAnalysisService.calculateTotalDistance (start :: second :: rest)) in *.
    assert (Hgt : (0 < total)%R) by lra.
    split.
    + unfold Rdiv. apply Rmult_le_pos; [exact Hpos | left; apply Rinv_0_lt_compat; exact Hgt].
    + apply (Rmult_le_reg_r total); [exact Hgt |].
      unfold Rdiv. rewrite Rmult_assoc, Rinv_l by lra. lra.
  - unfold RouteAnalysisService.calculateRouteEfficiency,
      RouteAnalysisService.calculateTotalDistance.
    cbn [RouteAnalysisService.total_from].
    change (default Scenario.origin (last [Scenario.origin; Scenario.east; Scenario.pole]))
      with Scenario.pole.
    rewrite origin_east, east_pole, origin_pole.
    pose proof PI_RGT_0 as Hpi.
    unfold Num.Reqb. destruct (Req_dec_T _ 0) as [Hz | _]; [exfalso; lra |].
    f_equal. field. lra.
Qed.

(** A quarter of the equator, from (0, 0) to (0, 90). *)
Lemma C6_quarter_circle :
  (forall (m : Double.Math) (first next : Double.Sample) (others : list Double.Sample),
      Double.RouteAnalysisService.calculateRouteEfficiency m (first :: next :: others)
      = (Double.RouteAnalysisService.distance m first
           (default first (last (first :: next :: others)))
         / sum_in_order (segments m (first :: next :: others)))%float)
  /\ RouteAnalysisService.calculateRouteEfficiency [Scenario.origin; Scenario.east]
     = Some (RouteAnalysisService.distance Scenario.origin
               (default Scenario.origin (last [Scenario.origin; Scenario.east]))
             / consecutive_sum [Scenario.origin; Scenario.east])%R
  /\ (0 <= RouteAnalysisService.distance Scenario.origin
             (default Scenario.origin (last [Scenario.origin; Scenario.east]))
           / consecutive_sum [Scenario.origin; Scenario.east] <= 1)%R
  /\ RouteAnalysisService.calculateRouteEfficiency
       [Scenario.origin; Scenario.east; Scenario.pole] = Some (1 / 2)%R
  /\ Double.RouteAnalysisService.calculateRouteEfficiency Scenario.libm
       [Scenario.at_0; Scenario.at_90; Scenario.at_pole] = 0.5%float.
Proof.
  apply (C6_route_efficiency_between_0_and_1 Scenario.origin Scenario.east []).
  unfold RouteAnalysisService.calculateTotalDistance. cbn [RouteAnalysisService.total_from].
  rewrite origin_east. pose proof PI_RGT_0. lra.
Defined.

(** C6, as stated, fails at both bounds, in the arithmetic of the engine
    with its sines, cosines and arc tangents rounded correctly.  A trip
    that never leaves its first point divides 0 by 0, and its efficiency is
    no number.  A trip from (0, 0) one degree east and back has efficiency
    0, which is not in (0, 1].  And on the straight trip along the equator
    from longitude 0 over 1 to 178 the rounded legs add up to less than the
    rounded direct distance: the efficiency is 1.0000000000000022, above
    1. *)
Lemma C6_efficiency_is_outside_the_bounds :
  PrimFloat.is_nan
    (Double.RouteAnalysisService.calculateRouteEfficiency Scenario.libm
       [Scenario.at_0; Scenario.at_0]) = true
  /\ Double.RouteAnalysisService.calculateRouteEfficiency Scenario.libm
       [Scenario.at_0; Scenario.at_1; Scenario.at_0] = 0%float
  /\ Double.RouteAnalysisService.calculateRouteEfficiency Scenario.libm
       [Scenario.at_0; Scenario.at_1; Scenario.at_178] = 0x1.000000000000ap+0%float
  /\ (1 <? Double.RouteAnalysisService.calculateRouteEfficiency Scenario.libm
             [Scenario.at_0; Scenario.at_1; Scenario.at_178])%float = true.
Proof.
  repeat split; vm_compute; reflexivity.
Qed.
(** ** Faults of the analytics *)

(** The ETA predictor returns on every input, and its fallback of now
    plus two hours with confidence low is the answer exactly when a
    shipment and a location come with a null history, the one input on
    which its [try] block raises.  The recommendation engine answers [[]]
    when either function it imports fails. *)
Theorem analytics_faults_are_absorbed :
  forall env : Env,
    (forall s c h,
        ETAService.calculateETA env s c h
        = ETAService.Fallback (now env + 2 * 60 * 60 * 1000)%R "low"
        <-> (exists shipment location, s = Some shipment /\ c = Some location /\ h = None))
    /\ (forall shipmentId locationData e,
          getShipmentById env shipmentId = Throw e
          \/ getTrackingData env shipmentId = Throw e ->
          RecommendationService.analyzeTrackingData env shipmentId locationData = []).
Proof.
  intros env. split.
  - intros s c h. unfold ETAService.calculateETA, ETAService.calculateETA_try. split.
    + destruct s as [shipment |]; [| discriminate].
      destruct c as [location |]; [| discriminate].
      destruct h as [history |]; [discriminate |].
      intros _. exists shipment, location. repeat split.
    + intros (shipment & location & -> & -> & ->). reflexivity.
  - intros shipmentId locationData e [Hfault | Hfault];
      unfold RecommendationService.analyzeTrackingData,
        RecommendationService.analyzeTrackingData_try;
      rewrite Hfault; [reflexivity |].
    destruct (getShipmentById env shipmentId); reflexivity.
Qed.

(** The smart handler does not get as far as the analytics: on a pool that
    refuses its INSERT, as the null pool of this code base and every
    server do, a request is answered 400, 404 or 500 before the services
    are called, whatever their surroundings are; nothing is inserted,
    updated, saved or emitted. *)
Theorem smart_route_answers_before_the_analytics :
  forall (parseNumber : string -> option Q) (pool : SmartTrackingController.Pool)
         (env : Env) (io : bool) (body : gmap string jsval),
    SmartTrackingController.insert_is_refused pool ->
    SmartTrackingController.updateLocation parseNumber pool env io body
    = (if negb (truthy (field body "shipment_id"))
          || negb (truthy (field body "latitude"))
          || negb (truthy (field body "longitude"))
       then ([], SmartTrackingController.Failure 400
                   "Missing required fields: shipment_id, latitude, longitude")
       else
         match SmartTrackingController.select_shipment pool (field body "shipment_id") with
         | Throw _ =>
             ([SmartTrackingController.SelectShipment (field body "shipment_id")],
              SmartTrackingController.Failure 500 "Internal server error")
         | Ret [] =>
             ([SmartTrackingController.SelectShipment (field body "shipment_id")],
              SmartTrackingController.Failure 404 "Shipment not found")
         | Ret (_ :: _) =>
             ([SmartTrackingController.SelectShipment (field body "shipment_id");
               SmartTrackingController.InsertLocation
                 (SmartTrackingController.insert_params body)],
              SmartTrackingController.Failure 500 "Internal server error")
         end).
Proof.
  intros parseNumber pool env io body Hrefused.
  unfold SmartTrackingController.updateLocation,
    SmartTrackingController.updateLocation_try.
  destruct (negb (truthy (field body "shipment_id"))
            || negb (truthy (field body "latitude"))
            || negb (truthy (field body "longitude"))); [reflexivity |].
  unfold mbind, SmartTrackingController.prog_bind, SmartTrackingController.perform,
    mret, SmartTrackingController.prog_ret.
  destruct (SmartTrackingController.select_shipment pool (field body "shipment_id"))
    as [[| shipment others] | e]; [reflexivity | | reflexivity].
  destruct (Hrefused ltac:(discriminate) (SmartTrackingController.insert_params body))
    as [e Hinsert].
  rewrite Hinsert. reflexivity.
Qed.

(** The first sample of the Delhi to Mumbai run on the null pool. *)
Lemma null_pool_takes_no_sample :
  SmartTrackingController.updateLocation Scenario.no_numeric_text
    SmartTrackingController.null_pool Scenario.at_noon true Scenario.delhi
  = (if negb (truthy (field Scenario.delhi "shipment_id"))
        || negb (truthy (field Scenario.delhi "latitude"))
        || negb (truthy (field Scenario.delhi "longitude"))
     then ([], SmartTrackingController.Failure 400
                 "Missing required fields: shipment_id, latitude, longitude")
     else
       match SmartTrackingController.select_shipment SmartTrackingController.null_pool
               (field Scenario.delhi "shipment_id") with
       | Throw _ =>
           ([SmartTrackingController.SelectShipment (field Scenario.delhi "shipment_id")],
            SmartTrackingController.Failure 500 "Internal server error")
       | Ret [] =>
           ([SmartTrackingController.SelectShipment (field Scenario.delhi "shipment_id")],
            SmartTrackingController.Failure 404 "Shipment not found")
       | Ret (_ :: _) =>
           ([SmartTrackingController.SelectShipment (field Scenario.delhi "shipment_id");
             SmartTrackingController.InsertLocation
               (SmartTrackingController.insert_params Scenario.delhi)],
            SmartTrackingController.Failure 500 "Internal server error")
       end).
Proof.
  apply (smart_route_answers_before_the_analytics Scenario.no_numeric_text
           SmartTrackingController.null_pool Scenario.at_noon true Scenario.delhi).
  intros _ params. eexists. reflexivity.
Defined.



(** The speeds the delay analyzer averages are the positive speeds of the
    last ten samples. *)
Lemma filter_positive_speeds (l : list Double.Sample) :
  List.filter (fun v => (0 <? v)%float) (omap Double.speed l) = positive_speeds l.
Proof.
  induction l as [| t l IH]; [reflexivity |].
  cbn [omap list_omap positive_speeds]. destruct (Double.speed t) as [v |]; [| exact IH].
  cbn [List.filter]. destruct (0 <? v)%float; [f_equal |]; exact IH.
Qed.

Lemma recent_speeds_positive (history : list Double.Sample) :
  Double.recent_speeds (fun v => (0 <? v)%float) history
  = positive_speeds (last_ten history).
Proof.
  unfold Double.recent_speeds, Num.slice_last, last_ten.
  rewrite List.firstn_rev, rev_involutive. apply filter_positive_speeds.
Qed.

(** A number above 60 is above 30, in the order of the binary64 numbers. *)
Lemma above_60_is_above_30 (d : PrimFloat.float) :
  (60 <? d)%float = true -> (30 <? d)%float = true.
Proof.
  rewrite !FloatAxioms.ltb_spec.
  replace (FloatOps.Prim2SF 60) with (SpecFloat.S754_finite false 8444249301319680 (-47))
    by (vm_compute; reflexivity).
  replace (FloatOps.Prim2SF 30) with (SpecFloat.S754_finite false 8444249301319680 (-48))
    by (vm_compute; reflexivity).
  destruct (FloatOps.Prim2SF d) as [s | s | | s m e].
  - cbn. intros H; exact H.
  - destruct s; cbn; intros H; exact H.
  - cbn. intros H; exact H.
  - unfold SpecFloat.SFltb, SpecFloat.SFcompare. destruct s; [intros H; exact H |].
    destruct (Z.compare_spec (-47) e) as [He | He | He].
    + subst e. cbn. intros _. reflexivity.
    + replace (-48 ?= e)%Z with Lt by (symmetry; apply Z.compare_lt_iff; lia).
      intros _. reflexivity.
    + intros H; discriminate H.
Qed.

(** C5 (amended).  The delay analyzer computes an ETA of its own, in the
    arithmetic of the engine: now plus the time the distance from the last
    sample of the history to the destination takes at the plain mean of the
    positive speeds among the last ten samples (at 10 m/s when there is
    none), cut to whole milliseconds by [new Date]; it reads the clock and
    nothing else of its surroundings, neither the hour nor the route
    history.  On a history of five samples or more the analyzer flags a
    delay of that ETA against the planned time above 60 minutes as high, a
    delay above 30 and not above 60 minutes as medium, and no other. *)
Theorem C5_delay_alert_eta_and_thresholds :
  forall (m : Double.Math) (env : Double.Env) (s : Double.Shipment)
         (history : list Double.Sample),
    (5 <= length history)%nat ->
    Double.RecommendationService.calculateDynamicETA m env (Some s) history
    = plain_mean_eta m (Double.now env) s history
    /\ (forall env',
          Double.now env' = Double.now env ->
          Double.RecommendationService.calculateDynamicETA m env' (Some s) history
          = Double.RecommendationService.calculateDynamicETA m env (Some s) history)
    /\ ((60 <? delay_minutes (plain_mean_eta m (Double.now env) s history)
                 (Double.planned_delivery_time s))%float = true ->
        Double.RecommendationService.analyzeDelayProbability m env (Some s) history
        = Some (delay_advisory "high" (plain_mean_eta m (Double.now env) s history)
                  (Double.planned_delivery_time s)))
    /\ ((30 <? delay_minutes (plain_mean_eta m (Double.now env) s history)
                 (Double.planned_delivery_time s))%float = true ->
        (60 <? delay_minutes (plain_mean_eta m (Double.now env) s history)
                 (Double.planned_delivery_time s))%float = false ->
        Double.RecommendationService.analyzeDelayProbability m env (Some s) history
        = Some (delay_advisory "medium" (plain_mean_eta m (Double.now env) s history)
                  (Double.planned_delivery_time s)))
    /\ ((30 <? delay_minutes (plain_mean_eta m (Double.now env) s history)
                 (Double.planned_delivery_time s))%float = false ->
        Double.RecommendationService.analyzeDelayProbability m env (Some s) history
        = None).
Proof.
  intros m env s history Hlen.
  assert (Hlong : (length history <? 5)%nat = false) by (apply Nat.ltb_ge; exact Hlen).
  assert (Heta : forall env',
             Double.RecommendationService.calculateDynamicETA m env' (Some s) history
             = plain_mean_eta m (Double.now env') s history).
  { intros env'. unfold Double.RecommendationService.calculateDynamicETA, plain_mean_eta.
    rewrite Hlong, recent_speeds_positive. reflexivity. }
  split; [apply Heta |]. split.
  { intros env' Hnow. rewrite !Heta, Hnow. reflexivity. }
  unfold Double.RecommendationService.analyzeDelayProbability.
  rewrite Hlong, Heta.
  change (1000 * 60)%float with 60000%float.
  fold (delay_minutes (plain_mean_eta m (Double.now env) s history)
          (Double.planned_delivery_time s)).
  split; [| split].
  - intros Hhigh. rewrite (above_60_is_above_30 _ Hhigh), Hhigh. reflexivity.
  - intros Hmedium Hhigh. rewrite Hmedium, Hhigh. reflexivity.
  - intros Hnone. rewrite Hnone. reflexivity.
Qed.

(** Five samples at 10 m/s at (0, 0), bound for the pole: the sum of the
    analyzer is 1701000754339.801, its ETA the millisecond 1701000754339.
    Against a planned time an hour before that millisecond the delay is 60
    minutes, not above 60, and the advisory is of medium severity. *)
Lemma C5_an_hour_late_to_the_millisecond :
  (5 <= length (repeat Scenario.cruising_at_0 5))%nat
  /\ Double.RecommendationService.calculateDynamicETA Scenario.libm Scenario.in_november
       (Some (Scenario.due_at_the_pole 1700997154339)) (repeat Scenario.cruising_at_0 5)
     = 1701000754339%float
  /\ Double.RecommendationService.analyzeDelayProbability Scenario.libm Scenario.in_november
       (Some (Scenario.due_at_the_pole 1700997154339)) (repeat Scenario.cruising_at_0 5)
     = Some (Double.mkRecommendation "delay_alert" "medium"
               [ ("delay_minutes", 60%float); ("current_eta", 1701000754339%float);
                 ("planned_eta", 1700997154339%float) ]).
Proof.
  assert (Hlen : (5 <= length (repeat Scenario.cruising_at_0 5))%nat) by (cbn; lia).
  destruct (C5_delay_alert_eta_and_thresholds Scenario.libm Scenario.in_november
              (Scenario.due_at_the_pole 1700997154339) (repeat Scenario.cruising_at_0 5)
              Hlen) as (Heta & _ & _ & Hmedium & _).
  split; [exact Hlen |]. split.
  - rewrite Heta. vm_compute. reflexivity.
  - rewrite Hmedium; vm_compute; reflexivity.
Defined.

(** C5, as stated, fails: on five samples at (0, 0) that report 60 m/s,
    bound for the pole, the predictor discards the speeds of 50 and more
    and falls back on 10 m/s, while the delay analyzer averages them; the
    ETA the analyzer compares with the planned time is the earlier one by
    more than nine days. *)
Lemma C5_predictor_and_analyzer_disagree :
  Double.ETAService.eta_of
    (Double.ETAService.calculateETA Scenario.libm Scenario.in_november
       (Some (Scenario.due_at_the_pole 1700997154339)) (Some Scenario.racing_at_0)
       (Some (repeat Scenario.racing_at_0 5)))
  = 1701000754339%float
  /\ Double.RecommendationService.calculateDynamicETA Scenario.libm Scenario.in_november
       (Some (Scenario.due_at_the_pole 1700997154339)) (repeat Scenario.racing_at_0 5)
     = 1700166792389%float
  /\ (1700166792389 + 9 * 24 * 60 * 60 * 1000 <? 1701000754339)%float = true.
Proof.
  repeat split; vm_compute; reflexivity.
Qed.

(** ** The status update of the tracking route *)

Section AnySchedule.

Import ShipmentModel TrackingLocationModel TrackingController.

Variable parseNumber : string -> option Q.
Variable pick_latest : list Location -> option Location.

Lemma after_findById_past_test (req : Request) (found : option Shipment) :
  past_first_update_test (after_findById req found).
Proof.
  unfold after_findById. destruct found as [s |]; [| exact I].
  repeat match goal with
         | |- context [if ?b then _ else _] => destruct b
         end; exact I.
Qed.

Lemma after_latest_past_test (s : Shipment) (l : Location) (firstUpdate : option Location) :
  past_first_update_test (after_latest s l firstUpdate).
Proof.
  unfold after_latest.
  destruct firstUpdate as [l' |]; cbn [andb].
  - destruct (Z.eqb (TrackingLocationModel.id l') (TrackingLocationModel.id l)
              && String.eqb (status s) "pending") eqn:Htest; [exact I | exact Htest].
  - reflexivity.
Qed.

(** One step keeps the invariant and sends no status update. *)
Lemma step_sends_no_status_update (key : Z) (req : Request) (w : World) (pc : Pc) :
  past_first_update_test pc ->
  past_first_update_test (snd (step parseNumber pick_latest req w pc))
  /\ status_broadcasts key (fst (step parseNumber pick_latest req w pc))
     = status_broadcasts key w.
Proof.
  intros Hpc. destruct pc as [| | s | s l | s l b | s l b | r]; cbn [step].
  - destruct (middleware parseNumber req); split; try exact I; reflexivity.
  - split; [apply after_findById_past_test | reflexivity].
  - split; [exact I | reflexivity].
  - split; [apply after_latest_past_test | reflexivity].
  - split; [exact I | reflexivity].
  - split; [exact I |]. cbn [fst]. cbn in Hpc.
    unfold status_broadcasts, emissions. cbn [journal]. rewrite Hpc.
    destruct (socketHandler req); [| reflexivity].
    cbn [app List.filter is_status_broadcast].
    destruct (Z.eqb (shipment_key req) key); reflexivity.
  - split; [exact I | reflexivity].
Qed.

Lemma steps_send_no_status_update (key : Z) (n : nat) (req : Request) (w : World) (pc : Pc) :
  past_first_update_test pc ->
  status_broadcasts key (fst (steps parseNumber pick_latest n req w pc))
  = status_broadcasts key w.
Proof.
  revert w pc. induction n as [| n IH]; intros w pc Hpc; [reflexivity |].
  rewrite steps_S.
  destruct (step_sends_no_status_update key req w pc Hpc) as [Hpc' Hsame].
  rewrite (IH _ _ Hpc'). exact Hsame.
Qed.

Lemma advance_sends_no_status_update (key : Z) (i : nat) (w : World) (calls : Calls) :
  Forall (fun call => past_first_update_test (snd call)) calls ->
  Forall (fun call => past_first_update_test (snd call))
    (snd (advance parseNumber pick_latest i w calls))
  /\ status_broadcasts key (fst (advance parseNumber pick_latest i w calls))
     = status_broadcasts key w.
Proof.
  intros Hcalls. unfold advance.
  destruct (calls !! i) as [[req pc] |] eqn:Hi; [| split; [exact Hcalls | reflexivity]].
  assert (Hpc : past_first_update_test pc).
  { exact (proj1 (Forall_lookup _ _) Hcalls i (req, pc) Hi). }
  destruct (step_sends_no_status_update key req w pc Hpc) as [Hpc' Hsame].
  destruct (step parseNumber pick_latest req w pc) as [w' pc']. cbn [fst snd] in *.
  split; [| exact Hsame].
  apply Forall_insert; [exact Hcalls | exact Hpc'].
Qed.

Lemma interleave_sends_no_status_update (key : Z) (schedule : list nat) (w : World)
    (calls : Calls) :
  Forall (fun call => past_first_update_test (snd call)) calls ->
  status_broadcasts key (fst (interleave parseNumber pick_latest schedule w calls))
  = status_broadcasts key w.
Proof.
  unfold interleave. revert w calls.
  induction schedule as [| i schedule IH]; intros w calls Hcalls; [reflexivity |].
  cbn [fold_left fst snd].
  destruct (advance_sends_no_status_update key i w calls Hcalls) as [Hcalls' Hsame].
  rewrite <- Hsame.
  rewrite <- (IH (fst (advance parseNumber pick_latest i w calls))
                 (snd (advance parseNumber pick_latest i w calls)) Hcalls').
  destruct (advance parseNumber pick_latest i w calls); reflexivity.
Qed.

Lemma serve_in_turn_sends_no_status_update (key : Z) (reqs : list Request) (w : World) :
  status_broadcasts key (serve_in_turn parseNumber pick_latest reqs w)
  = status_broadcasts key w.
Proof.
  unfold serve_in_turn. revert w.
  induction reqs as [| req reqs IH]; intros w; [reflexivity |].
  cbn [fold_left]. rewrite IH. unfold updateLocation.
  apply steps_send_no_status_update. exact I.
Qed.

Lemma arrivals_past_test (reqs : list Request) :
  Forall (fun call : Request * Pc => past_first_update_test (snd call))
    (map (fun req => (req, Received)) reqs).
Proof.
  induction reqs as [| req reqs IH]; cbn [map]; constructor; [exact I | exact IH].
Qed.

End AnySchedule.

(** The tracking route never sends [shipment_status_update] to a room:
    whatever calls arrive, served one after the other or in flight
    together under any schedule, the journal holds as many status updates
    for a shipment after them as before.  The call that finds the first
    sample ends in [updateStatus], which raises once its UPDATE has run,
    and every other call skips the emission. *)
Theorem status_update_is_never_sent :
  forall (parseNumber : string -> option Q)
         (pick_latest : list TrackingLocationModel.Location
                        -> option TrackingLocationModel.Location)
         (key : Z) (w : TrackingController.World)
         (reqs : list TrackingController.Request) (schedule : list nat),
    TrackingController.status_broadcasts key
      (TrackingController.serve_in_turn parseNumber pick_latest reqs w)
    = TrackingController.status_broadcasts key w
    /\ TrackingController.status_broadcasts key
         (fst (TrackingController.interleave parseNumber pick_latest schedule w
                 (map (fun req => (req, TrackingController.Received)) reqs)))
       = TrackingController.status_broadcasts key w.
Proof.
  intros parseNumber pick_latest key w reqs schedule. split.
  - apply serve_in_turn_sends_no_status_update.
  - apply interleave_sends_no_status_update. apply arrivals_past_test.
Qed.

(** ** Leaving a room *)

(** A connection that leaves the room of a shipment, naming it by a
    non-zero number, receives none of its later publishes, and no other
    membership changes. *)
Theorem leave_ends_the_subscription :
  forall (rooms : SocketHandler.Rooms) (socket : SocketHandler.Socket)
         (data : gmap string jsval) (k : Z),
    truthy (field data "shipment_id") = true ->
    as_integer (field data "shipment_id") = Some k ->
    snd (SocketHandler.handleLeaveShipment rooms socket data)
    = SocketHandler.LeftShipment (field data "shipment_id")
    /\ (SocketHandler.socket_id socket
        ∉ SocketHandler.recipients
            (fst (SocketHandler.handleLeaveShipment rooms socket data)) k)
    /\ (forall s k',
          (s, k') <> (SocketHandler.socket_id socket, k) ->
          (s ∈ SocketHandler.recipients
                 (fst (SocketHandler.handleLeaveShipment rooms socket data)) k')
          <-> (s ∈ SocketHandler.recipients rooms k')).
Proof.
  intros rooms socket data k Htruthy Hk. unfold SocketHandler.handleLeaveShipment.
  rewrite Htruthy, Hk.
  assert (Hnumber : is_number (field data "shipment_id") = true).
  { destruct (field data "shipment_id"); try discriminate. reflexivity. }
  rewrite Hnumber. cbn [negb orb fst snd].
  split; [reflexivity |]. split.
  - rewrite elem_of_recipients, elem_of_difference, elem_of_singleton.
    intros [_ Hne]. apply Hne. reflexivity.
  - intros s k' Hne.
    rewrite !elem_of_recipients, elem_of_difference, elem_of_singleton. tauto.
Qed.

(** An administrator joins the room of shipment 1 and leaves it again. *)
Lemma administrator_leaves_room_1 :
  snd (SocketHandler.handleLeaveShipment
         (fst (SocketHandler.handleJoinShipment (Ret Scenario.one_shipment) ∅
                 Scenario.admin_without_organization Scenario.join_1))
         Scenario.admin_without_organization Scenario.join_1)
  = SocketHandler.LeftShipment (field Scenario.join_1 "shipment_id")
  /\ SocketHandler.socket_id Scenario.admin_without_organization
     ∉ SocketHandler.recipients
         (fst (SocketHandler.handleLeaveShipment
                 (fst (SocketHandler.handleJoinShipment (Ret Scenario.one_shipment) ∅
                         Scenario.admin_without_organization Scenario.join_1))
                 Scenario.admin_without_organization Scenario.join_1)) 1.
Proof.
  pose proof (leave_ends_the_subscription
                (fst (SocketHandler.handleJoinShipment (Ret Scenario.one_shipment) ∅
                        Scenario.admin_without_organization Scenario.join_1))
                Scenario.admin_without_organization Scenario.join_1 1 eq_refl eq_refl)
    as [Hreply [Hout _]].
  split; [exact Hreply | exact Hout].
Defined.

(** ** The distance between two samples *)

(** The haversine distance of the route analysis is a pseudometric on the
    samples: never negative, zero from a sample to itself, the same in both
    directions, and no leg is longer than the detour through a third
    sample. *)
Theorem haversine_distance_is_a_pseudometric :
  forall p q r : Sample,
    (0 <= RouteAnalysisService.distance p q)%R
    /\ RouteAnalysisService.distance p p = 0%R
    /\ RouteAnalysisService.distance p q = RouteAnalysisService.distance q p
    /\ (RouteAnalysisService.distance p r
        <= RouteAnalysisService.distance p q + RouteAnalysisService.distance q r)%R.
Proof.
  intros p q r. split; [apply distance_nonneg |].
  split; [apply distance_self |]. split; [apply distance_sym | apply distance_triangle].
Qed.


(** ** How a call of the tracking route ends *)

Section Answers.

Import ShipmentModel TrackingLocationModel TrackingController.

Variable parseNumber : string -> option Q.
Variable pick_latest : list Location -> option Location.

(** A number that passed the [min] and [max] rules is within them. *)
Lemma validated_number (body : gmap string jsval) (name : string) (lo hi : Q) :
  Validator.validateField parseNumber body
    (name, Validator.mkRules true Validator.TNumber (Some lo) (Some hi)) = [] ->
  exists q, field body name = JNum q /\ Qle_bool lo q = true /\ Qle_bool q hi = true.
Proof.
  unfold Validator.validateField. cbn [fst snd Validator.required andb].
  destruct (field body name) as [| | q | s | b]; try discriminate.
  - unfold Validator.type_problems, Validator.min_problems, Validator.max_problems.
    cbn [Validator.rtype Validator.min Validator.max Validator.Number app].
    unfold Qltb. intros Hnone. exists q. split; [reflexivity |].
    destruct (Qle_bool lo q); [| discriminate].
    destruct (Qle_bool q hi); [split; reflexivity | discriminate].
  - destruct (String.eqb s ""); discriminate.
Qed.

(** The coordinate check of [TrackingLocationModel.create] never fails
    behind the validation of the route. *)
Lemma validated_coordinates (body : gmap string jsval) :
  Validator.validate parseNumber Validator.updateLocationSchema body = Ret tt ->
  isValidLatitude (field body "latitude") = true
  /\ isValidLongitude (field body "longitude") = true.
Proof.
  unfold Validator.validate.
  destruct (Validator.validateObject parseNumber body Validator.updateLocationSchema)
    eqn:Hnone; [intros _ | discriminate].
  unfold Validator.validateObject, Validator.updateLocationSchema in Hnone.
  cbn [flat_map] in Hnone.
  apply app_eq_nil in Hnone as [_ Hnone].
  apply app_eq_nil in Hnone as [Hlatitude Hnone].
  apply app_eq_nil in Hnone as [Hlongitude _].
  apply validated_number in Hlatitude as (q & -> & Hlo & Hhi).
  apply validated_number in Hlongitude as (q' & -> & Hlo' & Hhi').
  cbn [isValidLatitude isValidLongitude]. rewrite Hlo, Hhi, Hlo', Hhi'. split; reflexivity.
Qed.

Lemma updateLocation_answered (req : Request) (w : World) :
  exists r,
    snd (updateLocation parseNumber pick_latest req w) = Responded r
    /\ Answered req w (fst (updateLocation parseNumber pick_latest req w)) r.
Proof.
  unfold updateLocation. rewrite steps_S. cbn [step]. unfold middleware.
  destruct (String.eqb_spec (role (user req)) "driver") as [Hrole | Hrole]; cycle 1.
  { cbn [fst snd errorHandler]. rewrite steps_responded. eexists. split; [reflexivity |].
    apply Refused. cbn. tauto. }
  destruct (Validator.validate parseNumber Validator.updateLocationSchema (body req))
    as [[] | e] eqn:Hvalid; cycle 1.
  { unfold Validator.validate in Hvalid.
    destruct (Validator.validateObject parseNumber (body req) Validator.updateLocationSchema);
      [discriminate |].
    injection Hvalid as <-.
    cbn [fst snd errorHandler]. rewrite steps_responded. eexists. split; [reflexivity |].
    apply Refused. cbn. tauto. }
  apply validated_coordinates in Hvalid as [Hlatitude Hlongitude].
  cbn [fst snd]. rewrite steps_S. cbn [step fst snd]. unfold after_findById.
  destruct (findById (shipments w) (field (body req) "shipment_id") None None)
    as [s |] eqn:Hfound; cycle 1.
  { rewrite steps_responded. eexists. split; [reflexivity |]. apply Refused. cbn. tauto. }
  apply findById_lookup in Hfound.
  rewrite Hrole, Hlatitude, Hlongitude.
  replace (String.eqb "driver" "driver") with true by reflexivity.
  replace (String.eqb "driver" "admin") with false by reflexivity.
  cbn [andb].
  destruct (Z.eqb_spec (driver_id s) (user_id (user req))) as [Hdriver | Hdriver];
    cbn [negb]; cycle 1.
  { rewrite steps_responded. eexists. split; [reflexivity |]. apply Refused. cbn. tauto. }
  assert (Hmay : may_store req s) by (repeat split; assumption).
  rewrite steps_S. cbn [step fst snd]. fold (inserted_row req w).
  rewrite steps_S. cbn [step fst snd]. unfold after_latest.
  match goal with
  | |- context [if ?test && String.eqb (status s) "pending" then _ else _] =>
      destruct test eqn:Hfirst
  end; cbn [andb].
  - destruct (String.eqb_spec (status s) "pending") as [Hpending | Hother].
    + rewrite steps_S. cbn [step fst snd errorHandler]. rewrite steps_responded.
      eexists. split; [reflexivity |]. cbn [fst].
      apply (Moved req w s); assumption.
    + rewrite steps_S. cbn [step fst snd]. rewrite steps_responded.
      eexists. split; [reflexivity |]. cbn [fst]. unfold created, emissions.
      replace (String.eqb (status s) "pending") with false
        by (symmetry; apply String.eqb_neq; exact Hother).
      cbn [andb app]. apply (Kept req w s); assumption.
  - rewrite steps_S. cbn [step fst snd]. rewrite steps_responded.
    eexists. split; [reflexivity |]. cbn [fst]. unfold created, emissions.
    cbn [andb app]. apply (Kept req w s); assumption.
Qed.

End Answers.

Section LatestRow.

Import ShipmentModel TrackingLocationModel TrackingController.

Variable parseNumber : string -> option Q.
Variable pick_latest : list Location -> option Location.
Hypothesis pick_is_latest : latest_of pick_latest.

(** When every row of the shipment was recorded before the call's own,
    the latest row is the one the call inserted. *)
Lemma inserted_row_is_latest (req : Request) (w : World) :
  Forall (fun l => (recorded_at l < at_time req)%Z)
    (of_shipment (shipment_key req) (tracking_locations w)) ->
  getLatestByShipment pick_latest
    (mkWorld (shipments w) (tracking_locations w ++ [inserted_row req w])
       (next_insert_id w + 1) (journal w))
    (shipment_key req)
  = Some (inserted_row req w).
Proof.
  intros Hbefore. unfold getLatestByShipment. cbn [tracking_locations].
  pose proof (pick_is_latest
                (of_shipment (shipment_key req)
                   (tracking_locations w ++ [inserted_row req w]))) as Hpick.
  rewrite of_shipment_app in Hpick |- *. cbn [inserted_row shipment_id] in Hpick |- *.
  rewrite Z.eqb_refl in Hpick |- *. fold (inserted_row req w) in Hpick |- *.
  destruct (pick_latest
              (of_shipment (shipment_key req) (tracking_locations w)
               ++ [inserted_row req w])) as [l |].
  - destruct Hpick as [Hin Hall]. apply in_app_or in Hin as [Hin | [<- | []]];
      [| reflexivity].
    exfalso. rewrite List.Forall_forall in Hbefore, Hall.
    specialize (Hbefore l Hin).
    assert (Hlast : In (inserted_row req w)
                      (of_shipment (shipment_key req) (tracking_locations w)
                       ++ [inserted_row req w]))
      by (apply in_or_app; right; left; reflexivity).
    specialize (Hall (inserted_row req w) Hlast).
    cbn [inserted_row recorded_at] in Hall. lia.
  - destruct (of_shipment (shipment_key req) (tracking_locations w)); discriminate.
Qed.

End LatestRow.

(** What [authenticate] hands to [next] when it refuses. *)
Lemma authenticate_refuses (verify : string -> Auth.Verdict) (authorization : option string)
    (e : error) :
  Auth.authenticate verify authorization = Throw e ->
  e = AppError 401 "UNAUTHORIZED" \/ e = AppError 401 "TOKEN_EXPIRED"
  \/ e = LibraryError "NotBeforeError".
Proof.
  unfold Auth.authenticate. intros Hrefused.
  destruct authorization as [authHeader |]; [| injection Hrefused as <-; tauto].
  destruct (negb (String.prefix "Bearer " authHeader)); [injection Hrefused as <-; tauto |].
  destruct (String.eqb _ ""); [injection Hrefused as <-; tauto |].
  destruct (verify _); [discriminate | | |]; injection Hrefused as <-; tauto.
Qed.

(** [s.substring(0)] is [s]. *)
Lemma substring_all (s : string) : String.substring 0 (String.length s) s = s.
Proof.
  induction s as [| c s IH]; [reflexivity |]. cbn. rewrite IH. reflexivity.
Qed.

(** A header that starts with [Bearer ] is that prefix and the token
    [authHeader.substring(7)]. *)
Lemma bearer_prefix (authHeader : string) :
  String.prefix "Bearer " authHeader = true ->
  authHeader
  = "Bearer " ++ String.substring 7 (String.length authHeader - 7) authHeader.
Proof.
  intros Hprefix.
  do 7 (destruct authHeader as [| ? authHeader]; [discriminate Hprefix |];
        cbn [String.prefix] in Hprefix;
        match type of Hprefix with
        | (if ?d then _ else _) = true => destruct d as [<- |]; [| discriminate Hprefix]
        end).
  cbn [String.length String.substring Nat.sub append].
  rewrite Nat.sub_0_r, substring_all. reflexivity.
Qed.

(** [authenticate] lets a request through exactly when its Authorization
    header is [Bearer ] followed by a token that is not empty and that
    [jwt.verify] accepts; the caller it attaches is the one of the token's
    payload. *)
Theorem authenticate_admits_the_verified_bearer :
  forall (verify : string -> Auth.Verdict) (authorization : option string) (user : User),
    Auth.authenticate verify authorization = Ret user
    <-> exists token,
          authorization = Some ("Bearer " ++ token)
          /\ token <> ""
          /\ verify token = Auth.Decoded user.
Proof.
  intros verify authorization user. unfold Auth.authenticate. split.
  - destruct authorization as [authHeader |]; [| discriminate].
    destruct (String.prefix "Bearer " authHeader) eqn:Hprefix; [| discriminate].
    cbn [negb].
    destruct (String.eqb_spec
                (String.substring 7 (String.length authHeader - 7) authHeader) "")
      as [Hempty | Htoken]; [discriminate |].
    destruct (verify (String.substring 7 (String.length authHeader - 7) authHeader))
      as [decoded | | |] eqn:Hverify; try discriminate.
    intros Hadmitted. injection Hadmitted as ->.
    exists (String.substring 7 (String.length authHeader - 7) authHeader).
    split; [f_equal; apply bearer_prefix; exact Hprefix |].
    split; [exact Htoken | exact Hverify].
  - intros (token & -> & Htoken & Hverify).
    cbv [String.append].
    cbn [String.prefix String.length String.substring Nat.sub negb].
    repeat (match goal with
            | |- context [Ascii.ascii_dec ?a ?a] =>
                destruct (Ascii.ascii_dec a a) as [_ | Hneq]; [| contradiction Hneq; reflexivity]
            end).
    replace (String.prefix "" token) with true by (destruct token; reflexivity).
    rewrite Nat.sub_0_r, substring_all.
    destruct (String.eqb_spec token "") as [Hempty | _]; [contradiction |].
    rewrite Hverify. reflexivity.
Qed.

(** A call of the tracking route that is answered with a status code other
    than 500 has changed nothing: the store and the journal are as before,
    and the answer is one of 401 UNAUTHORIZED and 401 TOKEN_EXPIRED, by
    which [authenticate] refuses a call without a valid token, 403
    FORBIDDEN, 400 VALIDATION_ERROR, 404 SHIPMENT_NOT_FOUND and 403
    SHIPMENT_ACCESS_DENIED.  The organization check of the handler and the
    coordinate check of [TrackingLocationModel.create] are never the ones
    that refuse a call on this route. *)
Theorem refused_call_changes_nothing :
  forall (parseNumber : string -> option Q)
         (pick_latest : list TrackingLocationModel.Location
                        -> option TrackingLocationModel.Location)
         (verify : string -> Auth.Verdict)
         (a : TrackingController.Arrival) (w : TrackingController.World)
         (statusCode : Z) (code : string),
    snd (TrackingController.post_update parseNumber pick_latest verify a w)
    = TrackingController.Responded (TrackingController.Failed statusCode code) ->
    statusCode <> 500 ->
    fst (TrackingController.post_update parseNumber pick_latest verify a w) = w
    /\ In (statusCode, code) route_refusals.
Proof.
  intros parseNumber pick_latest verify a w statusCode code.
  unfold TrackingController.post_update.
  destruct (Auth.authenticate verify (TrackingController.authorization a))
    as [caller | e] eqn:Hauth.
  - set (req := TrackingController.mkRequest caller _ _ _).
    intros Hanswer Hcode.
    destruct (updateLocation_answered parseNumber pick_latest req w) as (r & Hr & Hhow).
    rewrite Hr in Hanswer. injection Hanswer as Hanswer.
    destruct Hhow as [c k Hin | s Hs Hmay Hpending | s Hs Hmay]; [| | discriminate].
    + injection Hanswer as -> ->. split; [reflexivity |].
      unfold route_refusals. apply in_or_app. right. exact Hin.
    + injection Hanswer as <- _. contradiction.
  - cbn [fst snd]. intros Hanswer Hcode. split; [reflexivity |].
    apply authenticate_refuses in Hauth as [-> | [-> | ->]];
      cbn [TrackingController.errorHandler] in Hanswer;
      injection Hanswer as <- <-; [cbn; tauto | cbn; tauto | contradiction].
Qed.

(** A latitude of 95 sent by driver 7 is refused, and nothing is stored. *)
Lemma latitude_95_changes_nothing :
  fst (TrackingController.post_update Scenario.no_numeric_text
         TrackingLocationModel.latest_inserted Scenario.verify
         Scenario.latitude_95_from_driver7 Scenario.fresh_world) = Scenario.fresh_world
  /\ In (400, "VALIDATION_ERROR") route_refusals.
Proof.
  apply (refused_call_changes_nothing Scenario.no_numeric_text
           TrackingLocationModel.latest_inserted Scenario.verify
           Scenario.latitude_95_from_driver7 Scenario.fresh_world 400 "VALIDATION_ERROR").
  - vm_compute. reflexivity.
  - discriminate.
Defined.

(** A call of the tracking route that is answered 500 has stored its
    sample and written the status of a pending shipment to in_transit
    before failing: the caller is told of an error although the row and the
    new status are in the store. *)
Theorem call_answered_500_has_stored_its_sample :
  forall (parseNumber : string -> option Q)
         (pick_latest : list TrackingLocationModel.Location
                        -> option TrackingLocationModel.Location)
         (req : TrackingController.Request) (w : TrackingController.World) (code : string),
    snd (TrackingController.updateLocation parseNumber pick_latest req w)
    = TrackingController.Responded (TrackingController.Failed 500 code) ->
    code = "INTERNAL_ERROR"
    /\ (exists s,
          TrackingController.shipments w !! TrackingController.shipment_key req = Some s
          /\ ShipmentModel.status s = "pending")
    /\ fst (TrackingController.updateLocation parseNumber pick_latest req w)
       = TrackingController.mkWorld
           (ShipmentModel.set_status (TrackingController.shipments w)
              (TrackingController.shipment_key req) "in_transit")
           (TrackingController.tracking_locations w ++ [inserted_row req w])
           (TrackingController.next_insert_id w + 1)
           (TrackingController.StatusWritten (TrackingController.shipment_key req)
              "in_transit" :: TrackingController.journal w).
Proof.
  intros parseNumber pick_latest req w code Hanswer.
  destruct (updateLocation_answered parseNumber pick_latest req w) as (r & Hr & Hhow).
  rewrite Hr in Hanswer. injection Hanswer as Hanswer.
  destruct Hhow as [c k Hin | s Hs Hmay Hpending | s Hs Hmay]; [| | discriminate].
  - exfalso. injection Hanswer as -> _. cbn in Hin.
    repeat match goal with
           | H : _ \/ _ |- _ => destruct H as [H | H]
           end; try discriminate; exact Hin.
  - injection Hanswer as <-.
    split; [reflexivity |]. split; [exists s; split; assumption | reflexivity].
Qed.

(** The first sample of shipment 1 is answered 500 with its row stored. *)
Lemma first_sample_is_answered_500 :
  "INTERNAL_ERROR" = "INTERNAL_ERROR"
  /\ (exists s,
        TrackingController.shipments Scenario.fresh_world
          !! TrackingController.shipment_key Scenario.first_sample = Some s
        /\ ShipmentModel.status s = "pending")
  /\ fst (TrackingController.updateLocation Scenario.no_numeric_text
            TrackingLocationModel.latest_inserted Scenario.first_sample Scenario.fresh_world)
     = TrackingController.mkWorld
         (ShipmentModel.set_status (TrackingController.shipments Scenario.fresh_world)
            (TrackingController.shipment_key Scenario.first_sample) "in_transit")
         (TrackingController.tracking_locations Scenario.fresh_world
          ++ [inserted_row Scenario.first_sample Scenario.fresh_world])
         (TrackingController.next_insert_id Scenario.fresh_world + 1)
         (TrackingController.StatusWritten
            (TrackingController.shipment_key Scenario.first_sample) "in_transit"
          :: TrackingController.journal Scenario.fresh_world).
Proof.
  apply (call_answered_500_has_stored_its_sample Scenario.no_numeric_text
           TrackingLocationModel.latest_inserted Scenario.first_sample Scenario.fresh_world
           "INTERNAL_ERROR").
  vm_compute. reflexivity.
Defined.

(** A call of the tracking route that is answered 201 has stored exactly
    its own row and left the shipments table alone: the status it reports
    is the status the shipment had and still has, so a 201 never reports a
    transition this call made. *)
Theorem created_answer_reports_the_stored_status :
  forall (parseNumber : string -> option Q)
         (pick_latest : list TrackingLocationModel.Location
                        -> option TrackingLocationModel.Location)
         (req : TrackingController.Request) (w : TrackingController.World)
         (location : TrackingLocationModel.Location) (status_updated : string),
    snd (TrackingController.updateLocation parseNumber pick_latest req w)
    = TrackingController.Responded (TrackingController.Created location status_updated) ->
    location = inserted_row req w
    /\ TrackingController.tracking_locations
         (fst (TrackingController.updateLocation parseNumber pick_latest req w))
       = (TrackingController.tracking_locations w ++ [location])%list
    /\ TrackingController.shipments
         (fst (TrackingController.updateLocation parseNumber pick_latest req w))
       = TrackingController.shipments w
    /\ (exists s,
          TrackingController.shipments w !! TrackingController.shipment_key req = Some s
          /\ ShipmentModel.status s = status_updated).
Proof.
  intros parseNumber pick_latest req w location status_updated Hanswer.
  destruct (updateLocation_answered parseNumber pick_latest req w) as (r & Hr & Hhow).
  rewrite Hr in Hanswer. injection Hanswer as Hanswer.
  destruct Hhow as [c k Hin | s Hs Hmay Hpending | s Hs Hmay]; try discriminate.
  injection Hanswer as <- <-.
  cbn [TrackingController.tracking_locations TrackingController.shipments].
  split; [reflexivity |]. split; [reflexivity |]. split; [reflexivity |].
  exists s. split; [exact Hs | reflexivity].
Qed.

(** A sample for the delivered shipment 1. *)
Lemma sample_after_delivery_reports_delivered :
  inserted_row Scenario.first_sample_again Scenario.delivered_world
  = inserted_row Scenario.first_sample_again Scenario.delivered_world
  /\ TrackingController.tracking_locations
       (fst (TrackingController.updateLocation Scenario.no_numeric_text
               TrackingLocationModel.latest_inserted Scenario.first_sample_again
               Scenario.delivered_world))
     = (TrackingController.tracking_locations Scenario.delivered_world
        ++ [inserted_row Scenario.first_sample_again Scenario.delivered_world])%list
  /\ TrackingController.shipments
       (fst (TrackingController.updateLocation Scenario.no_numeric_text
               TrackingLocationModel.latest_inserted Scenario.first_sample_again
               Scenario.delivered_world))
     = TrackingController.shipments Scenario.delivered_world
  /\ (exists s,
        TrackingController.shipments Scenario.delivered_world
          !! TrackingController.shipment_key Scenario.first_sample_again = Some s
        /\ ShipmentModel.status s = "delivered").
Proof.
  apply (created_answer_reports_the_stored_status Scenario.no_numeric_text
           TrackingLocationModel.latest_inserted Scenario.first_sample_again
           Scenario.delivered_world
           (inserted_row Scenario.first_sample_again Scenario.delivered_world) "delivered").
  vm_compute. reflexivity.
Defined.

(** Only the driver a shipment is assigned to adds rows to its track, and
    only rows with coordinates in range: whenever a call of the tracking
    route changes the table of locations, the caller has the role driver,
    the shipment named by the body exists and is assigned to the caller,
    the latitude is a number in [-90, 90] and the longitude one in
    [-180, 180], and the table has grown by exactly the row of the call. *)
Theorem only_the_assigned_driver_stores_samples :
  forall (parseNumber : string -> option Q)
         (pick_latest : list TrackingLocationModel.Location
                        -> option TrackingLocationModel.Location)
         (req : TrackingController.Request) (w : TrackingController.World),
    TrackingController.tracking_locations
      (fst (TrackingController.updateLocation parseNumber pick_latest req w))
    <> TrackingController.tracking_locations w ->
    (exists s,
        TrackingController.shipments w !! TrackingController.shipment_key req = Some s
        /\ may_store req s)
    /\ TrackingController.tracking_locations
         (fst (TrackingController.updateLocation parseNumber pick_latest req w))
       = (TrackingController.tracking_locations w ++ [inserted_row req w])%list.
Proof.
  intros parseNumber pick_latest req w Hchanged.
  destruct (updateLocation_answered parseNumber pick_latest req w) as (r & _ & Hhow).
  destruct Hhow as [c k Hin | s Hs Hmay Hpending | s Hs Hmay].
  - contradiction.
  - split; [exists s; split; assumption | reflexivity].
  - split; [exists s; split; assumption | reflexivity].
Qed.

(** The first sample of shipment 1 is stored for driver 7. *)
Lemma driver7_stores_the_first_sample :
  (exists s,
      TrackingController.shipments Scenario.fresh_world
        !! TrackingController.shipment_key Scenario.first_sample = Some s
      /\ may_store Scenario.first_sample s)
  /\ TrackingController.tracking_locations
       (fst (TrackingController.updateLocation Scenario.no_numeric_text
               TrackingLocationModel.latest_inserted Scenario.first_sample
               Scenario.fresh_world))
     = (TrackingController.tracking_locations Scenario.fresh_world
        ++ [inserted_row Scenario.first_sample Scenario.fresh_world])%list.
Proof.
  apply (only_the_assigned_driver_stores_samples Scenario.no_numeric_text
           TrackingLocationModel.latest_inserted Scenario.first_sample Scenario.fresh_world).
  vm_compute. discriminate.
Defined.

(** The tracking route looks at the status of a shipment only to see
    whether it is pending: a valid sample sent by the assigned driver for a
    shipment in any other status (in transit, delivered, cancelled) is
    stored and answered 201 with that status, which is left as it is. *)
Theorem sample_for_a_shipment_not_pending_is_stored :
  forall (parseNumber : string -> option Q)
         (pick_latest : list TrackingLocationModel.Location
                        -> option TrackingLocationModel.Location)
         (req : TrackingController.Request) (w : TrackingController.World)
         (s : ShipmentModel.Shipment),
    role (TrackingController.user req) = "driver" ->
    Validator.validate parseNumber Validator.updateLocationSchema
      (TrackingController.body req) = Ret tt ->
    ShipmentModel.findById (TrackingController.shipments w)
      (field (TrackingController.body req) "shipment_id") None None = Some s ->
    ShipmentModel.driver_id s = user_id (TrackingController.user req) ->
    ShipmentModel.status s <> "pending" ->
    snd (TrackingController.updateLocation parseNumber pick_latest req w)
    = TrackingController.Responded
        (TrackingController.Created (inserted_row req w) (ShipmentModel.status s))
    /\ TrackingController.shipments
         (fst (TrackingController.updateLocation parseNumber pick_latest req w))
       = TrackingController.shipments w
    /\ TrackingController.tracking_locations
         (fst (TrackingController.updateLocation parseNumber pick_latest req w))
       = (TrackingController.tracking_locations w ++ [inserted_row req w])%list.
Proof.
  intros parseNumber pick_latest req w s Hrole Hvalid Hfound Hdriver Hstatus.
  assert (Hnot : String.eqb (ShipmentModel.status s) "pending" = false)
    by (apply String.eqb_neq; exact Hstatus).
  destruct (validated_coordinates parseNumber _ Hvalid) as [Hlatitude Hlongitude].
  unfold TrackingController.updateLocation.
  rewrite !steps_S. cbn [TrackingController.step]. unfold TrackingController.middleware.
  rewrite Hrole, Hvalid.
  replace (String.eqb "driver" "driver") with true by reflexivity.
  cbn [fst snd TrackingController.step]. rewrite Hfound.
  unfold TrackingController.after_findById.
  rewrite Hrole, Hdriver, Z.eqb_refl, Hlatitude, Hlongitude.
  replace (String.eqb "driver" "driver") with true by reflexivity.
  replace (String.eqb "driver" "admin") with false by reflexivity.
  cbn [andb negb fst snd TrackingController.step].
  fold (inserted_row req w).
  unfold TrackingController.after_latest. rewrite Hnot, andb_false_r.
  cbn [fst snd TrackingController.step]. rewrite steps_responded.
  unfold TrackingController.created. rewrite Hnot, andb_false_r.
  cbn [fst snd TrackingController.shipments TrackingController.tracking_locations].
  split; [reflexivity |]. split; reflexivity.
Qed.

(** Driver 7 goes on sending samples for shipment 1 after its delivery. *)
Lemma sample_after_delivery_is_stored :
  snd (TrackingController.updateLocation Scenario.no_numeric_text
         TrackingLocationModel.latest_inserted Scenario.first_sample_again
         Scenario.delivered_world)
  = TrackingController.Responded
      (TrackingController.Created
         (inserted_row Scenario.first_sample_again Scenario.delivered_world)
         (ShipmentModel.status (ShipmentModel.mkShipment 1 7 None "delivered")))
  /\ TrackingController.shipments
       (fst (TrackingController.updateLocation Scenario.no_numeric_text
               TrackingLocationModel.latest_inserted Scenario.first_sample_again
               Scenario.delivered_world))
     = TrackingController.shipments Scenario.delivered_world
  /\ TrackingController.tracking_locations
       (fst (TrackingController.updateLocation Scenario.no_numeric_text
               TrackingLocationModel.latest_inserted Scenario.first_sample_again
               Scenario.delivered_world))
     = (TrackingController.tracking_locations Scenario.delivered_world
        ++ [inserted_row Scenario.first_sample_again Scenario.delivered_world])%list.
Proof.
  apply (sample_for_a_shipment_not_pending_is_stored Scenario.no_numeric_text
           TrackingLocationModel.latest_inserted Scenario.first_sample_again
           Scenario.delivered_world (ShipmentModel.mkShipment 1 7 None "delivered")).
  - reflexivity.
  - vm_compute. reflexivity.
  - vm_compute. reflexivity.
  - reflexivity.
  - discriminate.
Defined.

(** A pending shipment leaves its status by any sample that is the most
    recent of its track, first or not: when the shipment is pending and
    all its rows were recorded before the row of the call, a valid sample
    of the assigned driver is stored, the status is written to in_transit,
    and the call is answered 500. *)
Theorem latest_sample_moves_a_pending_shipment :
  forall (parseNumber : string -> option Q)
         (pick_latest : list TrackingLocationModel.Location
                        -> option TrackingLocationModel.Location)
         (req : TrackingController.Request) (w : TrackingController.World)
         (s : ShipmentModel.Shipment),
    TrackingLocationModel.latest_of pick_latest ->
    role (TrackingController.user req) = "driver" ->
    Validator.validate parseNumber Validator.updateLocationSchema
      (TrackingController.body req) = Ret tt ->
    ShipmentModel.findById (TrackingController.shipments w)
      (field (TrackingController.body req) "shipment_id") None None = Some s ->
    ShipmentModel.driver_id s = user_id (TrackingController.user req) ->
    ShipmentModel.status s = "pending" ->
    Forall (fun l => (TrackingLocationModel.recorded_at l < TrackingController.at_time req)%Z)
      (TrackingLocationModel.of_shipment (TrackingController.shipment_key req)
         (TrackingController.tracking_locations w)) ->
    snd (TrackingController.updateLocation parseNumber pick_latest req w)
    = TrackingController.Responded (TrackingController.Failed 500 "INTERNAL_ERROR")
    /\ TrackingController.shipments
         (fst (TrackingController.updateLocation parseNumber pick_latest req w))
       = ShipmentModel.set_status (TrackingController.shipments w)
           (TrackingController.shipment_key req) "in_transit"
    /\ TrackingController.tracking_locations
         (fst (TrackingController.updateLocation parseNumber pick_latest req w))
       = (TrackingController.tracking_locations w ++ [inserted_row req w])%list.
Proof.
  intros parseNumber pick_latest req w s Hpick Hrole Hvalid Hfound Hdriver Hstatus Hbefore.
  destruct (validated_coordinates parseNumber _ Hvalid) as [Hlatitude Hlongitude].
  unfold TrackingController.updateLocation.
  rewrite !steps_S. cbn [TrackingController.step]. unfold TrackingController.middleware.
  rewrite Hrole, Hvalid.
  replace (String.eqb "driver" "driver") with true by reflexivity.
  cbn [fst snd TrackingController.step]. rewrite Hfound.
  unfold TrackingController.after_findById.
  rewrite Hrole, Hdriver, Z.eqb_refl, Hlatitude, Hlongitude.
  replace (String.eqb "driver" "driver") with true by reflexivity.
  replace (String.eqb "driver" "admin") with false by reflexivity.
  cbn [andb negb fst snd TrackingController.step].
  fold (inserted_row req w).
  rewrite (inserted_row_is_latest pick_latest Hpick req w Hbefore).
  unfold TrackingController.after_latest. rewrite Z.eqb_refl, Hstatus.
  replace (String.eqb "pending" "pending") with true by reflexivity.
  cbn [andb fst snd TrackingController.step TrackingController.errorHandler].
  rewrite steps_responded.
  cbn [fst snd TrackingController.shipments TrackingController.tracking_locations].
  split; [reflexivity |]. split; reflexivity.
Qed.

(** The first sample of shipment 1 moves it to in_transit. *)
Lemma first_sample_moves_shipment_1 :
  snd (TrackingController.updateLocation Scenario.no_numeric_text
         TrackingLocationModel.latest_inserted Scenario.first_sample Scenario.fresh_world)
  = TrackingController.Responded (TrackingController.Failed 500 "INTERNAL_ERROR")
  /\ TrackingController.shipments
       (fst (TrackingController.updateLocation Scenario.no_numeric_text
               TrackingLocationModel.latest_inserted Scenario.first_sample
               Scenario.fresh_world))
     = ShipmentModel.set_status (TrackingController.shipments Scenario.fresh_world)
         (TrackingController.shipment_key Scenario.first_sample) "in_transit"
  /\ TrackingController.tracking_locations
       (fst (TrackingController.updateLocation Scenario.no_numeric_text
               TrackingLocationModel.latest_inserted Scenario.first_sample
               Scenario.fresh_world))
     = (TrackingController.tracking_locations Scenario.fresh_world
        ++ [inserted_row Scenario.first_sample Scenario.fresh_world])%list.
Proof.
  apply (latest_sample_moves_a_pending_shipment Scenario.no_numeric_text
           TrackingLocationModel.latest_inserted Scenario.first_sample Scenario.fresh_world
           (ShipmentModel.mkShipment 1 7 None "pending")).
  - exact latest_inserted_is_latest.
  - reflexivity.
  - vm_compute. reflexivity.
  - vm_compute. reflexivity.
  - reflexivity.
  - reflexivity.
  - constructor.
Defined.

(** ** The confirmation of a delivery *)

Section Delivery.

Import ShipmentModel.

Variable parseNumber : string -> option Q.
Variable showNumber : Q -> string.

Lemma confirmDelivery_settled (req : ShipmentController.Request)
    (w : TrackingController.World) :
  Settled req w
    (fst (ShipmentController.confirmDelivery parseNumber showNumber req w))
    (snd (ShipmentController.confirmDelivery parseNumber showNumber req w)).
Proof.
  unfold ShipmentController.confirmDelivery, ShipmentController.middleware.
  destruct (String.eqb_spec (role (ShipmentController.user req)) "driver")
    as [Hrole | Hrole]; cycle 1.
  { cbn. apply NotConfirmed. cbn. tauto. }
  unfold Schema.validate.
  destruct (Schema.errors parseNumber showNumber Schema.confirmDeliverySchema _); cycle 1.
  { cbn. apply NotConfirmed. cbn. tauto. }
  unfold ShipmentModel.confirmDelivery.
  destruct (Schema.digits_value (ShipmentController.id req)) as [k |] eqn:Hk; cycle 1.
  { cbn. apply NotConfirmed. cbn. tauto. }
  destruct (TrackingController.shipments w !! k) as [s |] eqn:Hs; cycle 1.
  { cbn. apply NotConfirmed. cbn. tauto. }
  destruct (Z.eqb_spec (driver_id s) (user_id (ShipmentController.user req)))
    as [Hdriver | Hdriver]; cbn [negb]; cycle 1.
  { cbn. apply NotConfirmed. cbn. tauto. }
  destruct (String.eqb_spec (status s) "delivered") as [Hdone | Hdone].
  { cbn. apply NotConfirmed. cbn. tauto. }
  destruct (String.eqb_spec (status s) "in_transit") as [Hmoving | Hmoving];
    cbn [negb]; cycle 1.
  { cbn. apply NotConfirmed. cbn. tauto. }
  unfold set_status. rewrite Hs, lookup_insert_eq. cbn [fst snd default].
  cbn [TrackingController.journal].
  apply (NowDelivered req w k s); assumption.
Qed.

End Delivery.

Section Life.

Import ShipmentModel.

Variable parseNumber : string -> option Q.
Variable showNumber : Q -> string.
Variable pick_latest : list TrackingLocationModel.Location
                       -> option TrackingLocationModel.Location.

Lemma advances_trans (a b c : string) : advances a b -> advances b c -> advances a c.
Proof.
  intros Hab Hbc. destruct Hab; inversion Hbc; subst; try constructor; discriminate.
Qed.

Lemma serve_advances (w : TrackingController.World) (call : Call) (k : Z) (s : Shipment) :
  TrackingController.shipments w !! k = Some s ->
  exists s',
    TrackingController.shipments (serve parseNumber showNumber pick_latest w call) !! k
    = Some s'
    /\ advanced s s'.
Proof.
  intros Hs. destruct call as [req | req]; cbn [serve].
  - destruct (updateLocation_answered parseNumber pick_latest req w) as (r & _ & Hhow).
    destruct Hhow as [c code Hin | s0 Hs0 Hmay Hpending | s0 Hs0 Hmay].
    + exists s. repeat split; [exact Hs | constructor].
    + cbn [TrackingController.shipments]. rewrite lookup_set_status.
      destruct (Z.eqb_spec (TrackingController.shipment_key req) k) as [Hk | Hk].
      * rewrite Hk in Hs0. rewrite Hs0 in Hs. injection Hs as ->.
        rewrite Hs0. cbn [option_map]. eexists. split; [reflexivity |].
        repeat split. cbn [status]. rewrite Hpending. constructor.
      * exists s. repeat split; [exact Hs | constructor].
    + exists s. repeat split; [exact Hs | constructor].
  - pose proof (confirmDelivery_settled parseNumber showNumber req w) as Hhow.
    destruct Hhow as [c code Hin | k0 s0 Hrole Hk0 Hs0 Hdriver Hmoving].
    + exists s. repeat split; [exact Hs | constructor].
    + cbn [TrackingController.shipments].
      destruct (Z.eq_dec k0 k) as [-> | Hk].
      * rewrite Hs0 in Hs. injection Hs as ->. rewrite lookup_insert_eq.
        eexists. split; [reflexivity |].
        repeat split. cbn [delivered status]. rewrite Hmoving. constructor.
      * rewrite lookup_insert_ne by exact Hk.
        exists s. repeat split; [exact Hs | constructor].
Qed.

Lemma serve_all_advances (calls : list Call) (w : TrackingController.World) (k : Z)
    (s : Shipment) :
  TrackingController.shipments w !! k = Some s ->
  exists s',
    TrackingController.shipments
      (fold_left (serve parseNumber showNumber pick_latest) calls w) !! k = Some s'
    /\ advanced s s'.
Proof.
  revert w s. induction calls as [| call calls IH]; intros w s Hs; cbn [fold_left].
  - exists s. repeat split; [exact Hs | constructor].
  - destruct (serve_advances w call k s Hs) as (s1 & Hs1 & Hid1 & Hdr1 & Horg1 & Hadv1).
    destruct (IH _ _ Hs1) as (s2 & Hs2 & Hid2 & Hdr2 & Horg2 & Hadv2).
    exists s2. split; [exact Hs2 |].
    repeat split; [congruence | congruence | congruence |].
    exact (advances_trans _ _ _ Hadv1 Hadv2).
Qed.

End Life.

(** A confirmation of delivery that is refused changes nothing: the store
    and the journal are as before, and the answer is one of 401
    UNAUTHORIZED, 401 TOKEN_EXPIRED and 500 INTERNAL_ERROR, by which
    [authenticate] and the error handler refuse a call without a token
    that is valid now, 403 FORBIDDEN, 400 VALIDATION_ERROR, 404
    SHIPMENT_NOT_FOUND, 403 SHIPMENT_ACCESS_DENIED, 400 ALREADY_DELIVERED
    and 400 INVALID_STATUS. *)
Theorem refused_confirmation_changes_nothing :
  forall (parseNumber : string -> option Q) (showNumber : Q -> string)
         (verify : string -> Auth.Verdict)
         (a : ShipmentController.Arrival) (w : TrackingController.World)
         (statusCode : Z) (code : string),
    snd (ShipmentController.post_confirm_delivery parseNumber showNumber verify a w)
    = ShipmentController.Failed statusCode code ->
    fst (ShipmentController.post_confirm_delivery parseNumber showNumber verify a w) = w
    /\ In (statusCode, code) delivery_route_refusals.
Proof.
  intros parseNumber showNumber verify a w statusCode code.
  unfold ShipmentController.post_confirm_delivery.
  destruct (Auth.authenticate verify (ShipmentController.authorization a))
    as [caller | e] eqn:Hauth.
  - set (req := ShipmentController.mkRequest caller _ _ _).
    intros Hanswer.
    pose proof (confirmDelivery_settled parseNumber showNumber req w) as Hhow.
    rewrite Hanswer in Hhow.
    remember (ShipmentController.Failed statusCode code) as r eqn:Hr.
    destruct Hhow as [c k Hin | k s Hrole Hk Hs Hdriver Hmoving]; [| discriminate].
    injection Hr as -> ->. split; [reflexivity |].
    unfold delivery_route_refusals. apply in_or_app. right. right. exact Hin.
  - cbn [fst snd]. intros Hanswer. split; [reflexivity |].
    apply authenticate_refuses in Hauth as [-> | [-> | ->]];
      cbn [ShipmentController.errorHandler] in Hanswer;
      injection Hanswer as <- <-; cbn; tauto.
Qed.

(** A confirmation sent with a token that has expired is refused. *)
Lemma expired_token_confirms_nothing :
  fst (ShipmentController.post_confirm_delivery Scenario.no_numeric_text Scenario.decimal
         Scenario.verify Scenario.confirm_1_with_expired_token Scenario.in_transit_world)
  = Scenario.in_transit_world
  /\ In (401, "TOKEN_EXPIRED") delivery_route_refusals.
Proof.
  apply (refused_confirmation_changes_nothing Scenario.no_numeric_text Scenario.decimal
           Scenario.verify Scenario.confirm_1_with_expired_token Scenario.in_transit_world
           401 "TOKEN_EXPIRED").
  vm_compute. reflexivity.
Defined.

(** A delivery is confirmed only for a shipment in transit and only by the
    driver it is assigned to: when the answer is the confirmed shipment,
    the caller has the role driver, the [:id] parameter is a text of
    digits naming a shipment that was in transit and assigned to the
    caller, that shipment and no other has changed, and its status is now
    delivered. *)
Theorem delivery_is_confirmed_from_in_transit_only :
  forall (parseNumber : string -> option Q) (showNumber : Q -> string)
         (req : ShipmentController.Request) (w : TrackingController.World)
         (shipment : ShipmentModel.Shipment),
    snd (ShipmentController.confirmDelivery parseNumber showNumber req w)
    = ShipmentController.Confirmed shipment ->
    role (ShipmentController.user req) = "driver"
    /\ exists k s,
         Schema.digits_value (ShipmentController.id req) = Some k
         /\ TrackingController.shipments w !! k = Some s
         /\ ShipmentModel.driver_id s = user_id (ShipmentController.user req)
         /\ ShipmentModel.status s = "in_transit"
         /\ shipment = delivered s
         /\ TrackingController.shipments
              (fst (ShipmentController.confirmDelivery parseNumber showNumber req w))
            = <[ k := delivered s ]> (TrackingController.shipments w)
         /\ TrackingController.tracking_locations
              (fst (ShipmentController.confirmDelivery parseNumber showNumber req w))
            = TrackingController.tracking_locations w.
Proof.
  intros parseNumber showNumber req w shipment Hanswer.
  pose proof (confirmDelivery_settled parseNumber showNumber req w) as Hhow.
  rewrite Hanswer in Hhow.
  remember (ShipmentController.Confirmed shipment) as r eqn:Hr.
  destruct Hhow as [c code Hin | k s Hrole Hk Hs Hdriver Hmoving]; [discriminate |].
  injection Hr as <-. split; [exact Hrole |].
  exists k, s. repeat split; assumption || reflexivity.
Qed.

(** Driver 7 confirms the delivery of shipment 1. *)
Lemma driver7_delivers_shipment_1 :
  role (ShipmentController.user Scenario.confirm_1) = "driver"
  /\ exists k s,
       Schema.digits_value (ShipmentController.id Scenario.confirm_1) = Some k
       /\ TrackingController.shipments Scenario.in_transit_world !! k = Some s
       /\ ShipmentModel.driver_id s = user_id (ShipmentController.user Scenario.confirm_1)
       /\ ShipmentModel.status s = "in_transit"
       /\ ShipmentModel.mkShipment 1 7 None "delivered" = delivered s
       /\ TrackingController.shipments
            (fst (ShipmentController.confirmDelivery Scenario.no_numeric_text
                    Scenario.decimal Scenario.confirm_1 Scenario.in_transit_world))
          = <[ k := delivered s ]> (TrackingController.shipments Scenario.in_transit_world)
       /\ TrackingController.tracking_locations
            (fst (ShipmentController.confirmDelivery Scenario.no_numeric_text
                    Scenario.decimal Scenario.confirm_1 Scenario.in_transit_world))
          = TrackingController.tracking_locations Scenario.in_transit_world.
Proof.
  apply (delivery_is_confirmed_from_in_transit_only Scenario.no_numeric_text
           Scenario.decimal Scenario.confirm_1 Scenario.in_transit_world
           (ShipmentModel.mkShipment 1 7 None "delivered")).
  vm_compute. reflexivity.
Defined.

(** A delivery is confirmed once: the same confirmation sent again after
    it succeeded is refused with 400 ALREADY_DELIVERED and changes nothing. *)
Theorem delivery_is_confirmed_once :
  forall (parseNumber : string -> option Q) (showNumber : Q -> string)
         (req : ShipmentController.Request) (w : TrackingController.World)
         (shipment : ShipmentModel.Shipment),
    snd (ShipmentController.confirmDelivery parseNumber showNumber req w)
    = ShipmentController.Confirmed shipment ->
    ShipmentController.confirmDelivery parseNumber showNumber req
      (fst (ShipmentController.confirmDelivery parseNumber showNumber req w))
    = (fst (ShipmentController.confirmDelivery parseNumber showNumber req w),
       ShipmentController.Failed 400 "ALREADY_DELIVERED").
Proof.
  intros parseNumber showNumber req w shipment Hanswer.
  pose proof (confirmDelivery_settled parseNumber showNumber req w) as Hhow.
  rewrite Hanswer in Hhow.
  remember (ShipmentController.Confirmed shipment) as r eqn:Hr.
  destruct Hhow as [c code Hin | k s Hrole Hk Hs Hdriver Hmoving]; [discriminate |].
  clear Hr.
  assert (Hpassed : ShipmentController.middleware parseNumber showNumber req = Ret tt).
  { revert Hanswer. unfold ShipmentController.confirmDelivery.
    destruct (ShipmentController.middleware parseNumber showNumber req) as [[] | e];
      [reflexivity | destruct e; discriminate]. }
  unfold ShipmentController.confirmDelivery. rewrite Hpassed.
  unfold ShipmentModel.confirmDelivery. rewrite Hk.
  cbn [TrackingController.shipments]. rewrite lookup_insert_eq.
  cbn [delivered ShipmentModel.driver_id ShipmentModel.status].
  rewrite Hdriver, Z.eqb_refl. cbn [negb]. reflexivity.
Qed.

(** The delivery of shipment 1 confirmed twice. *)
Lemma second_confirmation_is_refused :
  ShipmentController.confirmDelivery Scenario.no_numeric_text Scenario.decimal
    Scenario.confirm_1
    (fst (ShipmentController.confirmDelivery Scenario.no_numeric_text Scenario.decimal
            Scenario.confirm_1 Scenario.in_transit_world))
  = (fst (ShipmentController.confirmDelivery Scenario.no_numeric_text Scenario.decimal
            Scenario.confirm_1 Scenario.in_transit_world),
     ShipmentController.Failed 400 "ALREADY_DELIVERED").
Proof.
  apply (delivery_is_confirmed_once Scenario.no_numeric_text Scenario.decimal
           Scenario.confirm_1 Scenario.in_transit_world
           (ShipmentModel.mkShipment 1 7 None "delivered")).
  vm_compute. reflexivity.
Defined.

(** The status of a shipment only advances: through any list of location
    updates and delivery confirmations served one after the other, a
    shipment stays in the store with its id, its driver and its
    organization, and its status is what it was or has gone from pending
    to in_transit, from in_transit to delivered, or through both.  So a
    delivered shipment stays delivered, and neither route moves a shipment
    back to pending. *)
Theorem status_only_advances :
  forall (parseNumber : string -> option Q) (showNumber : Q -> string)
         (pick_latest : list TrackingLocationModel.Location
                        -> option TrackingLocationModel.Location)
         (calls : list Call) (w : TrackingController.World) (k : Z)
         (s : ShipmentModel.Shipment),
    TrackingController.shipments w !! k = Some s ->
    exists s',
      TrackingController.shipments
        (fold_left (serve parseNumber showNumber pick_latest) calls w) !! k = Some s'
      /\ ShipmentModel.id s' = ShipmentModel.id s
      /\ ShipmentModel.driver_id s' = ShipmentModel.driver_id s
      /\ ShipmentModel.organization_id s' = ShipmentModel.organization_id s
      /\ advances (ShipmentModel.status s) (ShipmentModel.status s').
Proof.
  intros parseNumber showNumber pick_latest calls w k s Hs.
  exact (serve_all_advances parseNumber showNumber pick_latest calls w k s Hs).
Qed.

(** Shipment 1 from its first sample to its delivery, and a sample after it. *)
Lemma shipment_1_advances :
  exists s',
    TrackingController.shipments
      (fold_left (serve Scenario.no_numeric_text Scenario.decimal
                    TrackingLocationModel.latest_inserted)
         [Track Scenario.first_sample; Deliver Scenario.confirm_1;
          Track Scenario.first_sample_again]
         Scenario.fresh_world) !! 1 = Some s'
    /\ ShipmentModel.id s' = 1
    /\ ShipmentModel.driver_id s' = 7
    /\ ShipmentModel.organization_id s' = None
    /\ advances "pending" (ShipmentModel.status s').
Proof.
  apply (status_only_advances Scenario.no_numeric_text Scenario.decimal
           TrackingLocationModel.latest_inserted
           [Track Scenario.first_sample; Deliver Scenario.confirm_1;
            Track Scenario.first_sample_again]
           Scenario.fresh_world 1 (ShipmentModel.mkShipment 1 7 None "pending")).
  reflexivity.
Defined.

(** ** The route analysis *)

Section RouteAnalysis.

Import RouteAnalysisService.

Local Open Scope R_scope.





Lemma fold_Rmax (l : list R) (x : R) :
  x <= fold_left Rmax l x
  /\ Forall (fun y => y <= fold_left Rmax l x) l
  /\ (fold_left Rmax l x = x \/ In (fold_left Rmax l x) l).
Proof.
  revert x. induction l as [| y l IH]; intros x; cbn [fold_left].
  - split; [lra |]. split; [constructor | left; reflexivity].
  - destruct (IH (Rmax x y)) as (Hge & Hall & Hin).
    pose proof (Rmax_l x y) as Hl. pose proof (Rmax_r x y) as Hr.
    split; [lra |]. split.
    + constructor; [lra | exact Hall].
    + destruct Hin as [Heq | Hin]; [| right; right; exact Hin].
      rewrite Heq. unfold Rmax. destruct (Rle_dec x y); [right; left | left]; reflexivity.
Qed.

(** The loop of [getPerformanceGrade] on a finite speed, in closed form. *)
Lemma grade_of_finite (v : R) :
  getPerformanceGrade (Num.Finite v)
  = if Rle_dec 0 v
    then (if Rlt_dec v 15 then "EXCELLENT"
          else if Rlt_dec v 30 then "GOOD"
          else if Rlt_dec v 45 then "AVERAGE"
          else "POOR")
    else "POOR".
Proof.
  unfold getPerformanceGrade, performanceMetrics.
  cbn [grade_among]. unfold in_range. cbn [fst snd Num.ge Num.lt].
  unfold Num.Rleb, Num.Rltb.
  destruct (Rle_dec 0 v), (Rlt_dec v 15), (Rle_dec 15 v), (Rlt_dec v 30), (Rle_dec 30 v),
    (Rlt_dec v 45), (Rle_dec 45 v); cbn; try reflexivity; lra.
Qed.


End RouteAnalysis.

(** [getMaxSpeed] of a track with a sample is the greatest of its speeds,
    a null speed counting as 0: it is the speed of one of the samples and
    no sample is faster.  Of no sample it is minus infinity. *)
Theorem max_speed_is_the_greatest_speed :
  RouteAnalysisService.getMaxSpeed [] = Num.MinusInfinity
  /\ forall (first : Sample) (rest : list Sample),
       exists m,
         RouteAnalysisService.getMaxSpeed (first :: rest) = Num.Finite m
         /\ Forall (fun t => (Num.or_default (speed t) 0 <= m)%R) (first :: rest)
         /\ Exists (fun t => Num.or_default (speed t) 0 = m) (first :: rest).
Proof.
  split; [reflexivity |]. intros first rest.
  unfold RouteAnalysisService.getMaxSpeed. cbn [map Num.max_of].
  set (speeds := map (fun t => Num.or_default (speed t) 0) rest).
  destruct (fold_Rmax speeds (Num.or_default (speed first) 0)) as (Hge & Hall & Hin).
  eexists. split; [reflexivity |]. split.
  - constructor; [exact Hge |].
    unfold speeds in Hall. rewrite List.Forall_map in Hall. exact Hall.
  - destruct Hin as [Heq | Hin].
    + apply Exists_cons_hd. symmetry. exact Heq.
    + apply Exists_cons_tl. unfold speeds in Hin. apply in_map_iff in Hin as (t & Ht & Hin).
      apply List.Exists_exists. exists t. split; [exact Hin | exact Ht].
Qed.

(** The grade of an average speed, band by band: EXCELLENT from 0 to
    below 15, GOOD from 15 to below 30, AVERAGE from 30 to below 45, and
    POOR for everything else: 45 and above, a negative speed, an infinite
    one and NaN. *)
Theorem performance_grade_by_band :
  forall v : R,
    ((0 <= v < 15)%R ->
     RouteAnalysisService.getPerformanceGrade (Num.Finite v) = "EXCELLENT")
    /\ ((15 <= v < 30)%R ->
        RouteAnalysisService.getPerformanceGrade (Num.Finite v) = "GOOD")
    /\ ((30 <= v < 45)%R ->
        RouteAnalysisService.getPerformanceGrade (Num.Finite v) = "AVERAGE")
    /\ ((v < 0 \/ 45 <= v)%R ->
        RouteAnalysisService.getPerformanceGrade (Num.Finite v) = "POOR")
    /\ RouteAnalysisService.getPerformanceGrade Num.PlusInfinity = "POOR"
    /\ RouteAnalysisService.getPerformanceGrade Num.MinusInfinity = "POOR"
    /\ RouteAnalysisService.getPerformanceGrade Num.NaN = "POOR".
Proof.
  intros v. rewrite grade_of_finite.
  repeat split; try reflexivity; intros Hband;
    destruct (Rle_dec 0 v), (Rlt_dec v 15), (Rlt_dec v 30), (Rlt_dec v 45);
    try reflexivity; lra.
Qed.




(** ** The estimates of the ETA service *)

Section Estimates.

Local Open Scope R_scope.






End Estimates.



(** ** Joining and leaving a room *)

(** The handler's answer to a subscriber its rule admits. *)
Lemma join_admitted (table : gmap Z ShipmentModel.Shipment) (rooms : SocketHandler.Rooms)
    (socket : SocketHandler.Socket) (data : gmap string jsval) (k : Z)
    (shipment : ShipmentModel.Shipment) :
  truthy (field data "shipment_id") = true ->
  as_integer (field data "shipment_id") = Some k ->
  table !! k = Some shipment ->
  SocketHandler.admitted (SocketHandler.socket_user socket) shipment = true ->
  SocketHandler.handleJoinShipment (Ret table) rooms socket data
  = ({[ (SocketHandler.socket_id socket, k) ]} ∪ rooms, SocketHandler.JoinedShipment k).
Proof.
  intros Htruthy Hk Hshipment Hadmitted.
  unfold SocketHandler.handleJoinShipment, SocketHandler.join_body.
  assert (Hnumber : is_number (field data "shipment_id") = true).
  { destruct (field data "shipment_id"); try discriminate. reflexivity. }
  rewrite Htruthy, Hnumber. cbn [negb orb mbind outcome_bind].
  rewrite (findById_found table _ _ k shipment Hk Hshipment).
  unfold SocketHandler.admitted in Hadmitted.
  apply andb_true_iff in Hadmitted as [Hdriver Horganization].
  apply negb_true_iff in Hdriver, Horganization.
  rewrite Hdriver, Horganization, Hk. reflexivity.
Qed.

(** A subscriber the rule of the handler admits joins the room: for a
    non-zero integer identifier of a shipment in the store and a caller
    who is its driver, or an administrator not of another organization,
    or of any other role, the handler answers joined_shipment, the
    connection receives the publishes of the shipment from then on, and
    every membership there was is kept. *)
Theorem admitted_subscribe_joins_the_room :
  forall (table : gmap Z ShipmentModel.Shipment) (rooms : SocketHandler.Rooms)
         (socket : SocketHandler.Socket) (data : gmap string jsval) (k : Z)
         (shipment : ShipmentModel.Shipment),
    truthy (field data "shipment_id") = true ->
    as_integer (field data "shipment_id") = Some k ->
    table !! k = Some shipment ->
    SocketHandler.admitted (SocketHandler.socket_user socket) shipment = true ->
    snd (SocketHandler.handleJoinShipment (Ret table) rooms socket data)
    = SocketHandler.JoinedShipment k
    /\ (SocketHandler.socket_id socket
        ∈ SocketHandler.recipients
            (fst (SocketHandler.handleJoinShipment (Ret table) rooms socket data)) k)
    /\ (forall s k',
          s ∈ SocketHandler.recipients rooms k' ->
          s ∈ SocketHandler.recipients
                (fst (SocketHandler.handleJoinShipment (Ret table) rooms socket data)) k').
Proof.
  intros table rooms socket data k shipment Htruthy Hk Hshipment Hadmitted.
  rewrite (join_admitted table rooms socket data k shipment Htruthy Hk Hshipment Hadmitted).
  cbn [fst snd]. split; [reflexivity |]. split.
  - rewrite elem_of_recipients, elem_of_union, elem_of_singleton. left. reflexivity.
  - intros s k'. rewrite !elem_of_recipients, elem_of_union. intros Hin. right. exact Hin.
Qed.

(** The assigned driver joins the room of shipment 1. *)
Lemma assigned_driver_joins_room_1 :
  snd (SocketHandler.handleJoinShipment (Ret Scenario.one_shipment) ∅
         Scenario.assigned_driver Scenario.join_1)
  = SocketHandler.JoinedShipment 1
  /\ (SocketHandler.socket_id Scenario.assigned_driver
      ∈ SocketHandler.recipients
          (fst (SocketHandler.handleJoinShipment (Ret Scenario.one_shipment) ∅
                  Scenario.assigned_driver Scenario.join_1)) 1)
  /\ (forall s k',
        s ∈ SocketHandler.recipients ∅ k' ->
        s ∈ SocketHandler.recipients
              (fst (SocketHandler.handleJoinShipment (Ret Scenario.one_shipment) ∅
                      Scenario.assigned_driver Scenario.join_1)) k').
Proof.
  apply (admitted_subscribe_joins_the_room Scenario.one_shipment ∅
           Scenario.assigned_driver Scenario.join_1 1
           (ShipmentModel.mkShipment 1 2 (Some 7) "pending")); reflexivity.
Defined.

(** Joining a room and leaving it again is a round trip: for a subscriber
    the handler admits who was not in the room, the rooms after the join
    and the leave are the rooms before; and joining a second time changes
    nothing. *)
Theorem join_then_leave_restores_the_rooms :
  forall (table : gmap Z ShipmentModel.Shipment) (rooms : SocketHandler.Rooms)
         (socket : SocketHandler.Socket) (data : gmap string jsval) (k : Z)
         (shipment : ShipmentModel.Shipment),
    truthy (field data "shipment_id") = true ->
    as_integer (field data "shipment_id") = Some k ->
    table !! k = Some shipment ->
    SocketHandler.admitted (SocketHandler.socket_user socket) shipment = true ->
    (SocketHandler.socket_id socket, k) ∉ rooms ->
    fst (SocketHandler.handleLeaveShipment
           (fst (SocketHandler.handleJoinShipment (Ret table) rooms socket data))
           socket data) = rooms
    /\ fst (SocketHandler.handleJoinShipment (Ret table)
              (fst (SocketHandler.handleJoinShipment (Ret table) rooms socket data))
              socket data)
       = fst (SocketHandler.handleJoinShipment (Ret table) rooms socket data).
Proof.
  intros table rooms socket data k shipment Htruthy Hk Hshipment Hadmitted Hout.
  rewrite !(join_admitted table _ socket data k shipment Htruthy Hk Hshipment Hadmitted).
  cbn [fst]. unfold SocketHandler.handleLeaveShipment.
  assert (Hnumber : is_number (field data "shipment_id") = true).
  { destruct (field data "shipment_id"); try discriminate. reflexivity. }
  rewrite Htruthy, Hnumber, Hk. cbn [negb orb fst]. split.
  - apply set_eq. intros member.
    rewrite elem_of_difference, elem_of_union, elem_of_singleton. split.
    + intros [[-> | Hin] Hne]; [contradiction | exact Hin].
    + intros Hin. split; [right; exact Hin | intros ->; contradiction].
  - apply set_eq. intros member.
    rewrite !elem_of_union, elem_of_singleton. tauto.
Qed.

(** The assigned driver joins the room of shipment 1 and leaves it. *)
Lemma assigned_driver_leaves_no_trace :
  fst (SocketHandler.handleLeaveShipment
         (fst (SocketHandler.handleJoinShipment (Ret Scenario.one_shipment) ∅
                 Scenario.assigned_driver Scenario.join_1))
         Scenario.assigned_driver Scenario.join_1) = ∅
  /\ fst (SocketHandler.handleJoinShipment (Ret Scenario.one_shipment)
            (fst (SocketHandler.handleJoinShipment (Ret Scenario.one_shipment) ∅
                    Scenario.assigned_driver Scenario.join_1))
            Scenario.assigned_driver Scenario.join_1)
     = fst (SocketHandler.handleJoinShipment (Ret Scenario.one_shipment) ∅
              Scenario.assigned_driver Scenario.join_1).
Proof.
  apply (join_then_leave_restores_the_rooms Scenario.one_shipment ∅
           Scenario.assigned_driver Scenario.join_1 1
           (ShipmentModel.mkShipment 1 2 (Some 7) "pending")); try reflexivity.
  apply not_elem_of_empty.
Defined.

(** A join event that carries no payload gets no answer: the handler
    raises while it destructures the payload and raises again in its
    [catch], at [data.shipment_id], before it emits; the rooms are as they
    were.  An object without fields is answered, by Invalid shipment_id. *)
Theorem join_without_payload_is_not_answered :
  forall (db : outcome (gmap Z ShipmentModel.Shipment)) (rooms : SocketHandler.Rooms)
         (socket : SocketHandler.Socket),
    (exists what,
        SocketHandler.on_join_shipment db rooms socket None
        = (rooms, Throw (TypeError what)))
    /\ SocketHandler.on_join_shipment db rooms socket (Some ∅)
       = (rooms, Ret (SocketHandler.ErrorReply "Invalid shipment_id")).
Proof.
  intros db rooms socket. split.
  - eexists. reflexivity.
  - unfold SocketHandler.on_join_shipment, SocketHandler.join_body, field.
    cbn [SocketHandler.fields_of mbind outcome_bind].
    rewrite lookup_empty. reflexivity.
Qed.

(** ** The schemas of the routes *)

Section TrackingNumber.

Import ShipmentModel.

Lemma length_append (s1 s2 : string) :
  String.length (s1 ++ s2) = (String.length s1 + String.length s2)%nat.
Proof.
  induction s1 as [| c s1 IH]; [reflexivity |].
  change (S (String.length (s1 ++ s2)) = S (String.length s1 + String.length s2)).
  f_equal. exact IH.
Qed.

Lemma all_chars_append (class : Ascii.ascii -> bool) (s1 s2 : string) :
  Schema.all_chars class (s1 ++ s2)
  = Schema.all_chars class s1 && Schema.all_chars class s2.
Proof.
  induction s1 as [| c s1 IH]; [reflexivity |].
  change (class c && Schema.all_chars class (s1 ++ s2)
          = class c && Schema.all_chars class s1 && Schema.all_chars class s2).
  rewrite IH, andb_assoc. reflexivity.
Qed.

Lemma length_toUpperCase (s : string) : String.length (toUpperCase s) = String.length s.
Proof.
  induction s as [| c s IH]; [reflexivity |].
  change (S (String.length (toUpperCase s)) = S (String.length s)). f_equal. exact IH.
Qed.

Lemma length_substring (n m : nat) (s : string) :
  (String.length (String.substring n m s) <= m)%nat.
Proof.
  revert n m. induction s as [| c s IH]; intros n m.
  - destruct n, m; cbn; lia.
  - destruct n as [| n].
    + destruct m as [| m]; cbn; [lia |]. specialize (IH O m). lia.
    + cbn. apply IH.
Qed.

(** Every character [toUpperCase] makes of a base-36 digit is in [A-Z0-9]. *)
Lemma upper_of_base36 (c : Ascii.ascii) :
  is_base36 c = true -> Schema.is_upper_or_digit (upper_char c) = true.
Proof.
  destruct c as [[] [] [] [] [] [] [] []]; vm_compute; intros H;
    first [reflexivity | discriminate H].
Qed.

Lemma upper_alnum_of_base36 (s : string) :
  Schema.all_chars is_base36 s = true ->
  Schema.all_chars Schema.is_upper_or_digit (toUpperCase s) = true.
Proof.
  induction s as [| c s IH]; cbn [Schema.all_chars toUpperCase]; [reflexivity |].
  intros H. apply andb_true_iff in H as [Hc Hs].
  rewrite (upper_of_base36 c Hc), (IH Hs). reflexivity.
Qed.

Lemma base36_digit_is_base36 (d : N) : (d < 36)%N -> is_base36 (base36_digit d) = true.
Proof.
  intros Hd.
  assert (Hall : forallb (fun k => is_base36 (base36_digit (N.of_nat k))) (seq 0 36) = true)
    by (vm_compute; reflexivity).
  rewrite forallb_forall in Hall.
  specialize (Hall (N.to_nat d)). rewrite N2Nat.id in Hall.
  apply Hall. apply in_seq. lia.
Qed.

Lemma toString36_from_base36 (fuel : nat) (n : N) (acc : string) :
  Schema.all_chars is_base36 acc = true ->
  Schema.all_chars is_base36 (toString36_from fuel n acc) = true.
Proof.
  revert n acc. induction fuel as [| fuel IH]; intros n acc Hacc; cbn [toString36_from];
    [exact Hacc |].
  assert (Hdigit : Schema.all_chars is_base36 (String (base36_digit (n mod 36)) acc) = true).
  { cbn [Schema.all_chars]. rewrite Hacc, base36_digit_is_base36; [reflexivity |].
    apply N.mod_lt. discriminate. }
  destruct (n / 36 =? 0)%N; [exact Hdigit | apply IH; exact Hdigit].
Qed.

Lemma toString36_from_grows (fuel : nat) (n : N) (acc : string) :
  (String.length acc <= String.length (toString36_from fuel n acc))%nat.
Proof.
  revert n acc. induction fuel as [| fuel IH]; intros n acc; cbn [toString36_from]; [lia |].
  destruct (n / 36 =? 0)%N; [cbn; lia |].
  specialize (IH (n / 36)%N (String (base36_digit (n mod 36)) acc)). cbn in IH. lia.
Qed.

(** A number below [36 ^ k] is written with at most [k] digits. *)
Lemma toString36_from_at_most (k fuel : nat) (n : N) (acc : string) :
  (1 <= k)%nat ->
  (n < 36 ^ N.of_nat k)%N ->
  (String.length (toString36_from fuel n acc) <= String.length acc + k)%nat.
Proof.
  revert fuel n acc. induction k as [| k IH]; intros fuel n acc Hk Hn; [lia |].
  destruct fuel as [| fuel]; cbn [toString36_from]; [lia |].
  destruct (N.eqb_spec (n / 36) 0) as [Hzero | Hmore]; [cbn; lia |].
  destruct k as [| k].
  - exfalso. apply Hmore. apply N.div_small. exact Hn.
  - assert (Hdiv : (n / 36 < 36 ^ N.of_nat (S k))%N).
    { apply N.Div0.div_lt_upper_bound.
      replace (36 * 36 ^ N.of_nat (S k))%N with (36 ^ N.of_nat (S (S k)))%N; [exact Hn |].
      rewrite (Nat2N.inj_succ (S k)), N.pow_succ_r'. reflexivity. }
    specialize (IH fuel (n / 36)%N (String (base36_digit (n mod 36)) acc)
                  ltac:(lia) Hdiv).
    cbn [String.length] in IH. lia.
Qed.

(** A number from [36 ^ k] on is written with more than [k] digits, when
    the loop is given the turns for them. *)
Lemma toString36_from_at_least (k fuel : nat) (n : N) (acc : string) :
  (k < fuel)%nat ->
  (36 ^ N.of_nat k <= n)%N ->
  (String.length acc + k + 1 <= String.length (toString36_from fuel n acc))%nat.
Proof.
  revert fuel n acc. induction k as [| k IH]; intros fuel n acc Hfuel Hn.
  - destruct fuel as [| fuel]; [lia |]. cbn [toString36_from].
    destruct (n / 36 =? 0)%N; [cbn; lia |].
    pose proof (toString36_from_grows fuel (n / 36)%N
                  (String (base36_digit (n mod 36)) acc)) as Hgrows.
    cbn [String.length] in Hgrows. lia.
  - destruct fuel as [| fuel]; [lia |]. cbn [toString36_from].
    assert (Hdiv : (36 ^ N.of_nat k <= n / 36)%N).
    { apply N.div_le_lower_bound; [discriminate |].
      replace (36 * 36 ^ N.of_nat k)%N with (36 ^ N.of_nat (S k))%N; [exact Hn |].
      rewrite Nat2N.inj_succ, N.pow_succ_r'. reflexivity. }
    destruct (N.eqb_spec (n / 36) 0) as [Hzero | Hmore].
    + exfalso. rewrite Hzero in Hdiv.
      assert (0 < 36 ^ N.of_nat k)%N by (apply N.neq_0_lt_0, N.pow_nonzero; discriminate).
      lia.
    + specialize (IH fuel (n / 36)%N (String (base36_digit (n mod 36)) acc)
                    ltac:(lia) Hdiv).
      cbn [String.length] in IH. lia.
Qed.

(** The tracking number made at a millisecond from [36 ^ 7] (in 1972)
    to below [36 ^ 13]: 10 to 20 characters, all in [A-Z0-9]. *)
Lemma generateTrackingNumber_shape (now : N) (random : string) :
  (36 ^ 7 <= now < 36 ^ 13)%N ->
  Schema.all_chars is_base36 (String.substring 2 5 random) = true ->
  (10 <= String.length (generateTrackingNumber now random) <= 20)%nat
  /\ Schema.all_chars Schema.is_upper_or_digit (generateTrackingNumber now random) = true.
Proof.
  intros [Hlow Hhigh] Hrandom. unfold generateTrackingNumber.
  rewrite !length_append, !all_chars_append, !length_toUpperCase.
  pose proof (length_substring 2 5 random) as Hsub.
  assert (Hfuel : (7 < S (N.to_nat (N.log2 now)))%nat).
  { assert (N.log2 (2 ^ 7) <= N.log2 now)%N.
    { apply N.log2_le_mono. apply (N.le_trans _ (36 ^ 7)); [| exact Hlow].
      vm_compute. discriminate. }
    rewrite N.log2_pow2 in H by lia. lia. }
  pose proof (toString36_from_at_least 7 _ now "" Hfuel Hlow) as Hleast.
  pose proof (toString36_from_at_most 13 (S (N.to_nat (N.log2 now))) now ""
                ltac:(lia) Hhigh) as Hmost.
  fold (toString36 now) in Hleast, Hmost. cbn [String.length] in Hleast, Hmost |- *.
  split; [lia |].
  rewrite (upper_alnum_of_base36 (toString36 now)),
    (upper_alnum_of_base36 (String.substring 2 5 random) Hrandom); [reflexivity |].
  apply toString36_from_base36. reflexivity.
Qed.

End TrackingNumber.

Section LocationSchema.

Variable parseNumber : string -> option Q.
Variable showNumber : Q -> string.

(** On an entry that carries number rules only, the loop of the validator
    finds as many problems as its restriction to those rules. *)
Lemma number_entry_agrees (data : gmap string jsval) (name : string) (required : bool)
    (lo hi : option Q) :
  length (Schema.validateField parseNumber showNumber data Schema.Body
            (name, Schema.number_rules required lo hi))
  = length (Validator.validateField parseNumber data
              (name, Validator.mkRules required Validator.TNumber lo hi)).
Proof.
  unfold Schema.validateField, Validator.validateField, Schema.number_rules.
  cbn [fst snd Schema.required Validator.required].
  destruct (required && _); [reflexivity |].
  destruct (field data name) as [| | q | text | b]; try reflexivity;
    rewrite !length_map, !length_app;
    unfold Schema.type_problems, Schema.minLength_problems, Schema.maxLength_problems,
      Schema.pattern_problems, Schema.enum_problems, Schema.min_problems,
      Schema.max_problems, Validator.type_problems, Validator.min_problems,
      Validator.max_problems;
    cbn [Schema.rtype Schema.minLength Schema.maxLength Schema.pattern Schema.enum
           Schema.min Schema.max Validator.rtype Validator.min Validator.max length];
    destruct lo as [lo |], hi as [hi |];
    repeat match goal with
           | |- context [Validator.Number parseNumber ?v] =>
               destruct (Validator.Number parseNumber v)
           | |- context [if Qltb ?a ?b then _ else _] => destruct (Qltb a b)
           end; reflexivity.
Qed.

(** The location schema with all the rules of the validator passes the
    requests that its restriction to the number rules passes. *)
Lemma location_schema_agrees (req : Schema.Request) :
  Schema.validate parseNumber showNumber Schema.updateLocationSchema req
  = Validator.validate parseNumber Validator.updateLocationSchema (Schema.req_body req).
Proof.
  unfold Schema.validate, Validator.validate, Schema.errors, Schema.updateLocationSchema,
    Validator.updateLocationSchema.
  cbn [Schema.body Schema.params Schema.query].
  rewrite !app_nil_r.
  unfold Schema.validateObject, Validator.validateObject. cbn [flat_map].
  set (full := (_ ++ _ ++ _ ++ _ ++ _ ++ [])%list).
  match goal with
  | |- _ = match ?l with [] => _ | _ :: _ => _ end => set (restricted := l)
  end.
  assert (Hlength : length full = length restricted).
  { unfold full, restricted. rewrite !length_app, !number_entry_agrees. reflexivity. }
  destruct full, restricted; try reflexivity; discriminate.
Qed.

End LocationSchema.

(** Every tracking number [generateTrackingNumber] makes is one the tracking-number
    route accepts: for a clock from 36^7 ms (in 1972) to below 36^13 ms and
    a random text whose characters from the third to the seventh are
    base-36 digits, as [toString(36)] writes them, the number has 10 to 20
    characters, all in [A-Z0-9], and [trackingNumberValidation] passes a
    request whose parameter it is. *)
Theorem generated_tracking_number_is_accepted :
  forall (parseNumber : string -> option Q) (showNumber : Q -> string)
         (now : N) (random : string) (req : Schema.Request),
    (36 ^ 7 <= now < 36 ^ 13)%N ->
    Schema.all_chars is_base36 (String.substring 2 5 random) = true ->
    field (Schema.req_params req) "tracking_number"
    = JStr (ShipmentModel.generateTrackingNumber now random) ->
    (10 <= String.length (ShipmentModel.generateTrackingNumber now random) <= 20)%nat
    /\ Schema.upper_alnum (ShipmentModel.generateTrackingNumber now random) = true
    /\ Schema.validate parseNumber showNumber Schema.trackingNumberSchema req = Ret tt.
Proof.
  intros parseNumber showNumber now random req Hnow Hrandom Hparam.
  destruct (generateTrackingNumber_shape now random Hnow Hrandom) as [Hlength Hchars].
  set (number := ShipmentModel.generateTrackingNumber now random) in *.
  assert (Hnonempty : String.eqb number "" = false).
  { destruct number; [cbn in Hlength; lia | reflexivity]. }
  assert (Hpattern : Schema.upper_alnum number = true).
  { unfold Schema.upper_alnum. rewrite Hnonempty, Hchars. reflexivity. }
  split; [exact Hlength |]. split; [exact Hpattern |].
  unfold Schema.validate, Schema.errors, Schema.trackingNumberSchema.
  cbn [Schema.body Schema.params Schema.query Schema.validateObject flat_map app].
  unfold Schema.validateField. cbn [fst snd Schema.required andb]. rewrite Hparam, Hnonempty.
  unfold Schema.type_problems, Schema.minLength_problems, Schema.maxLength_problems,
    Schema.pattern_problems, Schema.enum_problems, Schema.min_problems,
    Schema.max_problems.
  cbn [Schema.rtype Schema.minLength Schema.maxLength Schema.pattern Schema.enum
         Schema.min Schema.max Schema.String_of].
  rewrite Hpattern.
  replace (String.length number <? 10)%nat with false
    by (symmetry; apply Nat.ltb_ge; lia).
  replace (20 <? String.length number)%nat with false
    by (symmetry; apply Nat.ltb_ge; lia).
  reflexivity.
Qed.

(** The number made at the millisecond 1700000000000. *)
Lemma tracking_number_of_2023_is_accepted :
  (10 <= String.length (ShipmentModel.generateTrackingNumber 1700000000000 "0.4fzyo82m")
   <= 20)%nat
  /\ Schema.upper_alnum (ShipmentModel.generateTrackingNumber 1700000000000 "0.4fzyo82m")
     = true
  /\ Schema.validate Scenario.no_numeric_text Scenario.decimal Schema.trackingNumberSchema
       Scenario.by_tracking_number = Ret tt.
Proof.
  apply (generated_tracking_number_is_accepted Scenario.no_numeric_text Scenario.decimal
           1700000000000 "0.4fzyo82m" Scenario.by_tracking_number).
  - vm_compute. split; [discriminate | reflexivity].
  - vm_compute. reflexivity.
  - vm_compute. reflexivity.
Defined.



(** The [:id] parameter of a route is accepted exactly when it is a text
    of one or more digits, and every accepted text denotes a key of the
    store that is not negative. *)
Theorem route_parameter_is_a_text_of_digits :
  forall (parseNumber : string -> option Q) (showNumber : Q -> string)
         (req : Schema.Request),
    (Schema.validate parseNumber showNumber Schema.shipmentIdSchema req = Ret tt
     <-> exists text,
           field (Schema.req_params req) "id" = JStr text /\ Schema.digits text = true)
    /\ (forall text,
          Schema.digits text = true ->
          exists k, Schema.digits_value text = Some k /\ 0 <= k).
Proof.
  intros parseNumber showNumber req. split.
  - unfold Schema.validate, Schema.errors, Schema.shipmentIdSchema.
    cbn [Schema.body Schema.params Schema.query Schema.validateObject flat_map app].
    unfold Schema.validateField, Schema.pattern_rules.
    cbn [fst snd Schema.required andb].
    unfold Schema.type_problems, Schema.minLength_problems, Schema.maxLength_problems,
      Schema.pattern_problems, Schema.enum_problems, Schema.min_problems,
      Schema.max_problems.
    cbn [Schema.rtype Schema.minLength Schema.maxLength Schema.pattern Schema.enum
           Schema.min Schema.max].
    destruct (field (Schema.req_params req) "id") as [| | q | text | b];
      cbn [Schema.String_of app map];
      try (split; [discriminate | intros (text' & Htext & _); discriminate]).
    destruct (String.eqb_spec text "") as [-> | Hnonempty].
    + split; [discriminate |]. intros (text' & Htext & Hdigits).
      injection Htext as <-. discriminate.
    + destruct (Schema.digits text) eqn:Hdigits; cbn [app map].
      * split; [intros _; exists text; split; [reflexivity | exact Hdigits] |].
        reflexivity.
      * split; [discriminate |]. intros (text' & Htext & Hdigits').
        injection Htext as <-. congruence.
  - intros text Hdigits. unfold Schema.digits_value. rewrite Hdigits.
    eexists. split; [reflexivity |].
    unfold Schema.digits in Hdigits. apply andb_true_iff in Hdigits as [_ Hdigits].
    assert (Hfrom : forall s acc,
               Schema.all_chars Schema.is_digit s = true -> 0 <= acc ->
               0 <= Schema.digits_from acc s).
    { induction s as [| c s IH]; intros acc Hs Hacc; cbn [Schema.digits_from];
        [exact Hacc |].
      cbn [Schema.all_chars] in Hs. apply andb_true_iff in Hs as [Hc Hs].
      apply IH; [exact Hs |].
      unfold Schema.is_digit in Hc. apply andb_true_iff in Hc as [Hlow _].
      apply Nat.leb_le in Hlow. unfold Schema.digit_value. lia. }
    apply Hfrom; [exact Hdigits | lia].
Qed.

(** ** The routes that read *)

Section Reading.

Import ShipmentModel TrackingLocationModel.

Lemma findById_of_param_admitted (shipments : gmap Z Shipment) (segment : string)
    (user : User) (s : Shipment) :
  Reads.findById_of_param shipments segment (role user) (user_id user) = Some s ->
  Reads.other_organization user s = false ->
  exists k,
    Schema.digits_value segment = Some k
    /\ shipments !! k = Some s
    /\ SocketHandler.admitted user s = true.
Proof.
  unfold Reads.findById_of_param, Reads.other_organization, SocketHandler.admitted.
  destruct (Schema.digits_value segment) as [k |]; [| discriminate].
  destruct (shipments !! k) as [s' |] eqn:Hlookup; [| discriminate].
  destruct (String.eqb (role user) "driver" && negb (Z.eqb (driver_id s') (user_id user)))
    eqn:Hdriver; [discriminate |].
  intros Hs Horganization. injection Hs as <-.
  exists k. split; [reflexivity |]. split; [exact Hlookup |].
  rewrite Hdriver, Horganization. reflexivity.
Qed.

End Reading.


(** The track of a shipment is read by those the rule admits, and holds
    rows of that shipment only: when the history route answers with
    locations, the segment of the path is a text of digits naming a
    shipment in the store, the caller is its driver, or an administrator
    not of another organization, or of another role, the total is the
    number of locations, and every location is a row of the table filed
    under that shipment. *)
Theorem track_is_read_by_the_admitted_only :
  forall (parseNumber : string -> option Q) (showNumber : Q -> string)
         (not_before not_after : string -> TrackingLocationModel.Location -> bool)
         (by_recorded_at : list TrackingLocationModel.Location
                           -> list TrackingLocationModel.Location)
         (user : User) (segment : string) (query : gmap string jsval)
         (shipments : gmap Z ShipmentModel.Shipment)
         (rows : list TrackingLocationModel.Location)
         (shipment_id : option Z) (locations : list TrackingLocationModel.Location)
         (total : nat),
    hands_over_rows_of by_recorded_at ->
    Reads.getLocationHistory parseNumber showNumber not_before not_after by_recorded_at
      user segment query shipments rows
    = Reads.LocationHistory shipment_id locations total ->
    exists k s,
      Schema.digits_value segment = Some k
      /\ shipment_id = Some k
      /\ shipments !! k = Some s
      /\ SocketHandler.admitted user s = true
      /\ total = length locations
      /\ Forall (fun l => TrackingLocationModel.shipment_id l = k /\ In l rows) locations.
Proof.
  intros parseNumber showNumber not_before not_after by_recorded_at user segment query
    shipments rows shipment_id locations total Horder.
  unfold Reads.getLocationHistory.
  destruct (Schema.validate parseNumber showNumber Schema.trackingHistorySchema _)
    as [[] | e]; [| destruct e; discriminate].
  destruct (Reads.findById_of_param shipments segment (role user) (user_id user))
    as [s |] eqn:Hfound; [| discriminate].
  destruct (Reads.other_organization user s) eqn:Horganization; [discriminate |].
  destruct (findById_of_param_admitted shipments segment user s Hfound Horganization)
    as (k & Hk & Hs & Hadmitted).
  rewrite Hk. cbn [default]. intros Hanswer. injection Hanswer as <- <- <-.
  exists k, s. repeat split; try assumption; try reflexivity.
  apply List.Forall_forall. intros l Hin.
  unfold Reads.getLocationHistory_rows in Hin. apply Horder in Hin.
  apply List.filter_In in Hin as [Hin _].
  unfold TrackingLocationModel.of_shipment in Hin.
  apply List.filter_In in Hin as [Hin Hkey]. apply Z.eqb_eq in Hkey.
  split; [exact Hkey | exact Hin].
Qed.

(** Driver 7 reads the track of the delivered shipment 1. *)
Lemma driver7_reads_the_track_of_shipment_1 :
  exists k s,
    Schema.digits_value "1" = Some k
    /\ Some 1 = Some k
    /\ TrackingController.shipments Scenario.delivered_world !! k = Some s
    /\ SocketHandler.admitted Scenario.driver7 s = true
    /\ 1%nat
       = length (TrackingController.tracking_locations Scenario.delivered_world)
    /\ Forall (fun l =>
                 TrackingLocationModel.shipment_id l = k
                 /\ In l (TrackingController.tracking_locations Scenario.delivered_world))
         (TrackingController.tracking_locations Scenario.delivered_world).
Proof.
  apply (track_is_read_by_the_admitted_only Scenario.no_numeric_text Scenario.decimal
           Scenario.any_date Scenario.any_date Scenario.as_held Scenario.driver7 "1" ∅
           (TrackingController.shipments Scenario.delivered_world)
           (TrackingController.tracking_locations Scenario.delivered_world)).
  - intros rows row Hin. exact Hin.
  - vm_compute. reflexivity.
Defined.

(** The list of shipments stays within the reach of the caller: every
    shipment the list route answers with is in the store, is assigned to
    the caller when the caller is a driver, and belongs to the organization
    of the caller when the caller has one; the total is the length of the
    list.  A caller with no organization who is not a driver is shown the
    shipments of every organization. *)
Theorem shipments_are_listed_within_reach :
  forall (parseNumber : string -> option Q) (showNumber : Q -> string)
         (by_created_at : list ShipmentModel.Shipment -> list ShipmentModel.Shipment)
         (user : User) (query : gmap string jsval)
         (shipments : gmap Z ShipmentModel.Shipment)
         (listed : list ShipmentModel.Shipment) (total : nat),
    hands_over_rows_of by_created_at ->
    Reads.getShipments parseNumber showNumber by_created_at user query shipments
    = Reads.Shipments listed total ->
    total = length listed
    /\ Forall (fun s => (exists k, shipments !! k = Some s) /\ within_reach user s) listed.
Proof.
  intros parseNumber showNumber by_created_at user query shipments listed total Horder.
  unfold Reads.getShipments.
  destruct (Schema.validate parseNumber showNumber Schema.querySchema _) as [[] | e];
    [| destruct e; discriminate].
  intros Hanswer. injection Hanswer as <- <-. split; [reflexivity |].
  assert (Hall : Forall (fun s => (exists k, shipments !! k = Some s) /\ within_reach user s)
                   (Reads.findAll by_created_at shipments (role user) (user_id user)
                      (organizationId user))).
  { apply List.Forall_forall. intros s Hin. unfold Reads.findAll in Hin.
    apply Horder in Hin. apply List.filter_In in Hin as [Hin Hkeep].
    apply in_map_iff in Hin as ([k s'] & Hs & Hin). cbn in Hs. subst s'.
    apply list_elem_of_In, elem_of_map_to_list in Hin.
    split; [exists k; exact Hin |].
    apply andb_true_iff in Hkeep as [Hdriver Horganization]. split.
    - intros Hrole. rewrite Hrole in Hdriver. cbn in Hdriver. apply Z.eqb_eq. exact Hdriver.
    - intros org Horg Hnonzero. rewrite Horg in Horganization.
      cbn [truthy_id] in Horganization.
      replace (Z.eqb org 0) with false in Horganization
        by (symmetry; apply Z.eqb_neq; exact Hnonzero).
      cbn [negb orb] in Horganization.
      destruct (ShipmentModel.organization_id s) as [o |]; [| discriminate].
      cbn [id_differs] in Horganization. apply negb_true_iff, negb_false_iff in Horganization.
      apply Z.eqb_eq in Horganization. congruence. }
  assert (Hfilter : forall keep l,
             Forall (fun s => (exists k, shipments !! k = Some s) /\ within_reach user s) l ->
             Forall (fun s => (exists k, shipments !! k = Some s) /\ within_reach user s)
               (List.filter keep l)).
  { intros keep l Hl. rewrite List.Forall_forall in Hl |- *.
    intros s Hin. apply List.filter_In in Hin as [Hin _]. exact (Hl s Hin). }
  destruct (truthy (field query "driver_id") && String.eqb (role user) "admin");
    [apply Hfilter |];
    (destruct (field query "status") as [| | q | wanted | b]; try exact Hall;
     destruct (String.eqb wanted ""); [exact Hall | apply Hfilter; exact Hall]).
Qed.

(** The administrator of organization 7 lists the shipments. *)
Lemma administrator_of_7_lists_shipment_1 :
  1%nat = length [ShipmentModel.mkShipment 1 2 (Some 7) "pending"]
  /\ Forall (fun s =>
               (exists k, Scenario.one_shipment !! k = Some s)
               /\ within_reach Scenario.admin_of_7 s)
       [ShipmentModel.mkShipment 1 2 (Some 7) "pending"].
Proof.
  apply (shipments_are_listed_within_reach Scenario.no_numeric_text Scenario.decimal
           Scenario.as_held Scenario.admin_of_7 ∅ Scenario.one_shipment).
  - intros rows row Hin. exact Hin.
  - vm_compute. reflexivity.
Defined.
